(** * RunBookTimeline: the ingestion pipeline of [workshift.py]

    A shallow embedding of [try_read_csv], [clean_and_validate_data],
    [parse_dates] and [read_and_process_data], with the properties of the
    pipeline proved over it, and of [create_gantt_chart] and [main] over
    a [runtime] for what they take from Python and plotly.

    Conventions of the embedding:
    - a Python [str] of code points below 256 is a Rocq [string], a
      character being its code point;
    - a pandas [DataFrame] is a [frame]: its column labels and its rows,
      every row its index label with a finite map from labels to cells;
      a [table], the frame a reader returns, has with it what pandas
      answers from the dtypes, which a [frame] does not hold;
    - the file system and the pandas readers are a [world];
    - every [print] of the source is an [event] of the returned log;
    - a raised exception is an [error] returned in place of the value;
    - a timestamp is a number of seconds since 1970-01-01 00:00;
    - the hours of [Duration (Hours)] are the exact fraction of the elapsed
      seconds over 3600; [binary64] gives the float the division rounds
      that fraction to. *)

From Stdlib Require Import String Ascii ZArith QArith Floats Uint63.
From Stdlib Require Import DecimalString.
From stdpp Require Import gmap strings list fin_maps.

Close Scope Q_scope.
Local Open Scope nat_scope.
Local Open Scope string_scope.
Local Open Scope list_scope.

(** ** Python strings *)

Module PyStr.

Definition chars (s : string) : list ascii := list_ascii_of_string s.

(** [s.startswith(p)] *)
Definition startswith (p s : string) : bool := String.prefix p s.

(** [c.lower()] on a code point below 256: the capitals there are [A] to
    [Z] and 192 to 222 but for the multiplication sign, 215. *)
Definition lower_ascii (c : ascii) : ascii :=
  let n := nat_of_ascii c in
  if ((65 <=? n)%nat && (n <=? 90)%nat)
     || ((192 <=? n)%nat && (n <=? 222)%nat && negb (n =? 215)%nat)
  then ascii_of_nat (n + 32) else c.

(** [s.lower()] *)
Fixpoint lower (s : string) : string :=
  match s with
  | EmptyString => EmptyString
  | String c r => String (lower_ascii c) (lower r)
  end.

(** [x in xs] for a list of strings. *)
Definition mem (x : string) (xs : list string) : bool :=
  existsb (String.eqb x) xs.

End PyStr.

(** ** [os.path.splitext] *)

Module OsPath.

(** The characters before the first separator of a reversed path: the
    reversed last component. *)
Fixpoint rev_basename (seps : list ascii) (r : list ascii) : list ascii :=
  match r with
  | [] => []
  | c :: r' =>
      if existsb (Ascii.eqb c) seps then [] else c :: rev_basename seps r'
  end.

(** Splits a reversed component at its first dot (the last dot of the
    component): the reversed extension, dot included, and what precedes
    the dot. *)
Fixpoint split_dot (r : list ascii) : option (list ascii * list ascii) :=
  match r with
  | [] => None
  | c :: r' =>
      if Ascii.eqb c "."%char then Some ([c], r')
      else match split_dot r' with
           | Some (e, stem) => Some (c :: e, stem)
           | None => None
           end
  end.

(** [os.path.splitext(p)[1]]: the extension starts at the last dot of the
    last component, unless only dots precede it there. [seps] is
    [os.sep] with [os.altsep]. *)
Definition ext (seps : list ascii) (p : string) : string :=
  match split_dot (rev_basename seps (rev (PyStr.chars p))) with
  | Some (e, stem) =>
      if forallb (Ascii.eqb "."%char) stem then ""
      else string_of_list_ascii (rev e)
  | None => ""
  end.

Definition posix_seps : list ascii := ["/"%char].
Definition nt_seps : list ascii := ["\"%char; "/"%char].

End OsPath.

(** ** [datetime.strptime] for the two formats of the program *)

Module Strptime.

(** A backtracking matcher: the alternatives of a regular expression in
    the order in which [re] tries them, each with the rest of the input. *)
Definition parser (A : Type) : Type := list ascii -> list (A * list ascii).

Definition pret {A : Type} (a : A) : parser A := fun s => [(a, s)].

Definition pbind {A B : Type} (p : parser A) (f : A -> parser B) : parser B :=
  fun s => flat_map (fun ar => f (fst ar) (snd ar)) (p s).

Definition palt {A : Type} (p q : parser A) : parser A :=
  fun s => p s ++ q s.

Notation "x <- p ;; q" := (pbind p (fun x => q))
  (at level 20, p at level 99, q at level 200, only parsing).
Notation "p <|> q" := (palt p q) (at level 62, right associativity).

(** A character class [[lo-hi]] of decimal digits, giving the digit. *)
Definition digit_in (lo hi : nat) : parser nat :=
  fun s =>
    match s with
    | c :: r =>
        let n := nat_of_ascii c in
        if (48 + lo <=? n)%nat && (n <=? 48 + hi)%nat then [((n - 48)%nat, r)]
        else []
    | [] => []
    end.

(** [\d] *)
Definition digit : parser nat := digit_in 0 9.

Definition lit (c : ascii) : parser unit :=
  fun s =>
    match s with
    | c' :: r => if Ascii.eqb c c' then [(tt, r)] else []
    | [] => []
    end.

(** The code points below 256 that [\s] matches in a [str]: tab to
    carriage return, the four separators 28 to 31, the space, the next
    line 133 and the no-break space 160. *)
Definition is_space (c : ascii) : bool :=
  let n := nat_of_ascii c in
  ((9 <=? n)%nat && (n <=? 13)%nat) || ((28 <=? n)%nat && (n <=? 32)%nat)
  || (n =? 133)%nat || (n =? 160)%nat.

(** [\s+], greedy: the longest run first. *)
Fixpoint spaces (s : list ascii) : list (unit * list ascii) :=
  match s with
  | c :: r => if is_space c then spaces r ++ [(tt, r)] else []
  | [] => []
  end.

(** [%d]: [3[0-1]|[1-2]\d|0[1-9]|[1-9]| [1-9]] *)
Definition p_day : parser nat :=
  (a <- digit_in 3 3 ;; b <- digit_in 0 1 ;; pret (10 * a + b)%nat)
  <|> (a <- digit_in 1 2 ;; b <- digit ;; pret (10 * a + b)%nat)
  <|> (_ <- digit_in 0 0 ;; b <- digit_in 1 9 ;; pret b)
  <|> digit_in 1 9
  <|> (_ <- lit " "%char ;; b <- digit_in 1 9 ;; pret b).

(** [%m]: [1[0-2]|0[1-9]|[1-9]] *)
Definition p_month : parser nat :=
  (a <- digit_in 1 1 ;; b <- digit_in 0 2 ;; pret (10 * a + b)%nat)
  <|> (_ <- digit_in 0 0 ;; b <- digit_in 1 9 ;; pret b)
  <|> digit_in 1 9.

(** [%y]: [\d\d], with the century of POSIX: 69 to 99 are 1969 to 1999,
    0 to 68 are 2000 to 2068. *)
Definition p_year2 : parser nat :=
  a <- digit ;; b <- digit ;;
  let y := (10 * a + b)%nat in
  pret (if (y <=? 68)%nat then 2000 + y else 1900 + y)%nat.

(** [%Y]: [\d\d\d\d] *)
Definition p_year4 : parser nat :=
  a <- digit ;; b <- digit ;; c <- digit ;; d <- digit ;;
  pret (1000 * a + 100 * b + 10 * c + d)%nat.

(** [%H]: [2[0-3]|[0-1]\d|\d] *)
Definition p_hour : parser nat :=
  (a <- digit_in 2 2 ;; b <- digit_in 0 3 ;; pret (10 * a + b)%nat)
  <|> (a <- digit_in 0 1 ;; b <- digit ;; pret (10 * a + b)%nat)
  <|> digit.

(** [%M]: [[0-5]\d|\d] *)
Definition p_minute : parser nat :=
  (a <- digit_in 0 5 ;; b <- digit ;; pret (10 * a + b)%nat)
  <|> digit.

Record datetime : Type := Datetime
  { year : nat; month : nat; day : nat; hour : nat; minute : nat }.

(** The regular expression of [%d/%m/<year> %H:%M]. *)
Definition p_format (p_year : parser nat) : parser datetime :=
  d <- p_day ;; _ <- lit "/"%char ;; m <- p_month ;; _ <- lit "/"%char ;;
  y <- p_year ;; _ <- spaces ;; h <- p_hour ;; _ <- lit ":"%char ;;
  mi <- p_minute ;; pret (Datetime y m d h mi).

Definition is_leap (y : nat) : bool :=
  ((y mod 4 =? 0) && negb (y mod 100 =? 0) || (y mod 400 =? 0))%nat.

Definition days_in_month (y m : nat) : nat :=
  match m with
  | 2 => if is_leap y then 29 else 28
  | 4 | 6 | 9 | 11 => 30
  | _ => 31
  end.

(** What the [datetime] constructor accepts of a match. *)
Definition valid (d : datetime) : bool :=
  ((1 <=? year d) && (day d <=? days_in_month (year d) (month d)))%nat.

(** [datetime.strptime(s, format)]: the first match of the expression
    must end where the string ends, and the fields must make a date;
    [None] is Python's [ValueError]. *)
Definition strptime (p_year : parser nat) (s : string) : option datetime :=
  match p_format p_year (PyStr.chars s) with
  | (d, []) :: _ => if valid d then Some d else None
  | _ => None
  end.

(** ['%d/%m/%y %H:%M'], the format of the date cells. *)
Definition strptime_cell : string -> option datetime := strptime p_year2.

(** ['%d/%m/%Y %H:%M'], the format of the two bounds of the window. *)
Definition strptime_bound : string -> option datetime := strptime p_year4.

(** Days of the years before [y], as [datetime] counts them. *)
Definition days_before_year (y : Z) : Z :=
  let p := (y - 1)%Z in (p * 365 + p / 4 - p / 100 + p / 400)%Z.

Fixpoint days_before_month (y m : nat) : nat :=
  match m with
  | O => O
  | S O => O
  | S m' => (days_in_month y m' + days_before_month y m')%nat
  end.

(** [date.toordinal()] *)
Definition ordinal (d : datetime) : Z :=
  (days_before_year (Z.of_nat (year d))
   + Z.of_nat (days_before_month (year d) (month d))
   + Z.of_nat (day d))%Z.

(** Seconds from 1970-01-01 00:00 (ordinal 719163) to [d]. *)
Definition timestamp (d : datetime) : Z :=
  ((ordinal d - 719163) * 86400
   + Z.of_nat (hour d) * 3600 + Z.of_nat (minute d) * 60)%Z.

End Strptime.

(** ** Data frames *)

(** A cell as a reader gives it: missing ([NaN], [None], [NaT]), a Python
    [str], or any other scalar of a typed source (a number, a boolean, a
    spreadsheet date), kept with the text [str()] gives for it. *)
Inductive cell : Type :=
| NaN
| Str (s : string)
| Native (repr : string).

(** A cell of the frame the pipeline works on: a cell of the file, a
    [datetime] put there by [parse_dates], or the float of
    [Duration (Hours)]. *)
Inductive value : Type :=
| Raw (c : cell)
| Timestamp (t : Z)
| Hours (h : Q).

(** A [DataFrame]: the column labels in order, and the rows in order, each
    with its index label and its cells by column label. A label with no
    cell in a row reads as the missing value. *)
Record frame (A : Type) : Type := Frame
  { columns : list string; rows : list (nat * gmap string A) }.

Arguments Frame {A} columns rows.
Arguments columns {A} f.
Arguments rows {A} f.

Section FrameOps.

Context {A : Type}.

(** [row[col]], with [d] for a missing cell. *)
Definition at_column (d : A) (col : string) (r : nat * gmap string A) : A :=
  default d (snd r !! col).

(** [df[col]] as the list of its cells. *)
Definition column (d : A) (df : frame A) (col : string) : list A :=
  map (at_column d col) (rows df).

(** [df[mask]]: the rows the mask holds for, in their order. *)
Definition select (mask : nat * gmap string A -> bool) (df : frame A)
  : frame A :=
  Frame (columns df) (List.filter mask (rows df)).

(** [df[col] = vals]: the cells of an existing column are replaced, a
    new column is added last; [with_column] is what that does to the
    labels. *)
Definition with_column (col : string) (cols : list string) : list string :=
  if PyStr.mem col cols then cols else cols ++ [col].

Definition set_column (col : string) (vals : list A) (df : frame A)
  : frame A :=
  Frame (with_column col (columns df))
    (map (fun rv => (fst (fst rv), <[col := snd rv]> (snd (fst rv))))
       (combine (rows df) vals)).

(** [df.empty]: one of the two axes has no label. *)
Definition empty (df : frame A) : bool :=
  match rows df, columns df with
  | [], _ | _, [] => true
  | _ :: _, _ :: _ => false
  end.

(** The index labels of the rows, in order. *)
Definition index (df : frame A) : list nat := map fst (rows df).

(** [df.values] with the index: the cells of every row in the order of
    the columns. *)
Definition records (d : A) (df : frame A) : list (nat * list A) :=
  map (fun r => (fst r, map (fun col => at_column d col r) (columns df)))
    (rows df).

(** A row from its index label and its cells in the order of [cols]. *)
Definition row (cols : list string) (i : nat) (cells : list A)
  : nat * gmap string A :=
  (i, list_to_map (zip cols cells)).

End FrameOps.

(** Whether a value of a column is a Python [str]. *)
Definition is_text (v : value) : bool :=
  match v with
  | Raw (Str _) => true
  | _ => false
  end.

(** A [DataFrame] as a reader returns it: its cells and, for what pandas
    holds of it beyond them (the dtype of a column, the types of the
    scalars that are no strings), the answer it decides: whether the
    [.str] accessor is given on a column of which the values [vs] are
    left, none of them a string. *)
Record table : Type := Table
  { cells :> frame cell;
    str_without_text : list value -> bool }.

(** ** Errors, diagnostics and the world *)

Inductive read_failure : Type :=
| UnicodeDecodeError
| Unexpected (msg : string).

Inductive read_result : Type :=
| ReadOk (df : table)
| ReadFail (f : read_failure).

Inductive decode_failure : Type :=
| NoEncodingSucceeded
| ReaderRaised (f : read_failure).

Inductive bound : Type := StartBound | EndBound.

Inductive empty_stage : Type :=
| NoValidData
| NoProdTask
| NoTaskInRange (start_date_filter end_date_filter : string).

(** The exceptions of the program, under the names of the specification:
    [FileNotFoundError], the [ValueError]s of the stages told apart by
    their message, what a reader raises, the [AttributeError] of the
    [.str] accessor, and the [Exception] of line 195 around its cause. *)
Inductive error : Type :=
| FileNotFound (file_path : string)
| UnsupportedFormat (file_extension : string)
| DecodeError (f : decode_failure)
| SchemaError (missing_columns : list string)
| InvalidWindowError (which : bound) (raw : string)
| EmptyResultError (stage : empty_stage)
| AttributeError
| ProcessingError (cause : error).

(** The lines the program prints. *)
Inductive event : Type :=
| TryEncoding (encoding : string)
| EncodingSucceeded (encoding : string)
| EncodingFailed (encoding : string)
| EncodingUnexpected (encoding msg : string)
| ShowColumns (cols : list string)
| ShowHead (head : list (nat * gmap string cell))
| ProcessingColumn (date_col : string)
| UnparsableDate (raw : string)
| InvalidDates (date_col : string) (invalid_dates : list (nat * value)).

(** What the program sees of its surroundings: [os.path.exists], the
    separators of [os.path], [pd.read_csv] by path and encoding and
    [pd.read_excel] by path and engine. *)
Record world : Type := World
  { path_exists : string -> bool;
    path_seps : list ascii;
    read_csv : string -> string -> read_result;
    read_excel : string -> string -> read_result }.

(** ** Computations that print and may raise *)

Inductive outcome (A : Type) : Type :=
| Ok (a : A)
| Raise (e : error).

Arguments Ok {A} a.
Arguments Raise {A} e.

Definition M (A : Type) : Type := list event * outcome A.

Definition ret {A : Type} (a : A) : M A := ([], Ok a).

Definition raise {A : Type} (e : error) : M A := ([], Raise e).

Definition print (ev : event) : M unit := ([ev], Ok tt).

Definition lift {A : Type} (o : outcome A) : M A := ([], o).

Definition bind {A B : Type} (m : M A) (k : A -> M B) : M B :=
  match m with
  | (out, Ok a) => match k a with (out', o) => (out ++ out', o) end
  | (out, Raise e) => (out, Raise e)
  end.

Notation "x <- m ;; k" := (bind m (fun x => k))
  (at level 20, m at level 99, k at level 200, only parsing).

(** What was printed, and what was returned or raised. *)
Definition log {A : Type} (m : M A) : list event := fst m.
Definition result {A : Type} (m : M A) : outcome A := snd m.

(** [for x in xs: f(x)], keeping the values. *)
Fixpoint mapM {A B : Type} (f : A -> M B) (xs : list A) : M (list B) :=
  match xs with
  | [] => ret []
  | x :: xs' => y <- f x ;; ys <- mapM f xs' ;; ret (y :: ys)
  end.

(** [for x in xs: acc = f(acc, x)] *)
Fixpoint foldM {A B : Type} (f : B -> A -> M B) (acc : B) (xs : list A) : M B :=
  match xs with
  | [] => ret acc
  | x :: xs' => acc' <- f acc x ;; foldM f acc' xs'
  end.

(** [try: m  except Exception as e: raise Exception(... e ...)] *)
Definition wrap {A : Type} (m : M A) : M A :=
  match m with
  | (out, Ok a) => (out, Ok a)
  | (out, Raise e) => (out, Raise (ProcessingError e))
  end.

(** ** The program *)

Definition encodings : list string := ["utf-8"; "latin1"; "iso-8859-1"; "cp1252"].

(** The loop of [try_read_csv] over the encodings still to try. *)
Fixpoint try_encodings (w : world) (file_path : string) (encs : list string)
  : M table :=
  match encs with
  | [] => raise (DecodeError NoEncodingSucceeded)
  | encoding :: encs' =>
      _ <- print (TryEncoding encoding) ;;
      match read_csv w file_path encoding with
      | ReadOk df => _ <- print (EncodingSucceeded encoding) ;; ret df
      | ReadFail UnicodeDecodeError =>
          _ <- print (EncodingFailed encoding) ;; try_encodings w file_path encs'
      | ReadFail (Unexpected msg) =>
          _ <- print (EncodingUnexpected encoding msg) ;;
          try_encodings w file_path encs'
      end
  end.

Definition try_read_csv (w : world) (file_path : string) : M table :=
  try_encodings w file_path encodings.

Definition required_columns : list string :=
  ["Activity Number"; "Activity"; "Milestone/task"; "Start Date (CET)";
   "End Date (CET)"; "Responsible Person"].

(** [pd.isna] *)
Definition isna (c : cell) : bool :=
  match c with NaN => true | _ => false end.

(** [df.dropna(how='all')] *)
Definition dropna_all (df : frame cell) : frame cell :=
  select (fun r => negb (forallb (fun col => isna (at_column NaN col r))
                           (columns df))) df.

(** [[col for col in required_columns if col not in columns]] *)
Definition missing_columns (cols : list string) : list string :=
  List.filter (fun col => negb (PyStr.mem col cols)) required_columns.

Definition clean_and_validate_data (df : frame cell) : outcome (frame cell) :=
  let df := dropna_all df in
  match missing_columns (columns df) with
  | [] => Ok df
  | missing => Raise (SchemaError missing)
  end.

(** [str(c)] *)
Definition py_str (c : cell) : string :=
  match c with
  | NaN => "nan"
  | Str s => s
  | Native repr => repr
  end.

Definition date_formats : list (string -> option Strptime.datetime) :=
  [Strptime.strptime_cell].

(** The loop of [parse_dates] over the formats: the first that parses. *)
Fixpoint first_format (formats : list (string -> option Strptime.datetime))
  (s : string) : option Strptime.datetime :=
  match formats with
  | [] => None
  | date_format :: formats' =>
      match date_format s with
      | Some d => Some d
      | None => first_format formats' s
      end
  end.

Definition parse_dates (date_str : cell) : M (option Z) :=
  if isna date_str then ret None
  else
    match first_format date_formats (py_str date_str) with
    | Some d => ret (Some (Strptime.timestamp d))
    | None => _ <- print (UnparsableDate (py_str date_str)) ;; ret None
    end.

(** The cell a result of [parse_dates] makes in its column: [None] is
    [NaT]. *)
Definition date_value (o : option Z) : value :=
  match o with
  | Some t => Timestamp t
  | None => Raw NaN
  end.

Definition isna_value (v : value) : bool :=
  match v with Raw NaN => true | _ => false end.

Definition as_time (v : value) : option Z :=
  match v with Timestamp t => Some t | _ => None end.

Definition get (col : string) (r : nat * gmap string value) : value :=
  at_column (Raw NaN) col r.

(** One turn of the loop of lines 147 to 153. The cells parsed are those
    the file gave for [date_col]: the two date columns are different
    columns, so a turn never reads what another turn wrote. *)
Definition convert_dates (file : frame cell) (df : frame value)
  (date_col : string) : M (frame value) :=
  _ <- print (ProcessingColumn date_col) ;;
  parsed <- mapM parse_dates (column NaN file date_col) ;;
  let df := set_column date_col (map date_value parsed) df in
  let invalid_dates := select (fun r => isna_value (get date_col r)) df in
  _ <- (if negb (empty invalid_dates)
        then print (InvalidDates date_col
                      (map (fun r => (fst r, get "Activity Number" r))
                         (rows invalid_dates)))
        else ret tt) ;;
  ret df.

(** The frame of the file as the frame the pipeline works on. *)
Definition working (df : frame cell) : frame value :=
  Frame (columns df) (map (fun r => (fst r, Raw <$> snd r)) (rows df)).

(** [df.dropna(subset=['Start Date (CET)', 'End Date (CET)'])] *)
Definition dropna_dates (df : frame value) : frame value :=
  select (fun r => negb (isna_value (get "Start Date (CET)" r))
                   && negb (isna_value (get "End Date (CET)" r))) df.

(** [column.str]: pandas gives the accessor when the type it infers from
    the values that are not missing is string, mixed, mixed-integer, bytes
    or empty, and raises [AttributeError] otherwise. With a string among
    the values the type is one of the first three; with none, the answer
    is that of the table [read] the column was read in. *)
Definition str_accessor (read : table) (vs : list value) : bool :=
  existsb is_text vs || str_without_text read vs.

(** One element of [.str.startswith('Prod', na=False)]: what is not a
    string has no answer, and [na=False] makes that [False]. *)
Definition starts_with_prod (v : value) : bool :=
  match v with
  | Raw (Str s) => PyStr.startswith "Prod" s
  | _ => false
  end.

(** Lines 162 to 165, on the rows [df] left of the table [read]. *)
Definition filter_prefix (read : table) (df : frame value)
  : outcome (frame value) :=
  if str_accessor read (column (Raw NaN) df "Activity Number")
  then
    let df := select (fun r => starts_with_prod (get "Activity Number" r)) df in
    if empty df then Raise (EmptyResultError NoProdTask) else Ok df
  else Raise AttributeError.

(** Lines 168 to 176: the two bounds, the start first. *)
Definition parse_window (start_date_filter end_date_filter : string)
  : outcome (Z * Z) :=
  match Strptime.strptime_bound start_date_filter with
  | None => Raise (InvalidWindowError StartBound start_date_filter)
  | Some sd =>
      match Strptime.strptime_bound end_date_filter with
      | None => Raise (InvalidWindowError EndBound end_date_filter)
      | Some ed => Ok (Strptime.timestamp sd, Strptime.timestamp ed)
      end
  end.

(** [column >= start_date] and [column <= end_date] on one element; a
    comparison with [NaT] is [False]. *)
Definition ge_date (v : value) (start_date : Z) : bool :=
  match as_time v with Some t => (start_date <=? t)%Z | None => false end.

Definition le_date (v : value) (end_date : Z) : bool :=
  match as_time v with Some t => (t <=? end_date)%Z | None => false end.

Definition in_range (start_date end_date : Z)
  (r : nat * gmap string value) : bool :=
  ge_date (get "Start Date (CET)" r) start_date
  && le_date (get "End Date (CET)" r) end_date.

Definition filter_range (start_date_filter end_date_filter : string)
  (start_date end_date : Z) (df : frame value) : outcome (frame value) :=
  let df := select (in_range start_date end_date) df in
  if empty df
  then Raise (EmptyResultError (NoTaskInRange start_date_filter end_date_filter))
  else Ok df.

(** [(end - start).total_seconds() / 3600] on one element. *)
Definition duration_hours (end_v start_v : value) : value :=
  match as_time end_v, as_time start_v with
  | Some e, Some s => Hours (inject_Z (e - s) / inject_Z 3600)%Q
  | _, _ => Raw NaN
  end.

Definition add_duration (df : frame value) : frame value :=
  set_column "Duration (Hours)"
    (map (fun r => duration_hours (get "End Date (CET)" r)
                     (get "Start Date (CET)" r)) (rows df))
    df.

(** Lines 129 to 136: the reader of the extension. *)
Definition read_file (w : world) (file_path file_extension : string)
  : M table :=
  let excel engine :=
    match read_excel w file_path engine with
    | ReadOk df => ret df
    | ReadFail f => raise (DecodeError (ReaderRaised f))
    end in
  if String.eqb file_extension ".xlsx" then excel "openpyxl"
  else if String.eqb file_extension ".xls" then excel "xlrd"
  else if String.eqb file_extension ".csv" then try_read_csv w file_path
  else raise (UnsupportedFormat file_extension).

(** The body of the [try] of [read_and_process_data], lines 128 to 192. *)
Definition try_body (w : world) (file_path start_date_filter end_date_filter : string)
  : M (frame value) :=
  let file_extension := PyStr.lower (OsPath.ext (path_seps w) file_path) in
  read <- read_file w file_path file_extension ;;
  _ <- print (ShowColumns (columns read)) ;;
  _ <- print (ShowHead (firstn 5 (rows read))) ;;
  file <- lift (clean_and_validate_data read) ;;
  df <- foldM (convert_dates file) (working file)
          ["Start Date (CET)"; "End Date (CET)"] ;;
  let df := dropna_dates df in
  _ <- (if empty df then raise (EmptyResultError NoValidData) else ret tt) ;;
  df <- lift (filter_prefix read df) ;;
  window <- lift (parse_window start_date_filter end_date_filter) ;;
  df <- lift (filter_range start_date_filter end_date_filter
                (fst window) (snd window) df) ;;
  ret (add_duration df).

Definition read_and_process_data (w : world)
  (file_path start_date_filter end_date_filter : string) : M (frame value) :=
  if negb (path_exists w file_path) then raise (FileNotFound file_path)
  else wrap (try_body w file_path start_date_filter end_date_filter).

(** ** Notions the statements use *)

(** The encodings a log shows were tried, in order. *)
Definition attempts (out : list event) : list string :=
  flat_map (fun ev => match ev with TryEncoding enc => [enc] | _ => [] end) out.

(** A read that raised, whatever it raised. *)
Definition read_failed (r : read_result) : Prop :=
  exists f, r = ReadFail f.

(** The date a cell stands for, if any: what [parse_dates] returns. *)
Definition parse_cell (c : cell) : option Z :=
  if isna c then None
  else option_map Strptime.timestamp (first_format date_formats (py_str c)).

(** The parse failure [parse_dates] prints for a cell: the text of a cell
    that is not missing and matches no format. *)
Definition failure_of (c : cell) : list event :=
  if isna c then []
  else match first_format date_formats (py_str c) with
       | Some _ => []
       | None => [UnparsableDate (py_str c)]
       end.

(** The parse failures over the cells of a column, in order. *)
Definition failures (cs : list cell) : list event := flat_map failure_of cs.

(** A row of the file once its two date cells are converted. *)
Definition normalize_row (r : nat * gmap string cell) : nat * gmap string value :=
  (fst r,
   <["End Date (CET)" := date_value (parse_cell (at_column NaN "End Date (CET)" r))]>
     (<["Start Date (CET)" := date_value (parse_cell (at_column NaN "Start Date (CET)" r))]>
        (Raw <$> snd r))).

(** The frame after the loop of lines 147 to 153. *)
Definition normalized (file : frame cell) : frame value :=
  Frame (with_column "End Date (CET)" (with_column "Start Date (CET)" (columns file)))
    (map normalize_row (rows file)).

(** A row with its duration set. *)
Definition with_duration (r : nat * gmap string value) : nat * gmap string value :=
  (fst r,
   <["Duration (Hours)" := duration_hours (get "End Date (CET)" r)
                             (get "Start Date (CET)" r)]> (snd r)).

(** Sequencing of results without output. *)
Definition and_then {A B : Type} (o : outcome A) (k : A -> outcome B) : outcome B :=
  match o with
  | Ok a => k a
  | Raise e => Raise e
  end.

(** The stages from the decoded table to the frame the range filter
    receives: validation, conversion of the dates, removal of the rows
    without dates, prefix filter. *)
Definition before_range (read : table) : outcome (frame value) :=
  and_then (clean_and_validate_data read) (fun file =>
  let df := dropna_dates (normalized file) in
  if empty df then Raise (EmptyResultError NoValidData)
  else filter_prefix read df).

(** The stages from the decoded table to the result. *)
Definition stages (start_date_filter end_date_filter : string) (df : table)
  : outcome (frame value) :=
  and_then (before_range df) (fun df =>
  and_then (parse_window start_date_filter end_date_filter) (fun window =>
  and_then (filter_range start_date_filter end_date_filter
              (fst window) (snd window) df) (fun df =>
  Ok (add_duration df)))).

(** An integer of fewer than 63 bits as a float, as the conversion of
    [total_seconds()] gives it. *)
Definition float_of_Z (z : Z) : float :=
  match z with
  | Z0 => PrimFloat.zero
  | Zpos n => PrimFloat.of_uint63 (Uint63.of_Z (Zpos n))
  | Zneg n => PrimFloat.opp (PrimFloat.of_uint63 (Uint63.of_Z (Zpos n)))
  end.

(** The float of a fraction: its numerator divided by its denominator in
    binary64, rounded once. *)
Definition binary64 (h : Q) : float :=
  PrimFloat.div (float_of_Z (Qnum h)) (float_of_Z (Zpos (Qden h))).

(** The errors of the stages inside the [try]. *)
Definition stage_error (e : error) : Prop :=
  match e with
  | UnsupportedFormat _ | DecodeError _ | SchemaError _
  | InvalidWindowError _ _ | EmptyResultError _ | AttributeError => True
  | FileNotFound _ | ProcessingError _ => False
  end.

(** The extension [read_and_process_data] dispatches on. *)
Definition extension (w : world) (file_path : string) : string :=
  PyStr.lower (OsPath.ext (path_seps w) file_path).

(** ** Sample data *)

Module Sample.

Definition task (i : nat) (activity_number start_date end_date : cell)
  : nat * gmap string cell :=
  row required_columns i
    [activity_number; Str "Cutover"; Str "Switch traffic"; start_date;
     end_date; Str "Ana"].

(** The [.str] accessor on a column of text of a CSV file of which no
    string is left: the values left are all missing, the type inferred is
    empty, and the accessor is given. *)
Definition of_text (vs : list value) : bool := forallb isna_value vs.

(** A run book with a task that ends before it starts (index 1), an
    identifier in lower case, a date that does not parse and a missing
    date. *)
Definition runbook : table :=
  Table
    (Frame required_columns
       [task 0 (Str "Prod1") (Str "08/11/24 10:00") (Str "08/11/24 12:30");
        task 1 (Str "Prod2") (Str "10/11/24 00:00") (Str "08/11/24 00:00");
        task 2 (Str "prod3") (Str "08/11/24 10:00") (Str "08/11/24 12:30");
        task 3 (Str "Prod4") (Str "soon") (Str "08/11/24 12:30");
        task 4 (Str "Prod5") NaN (Str "08/11/24 12:30")])
    of_text.

(** A run book in which every task ends after it starts. *)
Definition ordered : table :=
  Table
    (Frame required_columns
       [task 0 (Str "Prod1") (Str "08/11/24 10:00") (Str "08/11/24 12:30");
        task 1 (Str "Prod2") (Str "09/11/24 11:30") (Str "09/11/24 11:45")])
    of_text.

(** A run book of which no task has an identifier: pandas holds a column
    of missing values only as floats, and gives no [.str] accessor on
    it. *)
Definition unnumbered : table :=
  Table
    (Frame required_columns
       [task 0 NaN (Str "08/11/24 10:00") (Str "08/11/24 12:30");
        task 1 NaN (Str "09/11/24 11:30") (Str "09/11/24 11:45")])
    (fun _ => false).

(** Three files, which do not decode as UTF-8 and do as Latin-1; no other
    path exists. *)
Definition world : world :=
  World
    (fun file_path =>
       String.eqb file_path "runbook.csv" || String.eqb file_path "ordered.csv"
       || String.eqb file_path "unnumbered.csv")
    OsPath.posix_seps
    (fun file_path encoding =>
       if String.eqb encoding "utf-8" then ReadFail UnicodeDecodeError
       else if String.eqb file_path "runbook.csv" then ReadOk runbook
       else if String.eqb file_path "ordered.csv" then ReadOk ordered
       else if String.eqb file_path "unnumbered.csv" then ReadOk unnumbered
       else ReadFail (Unexpected "No such file or directory"))
    (fun file_path engine => ReadFail (Unexpected "File is not a workbook")).

(** A table without the columns [Activity] and [Responsible Person]. *)
Definition partial : frame cell :=
  Frame ["Activity Number"; "Milestone/task"; "Start Date (CET)";
         "End Date (CET)"; "Notes"]
    [row ["Activity Number"; "Milestone/task"; "Start Date (CET)";
          "End Date (CET)"; "Notes"] 0
       [Str "Prod1"; Str "Switch traffic"; Str "08/11/24 10:00";
        Str "08/11/24 12:30"; NaN]].

(** The frame the range filter receives for [ordered]. *)
Definition ordered_frame : frame value :=
  dropna_dates (normalized ordered).

End Sample.

(** ** Notions of the further properties *)

(** What the prefix filter asks of the identifier the file gave. *)
Definition is_prod (c : cell) : bool :=
  match c with
  | Str s => PyStr.startswith "Prod" s
  | _ => false
  end.

(** Whether a run with the window from [start_date] to [end_date] keeps a
    row of the decoded table: its two dates parse and lie in the window,
    and its identifier starts with [Prod]. *)
Definition kept (start_date end_date : Z) (r : nat * gmap string cell) : bool :=
  match parse_cell (at_column NaN "Start Date (CET)" r),
        parse_cell (at_column NaN "End Date (CET)" r) with
  | Some s, Some e =>
      (start_date <=? s)%Z && (e <=? end_date)%Z
      && is_prod (at_column NaN "Activity Number" r)
  | _, _ => false
  end.

(** A row of the decoded table as the result holds it. *)
Definition finish (r : nat * gmap string cell) : nat * gmap string value :=
  with_duration (normalize_row r).

(** The texts of the parse failures a log shows, in order. *)
Definition unparsable (out : list event) : list string :=
  flat_map (fun ev => match ev with UnparsableDate raw => [raw] | _ => [] end) out.

(** The warnings about invalid dates a log shows, in order. *)
Definition warnings (out : list event) : list (string * list (nat * value)) :=
  flat_map (fun ev => match ev with
                      | InvalidDates col invalid => [(col, invalid)]
                      | _ => []
                      end) out.

(** A cell [parse_dates] fails on: not missing, and no date. *)
Definition unparsable_cell (c : cell) : bool :=
  negb (isna c) && match parse_cell c with Some _ => false | None => true end.

(** A row without a date in [date_col] once the column is converted. *)
Definition undated (date_col : string) (r : nat * gmap string cell) : bool :=
  match parse_cell (at_column NaN date_col r) with
  | Some _ => false
  | None => true
  end.

(** The warning the conversion of [date_col] prints for a table: none
    when every row has its date, else the index and the identifier of
    the rows that have not. *)
Definition warning_of (file : frame cell) (date_col : string)
  : list (string * list (nat * value)) :=
  match List.filter (undated date_col) (rows file) with
  | [] => []
  | invalid =>
      [(date_col,
        map (fun r => (fst r, Raw (at_column NaN "Activity Number" r))) invalid)]
  end.

(** A parser that takes only characters with [P] off the input. *)
Definition consumes {A : Type} (P : ascii -> Prop) (p : Strptime.parser A) : Prop :=
  forall s v r, In (v, r) (p s) -> exists pre, s = pre ++ r /\ Forall P pre.

Definition not_slash (c : ascii) : Prop := c <> "/"%char.

(** The fields of a date that are those of a minute of the calendar. *)
Definition calendar_minute (d : Strptime.datetime) : Prop :=
  1 <= Strptime.month d <= 12
  /\ 1 <= Strptime.day d <= Strptime.days_in_month (Strptime.year d) (Strptime.month d)
  /\ Strptime.hour d <= 23
  /\ Strptime.minute d <= 59.

(** A row of the decoded table with its two dates. *)
Definition dated (r : nat * gmap string cell) : bool :=
  match parse_cell (at_column NaN "Start Date (CET)" r),
        parse_cell (at_column NaN "End Date (CET)" r) with
  | Some _, Some _ => true
  | _, _ => false
  end.

(** The identifiers of the rows of the decoded table that have their two
    dates: the values the [.str] accessor is asked on. *)
Definition dated_identifiers (df : frame cell) : list value :=
  map (fun r => Raw (at_column NaN "Activity Number" r))
    (List.filter dated (rows df)).

(** What a run makes of a decoded table, read off its rows: the first of
    the six failures that applies, else the rows kept. *)
Definition decide (start_date_filter end_date_filter : string) (df : table)
  : outcome (frame value) :=
  match missing_columns (columns df) with
  | _ :: _ => Raise (SchemaError (missing_columns (columns df)))
  | [] =>
      match List.filter dated (rows df) with
      | [] => Raise (EmptyResultError NoValidData)
      | _ :: _ =>
          if negb (str_accessor df (dated_identifiers df))
          then Raise AttributeError
          else
          match List.filter
                  (fun r => dated r && is_prod (at_column NaN "Activity Number" r))
                  (rows df) with
          | [] => Raise (EmptyResultError NoProdTask)
          | _ :: _ =>
              match parse_window start_date_filter end_date_filter with
              | Raise e => Raise e
              | Ok window =>
                  match List.filter (kept (fst window) (snd window)) (rows df) with
                  | [] =>
                      Raise (EmptyResultError
                               (NoTaskInRange start_date_filter end_date_filter))
                  | _ :: _ =>
                      Ok (Frame (with_column "Duration (Hours)" (columns df))
                            (map finish
                               (List.filter (kept (fst window) (snd window))
                                  (rows df))))
                  end
              end
          end
      end
  end.

(** ** The chart and the entry point *)

(** The classes of exception the handlers of [main] tell apart:
    [FileNotFoundError], [ValueError], any other [Exception]. *)
Inductive exn_class : Type :=
| FileNotFoundClass
| ValueErrorClass
| OtherClass.

(** What a call of plotly raises, with its class. *)
Record py_exn : Type := PyExn { class_of_exn : exn_class; text_of_exn : string }.

(** An element of [gantt_data]. *)
Record gantt_task : Type := GanttTask
  { Task : value; Description : string; Start : value; Finish : value;
    Resource : value }.

(** The figure, as what it was made from: the tasks and the colours given
    to [ff.create_gantt], and the height of [update_layout]. *)
Record figure : Type := Figure
  { fig_tasks : list gantt_task; fig_colors : list (value * string);
    fig_height : nat }.

(** What the chart and [main] take from Python and plotly: [str()] of a
    timestamp and of a float, the equality of two cells as [unique()] and
    the keys of a dictionary have it, the draws of [randint(0, 255)] in the
    order of the calls, and the two calls of plotly, which may raise. *)
Record runtime : Type := Runtime
  { str_timestamp : Z -> string;
    str_float : Q -> string;
    same_key : value -> value -> bool;
    randint : nat -> nat;
    create_gantt : list gantt_task -> list (value * string) -> option py_exn;
    write_html : figure -> string -> option py_exn }.

(** [str(v)], as an f-string takes it. *)
Definition str_value (rt : runtime) (v : value) : string :=
  match v with
  | Raw c => py_str c
  | Timestamp t => str_timestamp rt t
  | Hours h => str_float rt h
  end.

(** [str(n)] *)
Definition str_nat (n : nat) : string := NilZero.string_of_uint (Nat.to_uint n).

(** The body of the first loop of [create_gantt_chart]. *)
Definition task_of (rt : runtime) (r : nat * gmap string value) : gantt_task :=
  let task_description :=
    String.append (str_value rt (get "Milestone/task" r))
      (String.append " - " (str_value rt (get "Activity" r))) in
  GanttTask (get "Activity Number" r) task_description
    (get "Start Date (CET)" r) (get "End Date (CET)" r)
    (get "Responsible Person" r).

(** The labels a row is asked for in the first loop, in the order in which
    it is asked. *)
Definition task_keys : list string :=
  ["Milestone/task"; "Activity"; "Activity Number"; "Start Date (CET)";
   "End Date (CET)"; "Responsible Person"].

(** [Series.unique()]: the values in the order in which each first
    appears; [seen] are those met so far. *)
Fixpoint unique_from (same : value -> value -> bool) (seen l : list value)
  : list value :=
  match l with
  | [] => []
  | v :: l' =>
      if existsb (fun u => same u v) seen then unique_from same seen l'
      else v :: unique_from same (seen ++ [v]) l'
  end.

Definition unique (same : value -> value -> bool) (l : list value) : list value :=
  unique_from same [] l.

(** [f'rgb({randint(0,255)}, {randint(0,255)}, {randint(0,255)})'] when
    [k] draws were made before. *)
Definition rgb (rt : runtime) (k : nat) : string :=
  String.append "rgb("
    (String.append (str_nat (randint rt k))
       (String.append ", "
          (String.append (str_nat (randint rt (k + 1)))
             (String.append ", "
                (String.append (str_nat (randint rt (k + 2))) ")"))))).

(** The second loop: a colour for each resource, three draws each. The
    resources are those of [unique()], no two of them the same key, so
    every assignment adds a key. *)
Fixpoint assign_colors (rt : runtime) (k : nat) (resources : list value)
  : list (value * string) :=
  match resources with
  | [] => []
  | resource :: rest => (resource, rgb rt k) :: assign_colors rt (k + 3) rest
  end.

Inductive chart_exn : Type :=
| KeyError (label : string)
| PlotlyError (e : py_exn).

(** [create_gantt_chart(df)] when [k] draws were made before: what it
    returns or raises, and the number of draws made after it. A label that
    is not a column is a [KeyError], at the first row for the labels of
    the first loop, at [df['Responsible Person']] for a frame without
    rows. *)
Definition create_gantt_chart (rt : runtime) (k : nat) (df : frame value)
  : (chart_exn + figure) * nat :=
  let absent := List.find (fun label => negb (PyStr.mem label (columns df))) in
  match (match rows df with [] => None | _ :: _ => absent task_keys end) with
  | Some label => (inl (KeyError label), k)
  | None =>
      let gantt_data := map (task_of rt) (rows df) in
      match absent ["Responsible Person"] with
      | Some label => (inl (KeyError label), k)
      | None =>
          let resources :=
            unique (same_key rt) (column (Raw NaN) df "Responsible Person") in
          let colors := assign_colors rt k resources in
          let k' := k + 3 * length resources in
          match create_gantt rt gantt_data colors with
          | Some e => (inl (PlotlyError e), k')
          | None =>
              (inr (Figure gantt_data colors (400 + length (rows df) * 30)), k')
          end
      end
  end.

(** What [main] caught. *)
Inductive caught : Type :=
| FromPipeline (e : error)
| FromChart (e : chart_exn)
| FromWrite (e : py_exn).

(** The handler of [main] an exception goes to. The errors of the
    pipeline are the [ValueError]s of the stages, but for
    [FileNotFoundError], the [AttributeError] of the accessor and the
    [Exception] of line 195; a [UnicodeDecodeError] is a [ValueError], and
    what else a reader raised counts as any other exception. A [KeyError]
    is no [ValueError]. *)
Definition handler_of (c : caught) : exn_class :=
  match c with
  | FromPipeline (FileNotFound _) => FileNotFoundClass
  | FromPipeline (ProcessingError _) => OtherClass
  | FromPipeline (DecodeError (ReaderRaised (Unexpected _))) => OtherClass
  | FromPipeline AttributeError => OtherClass
  | FromPipeline _ => ValueErrorClass
  | FromChart (KeyError _) => OtherClass
  | FromChart (PlotlyError e) => class_of_exn e
  | FromWrite e => class_of_exn e
  end.

(** The lines [main] prints and the file it writes. *)
Inductive main_event : Type :=
| ReadingFile (file_path : string)
| WindowLine (start_date_filter end_date_filter : string)
| Printed (ev : event)
| SummaryHeader
| TotalTasks (n : nat)
| DateRangeHeader
| EarliestStart (v : value)
| LatestEnd (v : value)
| PersonsHeader
| Persons (persons : list value)
| CreatingChart
| HtmlWritten (fig : figure) (output_file : string)
| ChartDone (output_file : string)
| TasksHeader
| TaskLine (activity_number : value)
| ActivityLine (activity : value)
| DescriptionLine (task : value)
| ResponsibleLine (person : value)
| DurationLine (hours : value)
| Separator
| ErrorLine (handler : exn_class) (c : caught)
| HintLine (handler : exn_class).

(** [Series.min()] and [Series.max()] of a column of timestamps; missing
    values are skipped, and a column without a timestamp has [NaT]. *)
Definition series_min (vs : list value) : value :=
  match omap as_time vs with
  | [] => Raw NaN
  | t :: ts => Timestamp (fold_left Z.min ts t)
  end.

Definition series_max (vs : list value) : value :=
  match omap as_time vs with
  | [] => Raw NaN
  | t :: ts => Timestamp (fold_left Z.max ts t)
  end.

(** The body of the last loop of [main]. *)
Definition task_lines (r : nat * gmap string value) : list main_event :=
  [TaskLine (get "Activity Number" r); ActivityLine (get "Activity" r);
   DescriptionLine (get "Milestone/task" r);
   ResponsibleLine (get "Responsible Person" r);
   DurationLine (get "Duration (Hours)" r); Separator].

(** The two lines of the handler that catches [c]. *)
Definition handle (c : caught) : list main_event :=
  [ErrorLine (handler_of c) c; HintLine (handler_of c)].

(** [main()], with no draw made before: the columns it reads of the
    result are columns of every result of [read_and_process_data]. *)
Definition main (w : world) (rt : runtime) : list main_event :=
  let file_path := "C:/Users/Admin/Documents/MinBook.csv" in
  let start_date_filter := "08/11/2024 17:00" in
  let end_date_filter := "10/11/2024 23:59" in
  let run := read_and_process_data w file_path start_date_filter end_date_filter in
  [ReadingFile file_path; WindowLine start_date_filter end_date_filter]
  ++ map Printed (log run)
  ++ match result run with
     | Raise e => handle (FromPipeline e)
     | Ok df =>
         [SummaryHeader; TotalTasks (length (rows df)); DateRangeHeader;
          EarliestStart (series_min (column (Raw NaN) df "Start Date (CET)"));
          LatestEnd (series_max (column (Raw NaN) df "End Date (CET)"));
          PersonsHeader;
          Persons (unique (same_key rt)
                     (column (Raw NaN) df "Responsible Person"));
          CreatingChart]
         ++ match fst (create_gantt_chart rt 0 df) with
            | inl e => handle (FromChart e)
            | inr fig =>
                let output_file := "gantt_chart.html" in
                match write_html rt fig output_file with
                | Some e => handle (FromWrite e)
                | None =>
                    [HtmlWritten fig output_file; ChartDone output_file;
                     TasksHeader]
                    ++ flat_map task_lines (rows df)
                end
            end
     end.

(** No value of [l] is the same key as one of [seen] or as one before it
    in [l]. *)
Fixpoint distinct_keys (same : value -> value -> bool) (seen l : list value)
  : Prop :=
  match l with
  | [] => True
  | v :: l' =>
      existsb (fun u => same u v) seen = false
      /\ distinct_keys same (seen ++ [v]) l'
  end.

(** ** Sample data of the entry point *)

Module Desk.

(** The paths that exist: that of [main], and a text file. Every read of
    a CSV file decodes at once to the ordered run book; the separators are
    those of Windows. *)
Definition windows : world :=
  World
    (fun file_path =>
       PyStr.mem file_path ["C:/Users/Admin/Documents/MinBook.csv"; "notes.txt"])
    OsPath.nt_seps
    (fun file_path encoding => ReadOk Sample.ordered)
    (fun file_path engine => ReadFail (Unexpected "File is not a workbook")).

(** The same files under POSIX, with a reader of spreadsheets that
    answers. *)
Definition posix : world :=
  World (path_exists windows) OsPath.posix_seps (read_csv windows)
    (fun file_path engine => ReadOk Sample.runbook).

(** The text of a cell of the file. *)
Definition text (v : value) : string :=
  match v with
  | Raw c => py_str c
  | _ => ""
  end.

(** A run time that compares cells by their text, draws [k mod 256] at the
    draw [k], and in which plotly raises nothing. *)
Definition quiet : runtime :=
  Runtime (fun _ => "") (fun _ => "")
    (fun u v => String.eqb (text u) (text v))
    (fun k => k mod 256)
    (fun _ _ => None) (fun _ _ => None).

(** The same, but [pio.write_html] raises a [ValueError]. *)
Definition read_only : runtime :=
  Runtime (str_timestamp quiet) (str_float quiet) (same_key quiet)
    (randint quiet) (create_gantt quiet)
    (fun _ _ => Some (PyExn ValueErrorClass "The file argument is not valid")).

(** What the pipeline returns to [main] in [windows]: the second task of
    the ordered run book, the first one starting before the window. *)
Definition returned : frame value :=
  Frame (with_column "Duration (Hours)" required_columns)
    [finish (Sample.task 1 (Str "Prod2") (Str "09/11/24 11:30")
               (Str "09/11/24 11:45"))].

(** The figure [main] makes of it. *)
Definition chart : figure :=
  Figure (map (task_of quiet) (rows returned))
    [(Raw (Str "Ana"), rgb quiet 0)] 430.

End Desk.

(** ** Strings and lists *)

Lemma mem_In (x : string) (xs : list string) : PyStr.mem x xs = true <-> In x xs.
Proof.
  unfold PyStr.mem. rewrite existsb_exists. split.
  - intros (y & Hy & E). apply String.eqb_eq in E. now subst.
  - intros H. exists x. split; [assumption | apply String.eqb_refl].
Qed.

Lemma mem_not_In (x : string) (xs : list string) :
  PyStr.mem x xs = false <-> ~ In x xs.
Proof.
  rewrite <- mem_In. destruct (PyStr.mem x xs); split; congruence.
Qed.

Lemma startswith_append (p s : string) :
  PyStr.startswith p s = true <-> exists rest, s = String.append p rest.
Proof.
  unfold PyStr.startswith. revert s.
  induction p as [|a p IH]; intros s.
  - split; [intros _; now exists s | intros _; now destruct s].
  - destruct s as [|b s]; cbn [String.prefix String.append].
    + split; [discriminate | intros [rest H]; discriminate].
    + destruct (ascii_dec a b) as [->|Hab].
      * rewrite IH. split; intros [rest H]; exists rest.
        -- now rewrite H.
        -- now injection H.
      * split; [discriminate | intros [rest H]; injection H; congruence].
Qed.

Lemma filter_sublist {A : Type} (f : A -> bool) (l : list A) :
  List.filter f l `sublist_of` l.
Proof.
  induction l as [|x l IH]; simpl.
  - constructor.
  - destruct (f x); now constructor.
Qed.

Lemma filter_map_swap {A B : Type} (f : A -> B) (p : B -> bool) (l : list A) :
  List.filter p (map f l) = map f (List.filter (fun x => p (f x)) l).
Proof.
  induction l as [|x l IH]; simpl; [reflexivity|].
  destruct (p (f x)); simpl; now rewrite IH.
Qed.

Lemma combine_map_map {A B C : Type} (f : A -> B) (g : A -> C) (l : list A) :
  combine (map f l) (map g l) = map (fun x => (f x, g x)) l.
Proof.
  induction l as [|x l IH]; simpl; [reflexivity | now rewrite IH].
Qed.

Lemma filter_filter_and {A : Type} (f g : A -> bool) (l : list A) :
  List.filter f (List.filter g l) = List.filter (fun x => g x && f x) l.
Proof.
  induction l as [|x l IH]; simpl; [reflexivity|].
  destruct (g x); simpl; [destruct (f x)|]; now rewrite IH.
Qed.

Lemma filter_nil_iff {A : Type} (f : A -> bool) (l : list A) :
  List.filter f l = [] <-> forall x, In x l -> f x = false.
Proof.
  induction l as [|x l IH]; simpl.
  - split; [intros _ y [] | reflexivity].
  - destruct (f x) eqn:E.
    + split; [discriminate|]. intros H. specialize (H x (or_introl eq_refl)).
      congruence.
    + rewrite IH. split.
      * intros H y [<-|Hy]; auto.
      * intros H y Hy. apply H. now right.
Qed.

(** ** Output and results of computations *)

Lemma result_bind {A B : Type} (m : M A) (k : A -> M B) :
  result (bind m k) = and_then (result m) (fun a => result (k a)).
Proof.
  destruct m as [out [a|e]]; simpl; [|reflexivity].
  now destruct (k a).
Qed.

Lemma log_bind {A B : Type} (m : M A) (k : A -> M B) :
  log (bind m k)
  = log m ++ match result m with Ok a => log (k a) | Raise _ => [] end.
Proof.
  destruct m as [out [a|e]]; simpl; [|now rewrite app_nil_r].
  now destruct (k a).
Qed.

Lemma result_lift {A : Type} (o : outcome A) : result (lift o) = o.
Proof. reflexivity. Qed.

Lemma result_wrap {A : Type} (m : M A) :
  result (wrap m)
  = match result m with Ok a => Ok a | Raise e => Raise (ProcessingError e) end.
Proof. now destruct m as [out [a|e]]. Qed.


(** ** The CSV decoder *)

Lemma try_encodings_ok (w : world) (file_path encoding : string)
  (encs : list string) (df : table) :
  read_csv w file_path encoding = ReadOk df ->
  try_encodings w file_path (encoding :: encs)
  = ([TryEncoding encoding; EncodingSucceeded encoding], Ok df).
Proof. intros H. cbn [try_encodings]. now rewrite H. Qed.

Lemma try_encodings_fail (w : world) (file_path encoding : string)
  (encs : list string) :
  read_failed (read_csv w file_path encoding) ->
  result (try_encodings w file_path (encoding :: encs))
  = result (try_encodings w file_path encs)
  /\ attempts (log (try_encodings w file_path (encoding :: encs)))
     = encoding :: attempts (log (try_encodings w file_path encs)).
Proof.
  intros [f H]. cbn [try_encodings]. rewrite H.
  destruct (try_encodings w file_path encs) as [out o].
  destruct f; destruct o; split; reflexivity.
Qed.

Lemma try_encodings_first_success (w : world) (file_path : string)
  (tried : list string) (encoding : string) (rest : list string)
  (df : table) :
  Forall (fun enc => read_failed (read_csv w file_path enc)) tried ->
  read_csv w file_path encoding = ReadOk df ->
  result (try_encodings w file_path (tried ++ encoding :: rest)) = Ok df
  /\ attempts (log (try_encodings w file_path (tried ++ encoding :: rest)))
     = tried ++ [encoding].
Proof.
  intros Hfail Hok. induction Hfail as [|enc tried Henc _ IH]; simpl app.
  - rewrite (try_encodings_ok _ _ _ _ _ Hok). split; reflexivity.
  - destruct (try_encodings_fail w file_path enc (tried ++ encoding :: rest) Henc)
      as [Hr Ha].
    rewrite Hr, Ha. destruct IH as [IHr IHa]. now rewrite IHr, IHa.
Qed.

Lemma try_encodings_all_fail (w : world) (file_path : string)
  (encs : list string) :
  Forall (fun enc => read_failed (read_csv w file_path enc)) encs ->
  result (try_encodings w file_path encs) = Raise (DecodeError NoEncodingSucceeded)
  /\ attempts (log (try_encodings w file_path encs)) = encs.
Proof.
  induction 1 as [|enc encs Henc _ IH].
  - split; reflexivity.
  - destruct (try_encodings_fail w file_path enc encs Henc) as [Hr Ha].
    rewrite Hr, Ha. destruct IH as [IHr IHa]. now rewrite IHr, IHa.
Qed.

Lemma try_encodings_raise (w : world) (file_path : string)
  (encs : list string) (e : error) :
  result (try_encodings w file_path encs) = Raise e ->
  e = DecodeError NoEncodingSucceeded
  /\ Forall (fun enc => read_failed (read_csv w file_path enc)) encs.
Proof.
  induction encs as [|enc encs IH]; intros H.
  - cbn in H. injection H as <-. split; [reflexivity | constructor].
  - destruct (read_csv w file_path enc) as [df|f] eqn:E.
    + rewrite (try_encodings_ok _ _ _ _ _ E) in H. discriminate.
    + assert (Hf : read_failed (read_csv w file_path enc)) by (now exists f).
      destruct (try_encodings_fail w file_path enc encs Hf) as [Hr _].
      rewrite Hr in H. destruct (IH H) as [-> Hall].
      split; [reflexivity | now constructor].
Qed.

Lemma try_encodings_ext (w w' : world) (file_path : string)
  (encs : list string) :
  Forall (fun enc => read_csv w' file_path enc = read_csv w file_path enc) encs ->
  try_encodings w' file_path encs = try_encodings w file_path encs.
Proof.
  induction 1 as [|enc encs Henc _ IH]; [reflexivity|].
  cbn [try_encodings]. now rewrite Henc, IH.
Qed.

(** C7. The CSV decoder tries the encodings in the fixed order utf-8,
    latin1, iso-8859-1, cp1252: when the reads of the encodings [tried]
    fail, whatever they raise, and the read of the next one succeeds, it
    returns the table of that read and has tried exactly those encodings,
    in order; it raises the decode error exactly when the reads of all four
    fail; and its output and result are those of any other run in which
    the four reads give the same. *)
Theorem try_read_csv_ordered_fallback (w : world) (file_path : string) :
  encodings = ["utf-8"; "latin1"; "iso-8859-1"; "cp1252"]
  /\ (forall tried encoding rest df,
        encodings = tried ++ encoding :: rest ->
        Forall (fun enc => read_failed (read_csv w file_path enc)) tried ->
        read_csv w file_path encoding = ReadOk df ->
        result (try_read_csv w file_path) = Ok df
        /\ attempts (log (try_read_csv w file_path)) = tried ++ [encoding])
  /\ (Forall (fun enc => read_failed (read_csv w file_path enc)) encodings
      <-> result (try_read_csv w file_path) = Raise (DecodeError NoEncodingSucceeded))
  /\ (forall e, result (try_read_csv w file_path) = Raise e ->
        e = DecodeError NoEncodingSucceeded
        /\ attempts (log (try_read_csv w file_path)) = encodings)
  /\ (forall w',
        Forall (fun enc => read_csv w' file_path enc = read_csv w file_path enc)
          encodings ->
        try_read_csv w' file_path = try_read_csv w file_path).
Proof.
  unfold try_read_csv. split; [reflexivity|]. split; [|split; [|split]].
  - intros tried encoding rest df -> Hfail Hok.
    now apply try_encodings_first_success.
  - split.
    + intros H. now apply try_encodings_all_fail.
    + intros H. now apply try_encodings_raise in H.
  - intros e H. apply try_encodings_raise in H as [-> Hall].
    split; [reflexivity | now apply try_encodings_all_fail].
  - intros w' H. now apply try_encodings_ext.
Qed.

Lemma try_read_csv_ordered_fallback_witness :
  result (try_read_csv Sample.world "runbook.csv") = Ok Sample.runbook
  /\ attempts (log (try_read_csv Sample.world "runbook.csv"))
     = ["utf-8"; "latin1"].
Proof.
  destruct (try_read_csv_ordered_fallback Sample.world "runbook.csv")
    as (_ & H & _).
  apply (H ["utf-8"] "latin1" ["iso-8859-1"; "cp1252"] Sample.runbook).
  - reflexivity.
  - constructor; [|constructor]. exists UnicodeDecodeError. reflexivity.
  - reflexivity.
Defined.

(** ** Schema validation *)

Lemma missing_columns_In (cols : list string) (col : string) :
  In col (missing_columns cols) <-> In col required_columns /\ ~ In col cols.
Proof.
  unfold missing_columns. rewrite List.filter_In, negb_true_iff, mem_not_In.
  reflexivity.
Qed.

Lemma missing_columns_ext (cols cols' : list string) :
  (forall col, In col required_columns -> (In col cols <-> In col cols')) ->
  missing_columns cols' = missing_columns cols.
Proof.
  intros H. unfold missing_columns. apply List.filter_ext_in. intros col Hcol.
  f_equal. specialize (H col Hcol).
  destruct (PyStr.mem col cols) eqn:E.
  - apply mem_In. apply H. now apply mem_In.
  - apply mem_not_In. apply mem_not_In in E. tauto.
Qed.

Lemma clean_and_validate_data_spec (df : frame cell) :
  clean_and_validate_data df
  = match missing_columns (columns df) with
    | [] => Ok (dropna_all df)
    | missing => Raise (SchemaError missing)
    end.
Proof. reflexivity. Qed.

(** C6. Schema validation raises the schema error exactly when a
    required column is absent; the error then carries every absent
    required column, in the order of the requirement, and nothing else.
    Two tables in which the same required columns are present, whatever
    their other columns and the order of the columns, get the same
    verdict. *)
Theorem schema_validation_lists_every_missing_column (df : frame cell) :
  (forall col,
     In col (missing_columns (columns df))
     <-> In col required_columns /\ ~ In col (columns df))
  /\ ((exists col, In col required_columns /\ ~ In col (columns df))
      <-> clean_and_validate_data df
          = Raise (SchemaError (missing_columns (columns df))))
  /\ (forall e, clean_and_validate_data df = Raise e ->
        e = SchemaError (missing_columns (columns df)))
  /\ ((forall col, In col required_columns -> In col (columns df))
      <-> clean_and_validate_data df = Ok (dropna_all df))
  /\ (forall df' : frame cell,
        (forall col, In col required_columns ->
           (In col (columns df) <-> In col (columns df'))) ->
        forall e, clean_and_validate_data df' = Raise e
                  <-> clean_and_validate_data df = Raise e).
Proof.
  split; [apply missing_columns_In|].
  rewrite clean_and_validate_data_spec.
  pose proof (missing_columns_In (columns df)) as HIn.
  split; [|split; [|split]].
  - split.
    + intros (col & Hreq & Habs).
      destruct (missing_columns (columns df)) as [|c l] eqn:E; [|reflexivity].
      assert (Hnil : In col []) by (apply HIn; now split). destruct Hnil.
    + destruct (missing_columns (columns df)) as [|c l] eqn:E; [discriminate|].
      intros _. exists c. apply HIn. now left.
  - intros e. destruct (missing_columns (columns df)); [discriminate|].
    now intros [= <-].
  - split.
    + intros Hall.
      destruct (missing_columns (columns df)) as [|c l] eqn:E; [reflexivity|].
      exfalso. destruct (proj1 (HIn c) (or_introl eq_refl)) as [Hreq Habs].
      apply Habs. now apply Hall.
    + destruct (missing_columns (columns df)) as [|c l] eqn:E; [|discriminate].
      intros _ col Hreq.
      destruct (PyStr.mem col (columns df)) eqn:Em; [now apply mem_In|].
      assert (Hnil : In col []); [|destruct Hnil].
      apply HIn. split; [assumption | now apply mem_not_In].
  - intros df' Hsame e. rewrite clean_and_validate_data_spec.
    rewrite (missing_columns_ext (columns df) (columns df') Hsame).
    destruct (missing_columns (columns df)); [split; discriminate | reflexivity].
Qed.

Lemma schema_validation_lists_every_missing_column_witness :
  clean_and_validate_data Sample.partial
  = Raise (SchemaError ["Activity"; "Responsible Person"]).
Proof.
  destruct (schema_validation_lists_every_missing_column Sample.partial)
    as (_ & H & _).
  apply H. exists "Activity". split.
  - right. left. reflexivity.
  - intros Hin. repeat (destruct Hin as [Hin|Hin]; [discriminate Hin|]).
    destruct Hin.
Defined.

(** ** The two row filters *)

Lemma rows_select {A : Type} (mask : nat * gmap string A -> bool) (df : frame A) :
  rows (select mask df) = List.filter mask (rows df).
Proof. reflexivity. Qed.

Lemma empty_no_rows {A : Type} (df : frame A) : rows df = [] -> empty df = true.
Proof. unfold empty. now intros ->. Qed.

Lemma empty_true {A : Type} (df : frame A) :
  columns df <> [] -> empty df = true -> rows df = [].
Proof. unfold empty. destruct (rows df), (columns df); congruence. Qed.

Lemma empty_false {A : Type} (df : frame A) : empty df = false -> rows df <> [].
Proof. unfold empty. destruct (rows df), (columns df); congruence. Qed.

Lemma filter_prefix_spec (read : table) (df : frame value) :
  let kept := select (fun r => starts_with_prod (get "Activity Number" r)) df in
  filter_prefix read df
  = if str_accessor read (column (Raw NaN) df "Activity Number")
    then if empty kept then Raise (EmptyResultError NoProdTask) else Ok kept
    else Raise AttributeError.
Proof. reflexivity. Qed.

Lemma starts_with_prod_is_text (v : value) :
  starts_with_prod v = true -> is_text v = true.
Proof. now destruct v as [[|s|repr]|t|h]. Qed.

(** A column with an identifier that starts with [Prod] has text: the
    accessor is given on it, whatever the table. *)
Lemma str_accessor_of_prod (read : table) (df : frame value) :
  (exists r, In r (rows df)
             /\ starts_with_prod (get "Activity Number" r) = true) ->
  str_accessor read (column (Raw NaN) df "Activity Number") = true.
Proof.
  intros (r & Hr & Hp). unfold str_accessor. apply orb_true_iff. left.
  apply existsb_exists. exists (get "Activity Number" r). split.
  - unfold column. apply in_map_iff. now exists r.
  - now apply starts_with_prod_is_text.
Qed.

Lemma filter_range_spec (sf ef : string) (start_date end_date : Z)
  (df : frame value) :
  let kept := select (in_range start_date end_date) df in
  filter_range sf ef start_date end_date df
  = if empty kept then Raise (EmptyResultError (NoTaskInRange sf ef))
    else Ok kept.
Proof. reflexivity. Qed.

Lemma in_range_iff (start_date end_date : Z) (r : nat * gmap string value)
  (s e : Z) :
  get "Start Date (CET)" r = Timestamp s ->
  get "End Date (CET)" r = Timestamp e ->
  in_range start_date end_date r = true <-> (start_date <= s /\ e <= end_date)%Z.
Proof.
  intros Hs He. unfold in_range, ge_date, le_date. rewrite Hs, He. simpl.
  rewrite andb_true_iff, !Z.leb_le. reflexivity.
Qed.

Lemma in_range_times (start_date end_date : Z) (r : nat * gmap string value) :
  in_range start_date end_date r = true ->
  exists s e, get "Start Date (CET)" r = Timestamp s
              /\ get "End Date (CET)" r = Timestamp e.
Proof.
  unfold in_range, ge_date, le_date. intros H.
  apply andb_true_iff in H as [Hs He].
  destruct (get "Start Date (CET)" r) as [c|s|h]; try discriminate.
  destruct (get "End Date (CET)" r) as [c|e|h]; try discriminate.
  now exists s, e.
Qed.

(** The prefix filter, element by element and as a stage. It keeps a row
    exactly when its identifier is a string that starts with [Prod], letter
    case included: [ProdX] is kept, [prodX] is dropped, and so is a missing
    identifier and whatever is not a string. When pandas gives the [.str]
    accessor on the column, the rows kept stay in their order and the stage
    raises the empty-result error when none is kept; when it gives none,
    the stage raises the [AttributeError], whatever the rows. *)
Lemma prefix_filter_keeps_Prod_identifiers (read : table) (df : frame value) :
  (forall r, starts_with_prod (get "Activity Number" r) = true
             <-> exists rest,
                 get "Activity Number" r = Raw (Str (String.append "Prod" rest)))
  /\ starts_with_prod (Raw (Str "ProdX")) = true
  /\ starts_with_prod (Raw (Str "prodX")) = false
  /\ starts_with_prod (Raw NaN) = false
  /\ (str_accessor read (column (Raw NaN) df "Activity Number") = false ->
      filter_prefix read df = Raise AttributeError)
  /\ (str_accessor read (column (Raw NaN) df "Activity Number") = true ->
      (forall r, In r (rows df) ->
                 starts_with_prod (get "Activity Number" r) = false) ->
      filter_prefix read df = Raise (EmptyResultError NoProdTask))
  /\ (forall e, filter_prefix read df = Raise e ->
        e = EmptyResultError NoProdTask \/ e = AttributeError)
  /\ (forall kept,
        filter_prefix read df = Ok kept ->
        columns kept = columns df
        /\ rows kept <> []
        /\ rows kept
           = List.filter (fun r => starts_with_prod (get "Activity Number" r))
               (rows df))
  /\ (columns df <> [] ->
      (exists r, In r (rows df)
                 /\ starts_with_prod (get "Activity Number" r) = true) ->
      exists kept, filter_prefix read df = Ok kept).
Proof.
  split; [|split; [reflexivity | split; [reflexivity | split; [reflexivity|]]]].
  - intros r. unfold starts_with_prod.
    destruct (get "Activity Number" r) as [[|s|repr]|t|h].
    + split; [discriminate | intros [rest H]; discriminate].
    + rewrite startswith_append. split; intros [rest H]; exists rest; congruence.
    + split; [discriminate | intros [rest H]; discriminate].
    + split; [discriminate | intros [rest H]; discriminate].
    + split; [discriminate | intros [rest H]; discriminate].
  - rewrite filter_prefix_spec. cbv zeta. repeat apply conj.
    + now intros ->.
    + intros -> Hnone. rewrite empty_no_rows; [reflexivity|].
      rewrite rows_select. now apply filter_nil_iff.
    + intros e. destruct (str_accessor _ _); [|intros [= <-]; now right].
      destruct (empty _); [intros [= <-]; now left | discriminate].
    + intros kept. destruct (str_accessor _ _); [|discriminate].
      destruct (empty _) eqn:E; [discriminate|].
      intros [= <-]. apply empty_false in E. repeat split; assumption.
    + intros Hcols Hprod. rewrite (str_accessor_of_prod read df Hprod).
      destruct Hprod as (r & Hr & Hkeep).
      destruct (empty _) eqn:E; [|now eexists].
      apply empty_true in E; [|exact Hcols]. rewrite rows_select in E.
      rewrite (proj1 (filter_nil_iff _ _) E r Hr) in Hkeep. discriminate.
Qed.

(** C5. What the claim says fails where no identifier left is a string
    and pandas gives no [.str] accessor on the column: on the run book
    without identifiers no row starts with [Prod], yet the stage raises the
    [AttributeError] of line 162 and not the empty-result error, and the
    run ends with it inside the processing error. *)
Theorem prefix_filter_raises_on_identifiers_without_text :
  rows (select (fun r => starts_with_prod (get "Activity Number" r))
          (dropna_dates (normalized Sample.unnumbered))) = []
  /\ empty (dropna_dates (normalized Sample.unnumbered)) = false
  /\ filter_prefix Sample.unnumbered (dropna_dates (normalized Sample.unnumbered))
     = Raise AttributeError
  /\ result (read_and_process_data Sample.world "unnumbered.csv"
               "08/11/2024 00:00" "10/11/2024 23:59")
     = Raise (ProcessingError AttributeError).
Proof.
  split; [vm_compute; reflexivity|].
  split; [vm_compute; reflexivity|].
  split; [vm_compute; reflexivity|].
  vm_compute. reflexivity.
Qed.



(** ** The conversion of the dates *)

Lemma parse_dates_spec (c : cell) :
  parse_dates c = (failure_of c, Ok (parse_cell c)).
Proof.
  unfold parse_dates, failure_of, parse_cell.
  destruct (isna c); [reflexivity|].
  now destruct (first_format date_formats (py_str c)).
Qed.

Lemma mapM_parse_dates (cs : list cell) :
  mapM parse_dates cs = (failures cs, Ok (map parse_cell cs)).
Proof.
  induction cs as [|c cs IH]; [reflexivity|].
  cbn [mapM]. rewrite parse_dates_spec, IH. unfold bind, ret, failures.
  cbn [flat_map map]. now rewrite app_nil_r.
Qed.


Lemma convert_dates_result (file : frame cell) (df : frame value)
  (date_col : string) :
  result (convert_dates file df date_col)
  = Ok (set_column date_col
          (map date_value (map parse_cell (column NaN file date_col))) df).
Proof.
  unfold convert_dates. rewrite result_bind. cbn [print result snd and_then].
  rewrite result_bind, mapM_parse_dates. cbn [result snd and_then].
  rewrite result_bind.
  destruct (negb (empty _)); reflexivity.
Qed.


Lemma set_column_map {A B : Type} (col : string) (cols : list string)
  (f : B -> nat * gmap string A) (g : B -> A) (l : list B) :
  set_column col (map g l) (Frame cols (map f l))
  = Frame (with_column col cols)
      (map (fun x => (fst (f x), <[col := g x]> (snd (f x)))) l).
Proof.
  unfold set_column. cbn [rows columns]. now rewrite combine_map_map, map_map.
Qed.

Lemma foldM_convert_dates (file : frame cell) :
  result (foldM (convert_dates file) (working file)
            ["Start Date (CET)"; "End Date (CET)"])
  = Ok (normalized file).
Proof.
  cbn [foldM]. rewrite result_bind, convert_dates_result. cbn [and_then].
  rewrite result_bind, convert_dates_result. cbn [and_then ret result snd].
  f_equal. unfold normalized, working, column.
  rewrite !map_map, set_column_map. cbn [fst snd].
  now rewrite set_column_map.
Qed.

Lemma get_normalize_row_start (r : nat * gmap string cell) :
  get "Start Date (CET)" (normalize_row r)
  = date_value (parse_cell (at_column NaN "Start Date (CET)" r)).
Proof.
  unfold get, at_column, normalize_row. cbn [snd].
  rewrite lookup_insert_ne by discriminate. now rewrite lookup_insert_eq.
Qed.

Lemma get_normalize_row_end (r : nat * gmap string cell) :
  get "End Date (CET)" (normalize_row r)
  = date_value (parse_cell (at_column NaN "End Date (CET)" r)).
Proof.
  unfold get, at_column, normalize_row. cbn [snd]. now rewrite lookup_insert_eq.
Qed.

Lemma normalize_row_other (r : nat * gmap string cell) (col : string) :
  col <> "Start Date (CET)" -> col <> "End Date (CET)" ->
  snd (normalize_row r) !! col = Raw <$> (snd r !! col).
Proof.
  intros Hs He. unfold normalize_row. cbn [snd].
  rewrite !lookup_insert_ne by congruence. apply lookup_fmap.
Qed.

(** The warning of lines 150 to 153 lists every row whose date is
    missing after the conversion, the rows whose cell was missing in the
    file among them, by index and identifier. *)
Lemma invalid_dates_warning_lists_missing_cells_too :
  log (convert_dates Sample.runbook (working Sample.runbook) "Start Date (CET)")
  = [ProcessingColumn "Start Date (CET)"; UnparsableDate "soon";
     InvalidDates "Start Date (CET)"
       [(3, Raw (Str "Prod4")); (4, Raw (Str "Prod5"))]].
Proof. vm_compute. reflexivity. Qed.

(** ** The pipeline as its stages *)

Lemma and_then_Ok {A B : Type} (o : outcome A) (k : A -> outcome B) (b : B) :
  and_then o k = Ok b <-> exists a, o = Ok a /\ k a = Ok b.
Proof.
  destruct o as [a|e]; cbn.
  - split; [intros H; now exists a | now intros (a' & [= <-] & H)].
  - split; [discriminate | now intros (a' & H & _)].
Qed.

Lemma try_body_result (w : world) (file_path sf ef : string) :
  result (try_body w file_path sf ef)
  = and_then (result (read_file w file_path (extension w file_path)))
      (stages sf ef).
Proof.
  unfold try_body. cbv zeta. fold (extension w file_path).
  rewrite result_bind.
  destruct (result (read_file w file_path (extension w file_path))) as [df|e];
    cbn [and_then]; [|reflexivity].
  rewrite result_bind. cbn [print result snd and_then].
  rewrite result_bind. cbn [print result snd and_then].
  rewrite result_bind, result_lift. unfold stages, before_range.
  destruct (clean_and_validate_data df) as [file|e]; cbn [and_then]; [|reflexivity].
  rewrite result_bind, foldM_convert_dates. cbn [and_then].
  rewrite result_bind.
  destruct (empty (dropna_dates (normalized file)));
    cbn [raise ret result snd and_then]; [reflexivity|].
  rewrite result_bind, result_lift.
  destruct (filter_prefix _ _) as [d|e]; cbn [and_then]; [|reflexivity].
  rewrite result_bind, result_lift.
  destruct (parse_window sf ef) as [window|e]; cbn [and_then]; [|reflexivity].
  rewrite result_bind, result_lift.
  destruct (filter_range _ _ _ _ _) as [d'|e]; cbn [and_then]; reflexivity.
Qed.

Lemma read_and_process_data_result (w : world) (file_path sf ef : string) :
  result (read_and_process_data w file_path sf ef)
  = if path_exists w file_path
    then match result (try_body w file_path sf ef) with
         | Ok out => Ok out
         | Raise e => Raise (ProcessingError e)
         end
    else Raise (FileNotFound file_path).
Proof.
  unfold read_and_process_data.
  destruct (path_exists w file_path); cbn [negb]; [apply result_wrap | reflexivity].
Qed.

Lemma read_file_raise (w : world) (file_path ext : string) (e : error) :
  result (read_file w file_path ext) = Raise e -> stage_error e.
Proof.
  unfold read_file.
  destruct (String.eqb ext ".xlsx");
    [destruct (read_excel w file_path "openpyxl"); [discriminate|];
     now intros [= <-]|].
  destruct (String.eqb ext ".xls");
    [destruct (read_excel w file_path "xlrd"); [discriminate|];
     now intros [= <-]|].
  destruct (String.eqb ext ".csv").
  - intros H. now apply try_encodings_raise in H as [-> _].
  - now intros [= <-].
Qed.

Lemma stages_raise (sf ef : string) (df : table) (e : error) :
  stages sf ef df = Raise e -> stage_error e.
Proof.
  unfold stages, before_range. rewrite clean_and_validate_data_spec.
  destruct (missing_columns (columns df)); cbn [and_then];
    [|now intros [= <-]].
  destruct (empty _); cbn [and_then]; [now intros [= <-]|].
  rewrite filter_prefix_spec. cbv zeta.
  destruct (str_accessor _ _); cbn [and_then]; [|now intros [= <-]].
  destruct (empty _); cbn [and_then]; [now intros [= <-]|].
  unfold parse_window.
  destruct (Strptime.strptime_bound sf); cbn [and_then]; [|now intros [= <-]].
  destruct (Strptime.strptime_bound ef); cbn [and_then]; [|now intros [= <-]].
  rewrite filter_range_spec. cbv zeta.
  destruct (empty _); cbn [and_then]; [now intros [= <-] | discriminate].
Qed.

Lemma try_body_raise (w : world) (file_path sf ef : string) (e : error) :
  result (try_body w file_path sf ef) = Raise e -> stage_error e.
Proof.
  rewrite try_body_result.
  destruct (result (read_file _ _ _)) as [df|e'] eqn:E; cbn [and_then].
  - apply stages_raise.
  - intros [= <-]. now apply read_file_raise in E.
Qed.

Lemma run_ok_inv (w : world) (file_path sf ef : string) (out : frame value) :
  result (read_and_process_data w file_path sf ef) = Ok out ->
  exists df file d window d',
    path_exists w file_path = true
    /\ result (read_file w file_path (extension w file_path)) = Ok df
    /\ clean_and_validate_data df = Ok file
    /\ filter_prefix df (dropna_dates (normalized file)) = Ok d
    /\ parse_window sf ef = Ok window
    /\ filter_range sf ef (fst window) (snd window) d = Ok d'
    /\ out = add_duration d'.
Proof.
  rewrite read_and_process_data_result.
  destruct (path_exists w file_path); [|discriminate].
  rewrite try_body_result.
  destruct (and_then _ _) as [out'|e] eqn:E; [|discriminate].
  intros [= ->].
  apply and_then_Ok in E as (df & Hread & E). unfold stages in E.
  apply and_then_Ok in E as (d & Hbefore & E).
  apply and_then_Ok in E as (window & Hwin & E).
  apply and_then_Ok in E as (d' & Hrange & [= <-]).
  unfold before_range in Hbefore.
  apply and_then_Ok in Hbefore as (file & Hclean & Hprefix).
  destruct (empty _); [discriminate|].
  now exists df, file, d, window, d'.
Qed.

(** ** The existence check and the wrapping of failures *)

(** C10. For a path that does not exist [read_and_process_data] raises
    the file-not-found error and prints nothing, whatever the extension of
    the path and whatever the readers would do: the existence check comes
    before the dispatch on the extension and before any read. *)
Theorem missing_path_raises_FileNotFound_first (w : world)
  (file_path start_date_filter end_date_filter : string) :
  path_exists w file_path = false ->
  read_and_process_data w file_path start_date_filter end_date_filter
  = ([], Raise (FileNotFound file_path)).
Proof.
  intros H. unfold read_and_process_data. now rewrite H.
Qed.

Lemma missing_path_raises_FileNotFound_first_witness :
  extension Sample.world "missing.txt" = ".txt"
  /\ read_and_process_data Sample.world "missing.txt"
       "08/11/2024 17:00" "10/11/2024 23:59"
     = ([], Raise (FileNotFound "missing.txt")).
Proof.
  split; [reflexivity|].
  apply (missing_path_raises_FileNotFound_first Sample.world "missing.txt").
  reflexivity.
Defined.

(** C2, as the claim states it, fails: the file-not-found error of a path
    that does not exist reaches the caller as it is, not inside the
    processing error. *)
Lemma FileNotFound_escapes_unwrapped :
  result (read_and_process_data Sample.world "missing.csv"
            "08/11/2024 17:00" "10/11/2024 23:59")
  = Raise (FileNotFound "missing.csv")
  /\ ~ exists cause,
         result (read_and_process_data Sample.world "missing.csv"
                   "08/11/2024 17:00" "10/11/2024 23:59")
         = Raise (ProcessingError cause).
Proof.
  split; [reflexivity|]. intros [cause H]. discriminate H.
Qed.

(** C2, amended. The failure of a stage inside the [try] (unsupported
    format, decode error, schema error, invalid window, empty result, and
    the [AttributeError] of the accessor of line 162) ends the run at that
    stage and reaches the caller inside the processing error, which
    carries it; no such failure is lost and none reaches the caller
    bare. The file-not-found error is raised by the existence check
    before the [try] and reaches the caller as it is. *)
Theorem stage_failures_are_wrapped_except_FileNotFound (w : world)
  (file_path start_date_filter end_date_filter : string) :
  let run := result (read_and_process_data w file_path
                       start_date_filter end_date_filter) in
  let body := result (try_body w file_path start_date_filter end_date_filter) in
  let decoded := result (read_file w file_path (extension w file_path)) in
  (path_exists w file_path = false -> run = Raise (FileNotFound file_path))
  /\ (path_exists w file_path = true ->
      forall cause, body = Raise cause <-> run = Raise (ProcessingError cause))
  /\ (forall e, run = Raise e ->
        (e = FileNotFound file_path /\ path_exists w file_path = false)
        \/ (exists cause, e = ProcessingError cause /\ stage_error cause
                          /\ body = Raise cause))
  /\ (forall cause, decoded = Raise cause -> body = Raise cause)
  /\ (forall df cause,
        decoded = Ok df -> clean_and_validate_data df = Raise cause ->
        body = Raise cause)
  /\ (forall df file,
        decoded = Ok df -> clean_and_validate_data df = Ok file ->
        empty (dropna_dates (normalized file)) = true ->
        body = Raise (EmptyResultError NoValidData))
  /\ (forall df file cause,
        decoded = Ok df -> clean_and_validate_data df = Ok file ->
        empty (dropna_dates (normalized file)) = false ->
        filter_prefix df (dropna_dates (normalized file)) = Raise cause ->
        body = Raise cause)
  /\ (forall df d cause,
        decoded = Ok df -> before_range df = Ok d ->
        parse_window start_date_filter end_date_filter = Raise cause ->
        body = Raise cause)
  /\ (forall df d window cause,
        decoded = Ok df -> before_range df = Ok d ->
        parse_window start_date_filter end_date_filter = Ok window ->
        filter_range start_date_filter end_date_filter
          (fst window) (snd window) d = Raise cause ->
        body = Raise cause).
Proof.
  cbv zeta. rewrite read_and_process_data_result.
  split; [now intros -> |]. split; [|split].
  - intros ->. intros cause.
    destruct (result (try_body _ _ _ _)) as [out|e]; split; congruence.
  - intros e. destruct (path_exists w file_path).
    + destruct (result (try_body _ _ _ _)) as [out|c] eqn:E; [discriminate|].
      intros [= <-]. right. exists c. repeat split.
      now apply try_body_raise in E.
    + intros [= <-]. now left.
  - rewrite try_body_result. unfold stages, before_range.
    repeat apply conj.
    + now intros cause ->.
    + intros df cause -> H. cbn [and_then]. now rewrite H.
    + intros df file -> H1 H2. cbn [and_then]. rewrite H1. cbn [and_then].
      now rewrite H2.
    + intros df file cause -> H1 H2 H3. cbn [and_then]. rewrite H1.
      cbn [and_then]. now rewrite H2, H3.
    + intros df d cause -> H1 H2. cbn [and_then]. rewrite H1.
      cbn [and_then]. now rewrite H2.
    + intros df d window cause -> H1 H2 H3. cbn [and_then]. rewrite H1.
      cbn [and_then]. rewrite H2. cbn [and_then]. now rewrite H3.
Qed.

Lemma stage_failures_are_wrapped_except_FileNotFound_witness :
  result (read_and_process_data Sample.world "runbook.csv"
            "08/11/2024 17:00" "10-11-2024")
  = Raise (ProcessingError (InvalidWindowError EndBound "10-11-2024")).
Proof.
  destruct (stage_failures_are_wrapped_except_FileNotFound Sample.world
              "runbook.csv" "08/11/2024 17:00" "10-11-2024")
    as (_ & H & _).
  apply H; reflexivity.
Defined.

(** ** Inverted windows *)

(** C1, as the claim states it, fails: with the window from 09/11/2024
    12:00 to 09/11/2024 11:00, whose start is after its end, the range
    filter keeps the task that starts on 10/11/24 and ends on 08/11/24, and
    the run returns it. *)
Lemma inverted_window_keeps_a_backwards_task :
  parse_window "09/11/2024 12:00" "09/11/2024 11:00"
  = Ok (1731153600, 1731150000)%Z
  /\ (1731153600 > 1731150000)%Z
  /\ exists out,
       result (read_and_process_data Sample.world "runbook.csv"
                 "09/11/2024 12:00" "09/11/2024 11:00") = Ok out
       /\ records (Raw NaN) out
          = [(1, [Raw (Str "Prod2"); Raw (Str "Cutover");
                  Raw (Str "Switch traffic"); Timestamp 1731196800;
                  Timestamp 1731024000; Raw (Str "Ana");
                  Hours (-172800 # 3600)])].
Proof.
  split; [reflexivity|]. split; [reflexivity|].
  eexists. split; [vm_compute; reflexivity|]. vm_compute. reflexivity.
Qed.

Lemma inverted_window_excludes_ordered_row (start_date end_date : Z)
  (r : nat * gmap string value) :
  (start_date > end_date)%Z ->
  (forall s e,
     get "Start Date (CET)" r = Timestamp s ->
     get "End Date (CET)" r = Timestamp e -> (s <= e)%Z) ->
  in_range start_date end_date r = false.
Proof.
  intros Hinv Hord.
  destruct (in_range start_date end_date r) eqn:E; [|reflexivity].
  destruct (in_range_times _ _ _ E) as (s & e & Hs & He).
  apply (in_range_iff _ _ _ _ _ Hs He) in E. specialize (Hord s e Hs He). lia.
Qed.

(** C1, amended. When no row that reaches the range filter ends before it
    starts, a window whose start is after its end matches no row: the
    filter keeps nothing and raises the empty-result error, and a run that
    reaches the filter fails with that error inside the processing error.
    (A row that ends before it starts can be kept by such a window.) *)
Theorem inverted_window_matches_no_ordered_row (d : frame value)
  (start_date_filter end_date_filter : string) (start_date end_date : Z) :
  (start_date > end_date)%Z ->
  (forall r s e,
     In r (rows d) ->
     get "Start Date (CET)" r = Timestamp s ->
     get "End Date (CET)" r = Timestamp e -> (s <= e)%Z) ->
  rows (select (in_range start_date end_date) d) = []
  /\ filter_range start_date_filter end_date_filter start_date end_date d
     = Raise (EmptyResultError (NoTaskInRange start_date_filter end_date_filter))
  /\ forall w file_path df,
       path_exists w file_path = true ->
       result (read_file w file_path (extension w file_path)) = Ok df ->
       before_range df = Ok d ->
       parse_window start_date_filter end_date_filter = Ok (start_date, end_date) ->
       result (read_and_process_data w file_path start_date_filter end_date_filter)
       = Raise (ProcessingError
                  (EmptyResultError (NoTaskInRange start_date_filter end_date_filter))).
Proof.
  intros Hinv Hord.
  assert (Hnone : rows (select (in_range start_date end_date) d) = []).
  { rewrite rows_select. apply filter_nil_iff. intros r Hr.
    apply inverted_window_excludes_ordered_row; [assumption|].
    intros s e. now apply Hord. }
  assert (Hraise : filter_range start_date_filter end_date_filter start_date end_date d
                   = Raise (EmptyResultError
                              (NoTaskInRange start_date_filter end_date_filter))).
  { rewrite filter_range_spec. cbv zeta. apply empty_no_rows in Hnone.
    now rewrite Hnone. }
  split; [assumption|]. split; [assumption|].
  intros w file_path df Hex Hread Hbefore Hwin.
  rewrite read_and_process_data_result, Hex, try_body_result, Hread.
  unfold stages. cbn [and_then]. rewrite Hbefore. cbn [and_then].
  rewrite Hwin. cbn [and_then fst snd]. now rewrite Hraise.
Qed.

Lemma inverted_window_matches_no_ordered_row_witness :
  rows (select (in_range 1731153600 1731150000) Sample.ordered_frame) = []
  /\ result (read_and_process_data Sample.world "ordered.csv"
               "09/11/2024 12:00" "09/11/2024 11:00")
     = Raise (ProcessingError
                (EmptyResultError
                   (NoTaskInRange "09/11/2024 12:00" "09/11/2024 11:00"))).
Proof.
  destruct (inverted_window_matches_no_ordered_row Sample.ordered_frame
              "09/11/2024 12:00" "09/11/2024 11:00" 1731153600 1731150000)
    as (Hnone & _ & Hrun).
  - reflexivity.
  - intros r s e Hr Hs He.
    destruct Hr as [<-|[<-|[]]]; vm_compute in Hs, He;
      injection Hs as <-; injection He as <-; discriminate.
  - split; [exact Hnone|].
    apply (Hrun Sample.world "ordered.csv" Sample.ordered); reflexivity.
Defined.

(** ** The duration and the order of the rows *)

Lemma combine_self_map {A B : Type} (g : A -> B) (l : list A) :
  combine l (map g l) = map (fun x => (x, g x)) l.
Proof.
  induction l as [|x l IH]; simpl; [reflexivity | now rewrite IH].
Qed.

Lemma add_duration_spec (df : frame value) :
  add_duration df
  = Frame (with_column "Duration (Hours)" (columns df))
      (map with_duration (rows df)).
Proof.
  unfold add_duration, set_column. f_equal.
  now rewrite combine_self_map, map_map.
Qed.

Lemma get_with_duration (r : nat * gmap string value) :
  get "Start Date (CET)" (with_duration r) = get "Start Date (CET)" r
  /\ get "End Date (CET)" (with_duration r) = get "End Date (CET)" r
  /\ get "Duration (Hours)" (with_duration r)
     = duration_hours (get "End Date (CET)" r) (get "Start Date (CET)" r).
Proof.
  unfold get, at_column, with_duration. cbn [snd].
  rewrite !lookup_insert_ne by discriminate. now rewrite lookup_insert_eq.
Qed.

Lemma binary64_duration (s e : Z) (h : Q) :
  duration_hours (Timestamp e) (Timestamp s) = Hours h ->
  binary64 h = PrimFloat.div (float_of_Z (e - s)) (float_of_Z 3600).
Proof.
  intros [= <-]. unfold binary64, Qdiv, Qmult, Qinv, inject_Z.
  cbn [Qnum Qden]. now rewrite Z.mul_1_r.
Qed.

Lemma negative_hours (s e : Z) :
  (e < s)%Z -> (inject_Z (e - s) / inject_Z 3600 < 0)%Q.
Proof.
  intros H. unfold Qlt, Qdiv, Qmult, Qinv, inject_Z. simpl. lia.
Qed.

(** C8. In every result, every row has its two dates, and its duration
    is the number of seconds from its start to its end divided by 3600: as
    a fraction exactly that, as a float the binary64 quotient of the two
    numbers. From 08/11/24 10:00 to 08/11/24 12:30 the fraction is 5/2 and
    the float is exactly 2.5. A row that ends before it starts has a
    negative duration, and the pipeline returns such a row with it. *)
Theorem duration_is_elapsed_seconds_over_3600 :
  (forall w file_path start_date_filter end_date_filter out o,
     result (read_and_process_data w file_path start_date_filter end_date_filter)
     = Ok out ->
     In o (rows out) ->
     exists s e,
       get "Start Date (CET)" o = Timestamp s
       /\ get "End Date (CET)" o = Timestamp e
       /\ get "Duration (Hours)" o
          = Hours (inject_Z (e - s) / inject_Z 3600)%Q)
  /\ (forall s e h,
        duration_hours (Timestamp e) (Timestamp s) = Hours h ->
        binary64 h = PrimFloat.div (float_of_Z (e - s)) (float_of_Z 3600))
  /\ (exists s e h,
        parse_cell (Str "08/11/24 10:00") = Some s
        /\ parse_cell (Str "08/11/24 12:30") = Some e
        /\ duration_hours (Timestamp e) (Timestamp s) = Hours h
        /\ (h == 5 # 2)%Q
        /\ binary64 h = 2.5%float)
  /\ (forall s e, (e < s)%Z -> (inject_Z (e - s) / inject_Z 3600 < 0)%Q)
  /\ (exists out o s e h,
        result (read_and_process_data Sample.world "runbook.csv"
                  "08/11/2024 00:00" "10/11/2024 23:59") = Ok out
        /\ In o (rows out)
        /\ get "Start Date (CET)" o = Timestamp s
        /\ get "End Date (CET)" o = Timestamp e
        /\ (e < s)%Z
        /\ get "Duration (Hours)" o = Hours h
        /\ (h < 0)%Q
        /\ binary64 h = (-48)%float).
Proof.
  split; [|split; [|split; [|split]]].
  - intros w file_path sf ef out o Hrun Ho.
    apply run_ok_inv in Hrun
      as (df & file & d & window & d' & _ & _ & _ & _ & _ & Hrange & ->).
    rewrite add_duration_spec in Ho. cbn [rows] in Ho.
    apply in_map_iff in Ho as (r & <- & Hr).
    rewrite filter_range_spec in Hrange. cbv zeta in Hrange.
    destruct (empty _); [discriminate|]. injection Hrange as <-.
    rewrite rows_select in Hr. apply List.filter_In in Hr as [_ Hin].
    destruct (in_range_times _ _ _ Hin) as (s & e & Hs & He).
    destruct (get_with_duration r) as (Hs' & He' & Hd).
    exists s, e. rewrite Hs', He', Hd, Hs, He. repeat split.
  - apply binary64_duration.
  - exists 1731060000%Z, 1731069000%Z, (9000 # 3600)%Q.
    repeat split.
  - apply negative_hours.
  - eexists. exists (with_duration (normalize_row
                       (Sample.task 1 (Str "Prod2") (Str "10/11/24 00:00")
                          (Str "08/11/24 00:00")))).
    exists 1731196800%Z, 1731024000%Z, (-172800 # 3600)%Q.
    split; [vm_compute; reflexivity|].
    split; [vm_compute; right; left; reflexivity|].
    repeat split.
Qed.

Lemma duration_is_elapsed_seconds_over_3600_witness :
  exists s e,
    get "Start Date (CET)"
      (with_duration (normalize_row
         (Sample.task 0 (Str "Prod1") (Str "08/11/24 10:00") (Str "08/11/24 12:30"))))
    = Timestamp s
    /\ get "End Date (CET)"
         (with_duration (normalize_row
            (Sample.task 0 (Str "Prod1") (Str "08/11/24 10:00") (Str "08/11/24 12:30"))))
       = Timestamp e
    /\ get "Duration (Hours)"
         (with_duration (normalize_row
            (Sample.task 0 (Str "Prod1") (Str "08/11/24 10:00") (Str "08/11/24 12:30"))))
       = Hours (inject_Z (e - s) / inject_Z 3600)%Q.
Proof.
  destruct duration_is_elapsed_seconds_over_3600 as (H & _).
  eapply (H Sample.world "runbook.csv" "08/11/2024 00:00" "10/11/2024 23:59").
  - vm_compute. reflexivity.
  - vm_compute. left. reflexivity.
Defined.

Lemma sublist_map {A B : Type} (f : A -> B) (l k : list A) :
  l `sublist_of` k -> map f l `sublist_of` map f k.
Proof.
  induction 1; simpl; now constructor.
Qed.

Lemma Forall2_map_self {A B : Type} (R : B -> A -> Prop) (f : A -> B)
  (l : list A) :
  (forall x, R (f x) x) -> Forall2 R (map f l) l.
Proof.
  intros H. induction l as [|x l IH]; simpl; constructor; auto.
Qed.

Lemma with_duration_normalize_row (r : nat * gmap string cell) :
  fst (with_duration (normalize_row r)) = fst r
  /\ forall col,
       col <> "Start Date (CET)" -> col <> "End Date (CET)" ->
       col <> "Duration (Hours)" ->
       snd (with_duration (normalize_row r)) !! col = Raw <$> (snd r !! col).
Proof.
  split; [reflexivity|]. intros col Hs He Hd.
  unfold with_duration. cbn [snd]. rewrite lookup_insert_ne by congruence.
  now apply normalize_row_other.
Qed.

(** The rows of the decoded table that a successful run keeps. *)
Lemma kept_rows (w : world) (file_path sf ef : string) (out : frame value) :
  result (read_and_process_data w file_path sf ef) = Ok out ->
  exists df keep,
    result (read_file w file_path (extension w file_path)) = Ok df
    /\ rows out
       = map (fun r => with_duration (normalize_row r))
           (List.filter keep (rows df)).
Proof.
  intros Hrun.
  apply run_ok_inv in Hrun
    as (df & file & d & window & d' & _ & Hread & Hclean & Hprefix & _ & Hrange & ->).
  rewrite clean_and_validate_data_spec in Hclean.
  destruct (missing_columns (columns df)); [|discriminate].
  injection Hclean as <-.
  rewrite filter_prefix_spec in Hprefix. cbv zeta in Hprefix.
  destruct (str_accessor _ _); [|discriminate].
  destruct (empty _); [discriminate|]. injection Hprefix as <-.
  rewrite filter_range_spec in Hrange. cbv zeta in Hrange.
  destruct (empty _); [discriminate|]. injection Hrange as <-.
  exists df. eexists. split; [exact Hread|].
  rewrite add_duration_spec. cbn [rows]. rewrite !rows_select.
  unfold dropna_dates, normalized, dropna_all. cbn [rows select].
  rewrite !filter_map_swap, map_map, !filter_filter_and. reflexivity.
Qed.

(** C9. The rows of a result are rows of the decoded table, in the order
    of the table and each at most once: the index labels of the result are
    a subsequence of those of the table, and every row of the result is a
    row of the table with its two dates converted and its duration set, all
    its other cells as the file gave them. *)
Theorem result_rows_are_a_subsequence_of_the_decoded_rows (w : world)
  (file_path start_date_filter end_date_filter : string) (out : frame value) :
  result (read_and_process_data w file_path start_date_filter end_date_filter)
  = Ok out ->
  exists df kept,
    result (read_file w file_path (extension w file_path)) = Ok df
    /\ kept `sublist_of` rows df
    /\ rows out = map (fun r => with_duration (normalize_row r)) kept
    /\ index out `sublist_of` index df
    /\ (NoDup (index df) -> NoDup (index out))
    /\ Forall2
         (fun o r =>
            fst o = fst r
            /\ forall col,
                 col <> "Start Date (CET)" -> col <> "End Date (CET)" ->
                 col <> "Duration (Hours)" ->
                 snd o !! col = Raw <$> (snd r !! col))
         (rows out) kept.
Proof.
  intros Hrun. apply kept_rows in Hrun as (df & keep & Hread & Hrows).
  exists df, (List.filter keep (rows df)).
  assert (Hindex : index out `sublist_of` index df).
  { unfold index. rewrite Hrows, map_map. cbn [with_duration normalize_row fst].
    apply sublist_map, filter_sublist. }
  repeat apply conj.
  - exact Hread.
  - apply filter_sublist.
  - exact Hrows.
  - exact Hindex.
  - intros Hnodup. eapply sublist_NoDup; eassumption.
  - rewrite Hrows. apply Forall2_map_self. intros r.
    apply with_duration_normalize_row.
Qed.

Lemma result_rows_are_a_subsequence_of_the_decoded_rows_witness :
  exists out,
    result (read_and_process_data Sample.world "runbook.csv"
              "08/11/2024 00:00" "10/11/2024 23:59") = Ok out
    /\ index out = [0; 1]
    /\ index out `sublist_of` index Sample.runbook.
Proof.
  eexists. split; [vm_compute; reflexivity|]. split; [reflexivity|].
  destruct (result_rows_are_a_subsequence_of_the_decoded_rows Sample.world
              "runbook.csv" "08/11/2024 00:00" "10/11/2024 23:59" _ eq_refl)
    as (df & kept & Hread & _ & _ & Hindex & _).
  vm_compute in Hread. injection Hread as <-. exact Hindex.
Defined.

(** ** Which rows a run keeps *)

Lemma with_column_In (col : string) (cols : list string) :
  In col cols -> with_column col cols = cols.
Proof.
  intros H. unfold with_column. apply mem_In in H. now rewrite H.
Qed.

Lemma with_column_not_nil (col : string) (cols : list string) :
  with_column col cols <> [].
Proof.
  unfold with_column. destruct (PyStr.mem col cols) eqn:E.
  - apply mem_In in E. now destruct cols.
  - now destruct cols.
Qed.

Lemma In_with_column (col c : string) (cols : list string) :
  In c cols -> In c (with_column col cols).
Proof.
  intros H. unfold with_column. destruct (PyStr.mem col cols); [assumption|].
  apply in_or_app. now left.
Qed.

Lemma empty_false_intro {A : Type} (df : frame A) :
  rows df <> [] -> columns df <> [] -> empty df = false.
Proof. unfold empty. destruct (rows df), (columns df); congruence. Qed.

Lemma filter_not_nil_inv {A : Type} (f : A -> bool) (l : list A) :
  List.filter f l <> [] -> l <> [].
Proof. now destruct l. Qed.

Lemma validated (df file : frame cell) :
  clean_and_validate_data df = Ok file ->
  file = dropna_all df
  /\ forall col, In col required_columns -> In col (columns df).
Proof.
  intros H. rewrite clean_and_validate_data_spec in H.
  destruct (missing_columns (columns df)) eqn:E; [|discriminate].
  injection H as <-. split; [reflexivity|]. intros col Hreq.
  destruct (PyStr.mem col (columns df)) eqn:Em; [now apply mem_In|].
  assert (Hin : In col (missing_columns (columns df))).
  { apply missing_columns_In. split; [assumption | now apply mem_not_In]. }
  rewrite E in Hin. destruct Hin.
Qed.

Lemma filter4 {A : Type} (a b c q k : A -> bool) (l : list A) :
  (forall x, k x = q x && c x && b x && a x) ->
  List.filter a (List.filter b (List.filter c (List.filter q l)))
  = List.filter k l.
Proof.
  intros H. induction l as [|x l IH]; [reflexivity|].
  cbn [List.filter]. rewrite (H x).
  destruct (q x); cbn [List.filter andb]; [|exact IH].
  destruct (c x); cbn [List.filter andb]; [|exact IH].
  destruct (b x); cbn [List.filter andb]; [|exact IH].
  destruct (a x); cbn [List.filter andb]; [now rewrite IH | exact IH].
Qed.

Lemma parse_cell_not_missing (c : cell) (t : Z) :
  parse_cell c = Some t -> isna c = false.
Proof. unfold parse_cell. now destruct (isna c). Qed.

Lemma not_all_missing (cols : list string) (col : string)
  (r : nat * gmap string cell) :
  In col cols -> isna (at_column NaN col r) = false ->
  negb (forallb (fun c => isna (at_column NaN c r)) cols) = true.
Proof.
  intros Hin Hna. apply negb_true_iff.
  destruct (forallb _ cols) eqn:E; [|reflexivity].
  rewrite forallb_forall in E. rewrite (E col Hin) in Hna. discriminate.
Qed.

Lemma prod_normalize_row (r : nat * gmap string cell) :
  starts_with_prod (get "Activity Number" (normalize_row r))
  = is_prod (at_column NaN "Activity Number" r).
Proof.
  unfold get, at_column. rewrite normalize_row_other by discriminate.
  now destruct (snd r !! "Activity Number") as [[| |]|].
Qed.

Lemma kept_spec (cols : list string) (start_date end_date : Z)
  (r : nat * gmap string cell) :
  In "Start Date (CET)" cols ->
  kept start_date end_date r
  = negb (forallb (fun c => isna (at_column NaN c r)) cols)
    && (negb (isna_value (get "Start Date (CET)" (normalize_row r)))
        && negb (isna_value (get "End Date (CET)" (normalize_row r))))
    && starts_with_prod (get "Activity Number" (normalize_row r))
    && in_range start_date end_date (normalize_row r).
Proof.
  intros Hin. unfold kept, in_range.
  rewrite prod_normalize_row, get_normalize_row_start, get_normalize_row_end.
  destruct (parse_cell (at_column NaN "Start Date (CET)" r)) as [s|] eqn:Es.
  - rewrite (not_all_missing cols _ r Hin (parse_cell_not_missing _ _ Es)).
    destruct (parse_cell (at_column NaN "End Date (CET)" r)) as [e|];
      cbn [date_value isna_value negb andb ge_date le_date as_time].
    + now destruct (is_prod _), (start_date <=? s)%Z, (e <=? end_date)%Z.
    + reflexivity.
  - cbn [date_value isna_value negb andb]. now rewrite andb_false_r.
Qed.

Lemma kept_chain (df : frame cell) (start_date end_date : Z) :
  In "Start Date (CET)" (columns df) ->
  List.filter (in_range start_date end_date)
    (List.filter (fun r => starts_with_prod (get "Activity Number" r))
       (rows (dropna_dates (normalized (dropna_all df)))))
  = map normalize_row (List.filter (kept start_date end_date) (rows df)).
Proof.
  intros Hs. unfold dropna_dates, normalized, dropna_all. cbn [rows select].
  rewrite !filter_map_swap. f_equal. apply filter4. intros r.
  now rewrite (kept_spec (columns df) start_date end_date r Hs).
Qed.

Lemma no_missing_columns (cols : list string) :
  (forall col, In col required_columns -> In col cols) ->
  missing_columns cols = [].
Proof.
  intros H. destruct (missing_columns cols) as [|c l] eqn:E; [reflexivity|].
  assert (Hc : In c (missing_columns cols)) by (rewrite E; now left).
  apply missing_columns_In in Hc as [Hreq Habs]. now destruct (Habs (H c Hreq)).
Qed.

Lemma map_not_nil {A B : Type} (f : A -> B) (l : list A) :
  l <> [] -> map f l <> [].
Proof. now destruct l. Qed.

Lemma stages_Ok_iff (sf ef : string) (df : table) (out : frame value) :
  stages sf ef df = Ok out
  <-> (forall col, In col required_columns -> In col (columns df))
      /\ exists start_date end_date,
           parse_window sf ef = Ok (start_date, end_date)
           /\ List.filter (kept start_date end_date) (rows df) <> []
           /\ out = Frame (with_column "Duration (Hours)" (columns df))
                      (map finish
                         (List.filter (kept start_date end_date) (rows df))).
Proof.
  unfold stages, before_range. split.
  - intros H. apply and_then_Ok in H as (d & Hd & H).
    apply and_then_Ok in Hd as (file & Hclean & Hd).
    apply validated in Hclean as [-> Hreq].
    assert (Hs : In "Start Date (CET)" (columns df)) by (apply Hreq; cbn; tauto).
    assert (He : In "End Date (CET)" (columns df)) by (apply Hreq; cbn; tauto).
    destruct (empty _); [discriminate|].
    rewrite filter_prefix_spec in Hd. cbv zeta in Hd.
    destruct (str_accessor _ _); [|discriminate].
    destruct (empty _); [discriminate|]. injection Hd as <-.
    apply and_then_Ok in H as ([start_date end_date] & Hwin & H).
    apply and_then_Ok in H as (d' & Hrange & [= <-]).
    rewrite filter_range_spec in Hrange. cbv zeta in Hrange.
    destruct (empty _) eqn:E; [discriminate|]. injection Hrange as <-.
    apply empty_false in E. cbn [fst snd] in E. rewrite !rows_select in E.
    rewrite (kept_chain df start_date end_date Hs) in E.
    split; [exact Hreq|]. exists start_date, end_date.
    split; [exact Hwin|]. split.
    + intros Hnil. rewrite Hnil in E. now apply E.
    + rewrite add_duration_spec. cbn [fst snd columns select rows normalized].
      rewrite (kept_chain df start_date end_date Hs), map_map.
      unfold dropna_dates, dropna_all. cbn [columns select normalized].
      now rewrite (with_column_In "Start Date (CET)"),
        (with_column_In "End Date (CET)").
  - intros (Hreq & start_date & end_date & Hwin & Hkept & ->).
    assert (Hs : In "Start Date (CET)" (columns df)) by (apply Hreq; cbn; tauto).
    assert (He : In "End Date (CET)" (columns df)) by (apply Hreq; cbn; tauto).
    rewrite clean_and_validate_data_spec, (no_missing_columns _ Hreq).
    cbn [and_then].
    pose proof (kept_chain df start_date end_date Hs) as Hchain.
    assert (Hrows : List.filter (in_range start_date end_date)
                      (List.filter (fun r => starts_with_prod (get "Activity Number" r))
                         (rows (dropna_dates (normalized (dropna_all df))))) <> []).
    { rewrite Hchain. now apply map_not_nil. }
    assert (Hcols : columns (dropna_dates (normalized (dropna_all df))) = columns df).
    { unfold dropna_dates, dropna_all. cbn [columns select normalized].
      now rewrite (with_column_In "Start Date (CET)"),
        (with_column_In "End Date (CET)"). }
    assert (Hne : columns df <> []) by (intros Hnil; now rewrite Hnil in Hs).
    rewrite (empty_false_intro (dropna_dates (normalized (dropna_all df)))).
    2: { now apply filter_not_nil_inv, filter_not_nil_inv in Hrows. }
    2: { now rewrite Hcols. }
    rewrite filter_prefix_spec. cbv zeta.
    rewrite (str_accessor_of_prod df (dropna_dates (normalized (dropna_all df)))).
    2: { pose proof (filter_not_nil_inv _ _ Hrows) as Hprod.
         remember (List.filter
                     (fun r => starts_with_prod (get "Activity Number" r))
                     (rows (dropna_dates (normalized (dropna_all df)))))
           as prod eqn:Ef.
         destruct prod as [|r l]; [now destruct Hprod|].
         exists r.
         apply (proj1 (List.filter_In
                         (fun r => starts_with_prod (get "Activity Number" r))
                         r _)).
         rewrite <- Ef. now left. }
    rewrite (empty_false_intro (select _ (dropna_dates _))).
    2: { rewrite rows_select. now apply filter_not_nil_inv in Hrows. }
    2: { cbn [columns select]. now rewrite Hcols. }
    cbn [and_then]. rewrite Hwin. cbn [and_then fst snd].
    rewrite filter_range_spec. cbv zeta.
    rewrite (empty_false_intro (select _ (select _ (dropna_dates _)))).
    2: { now rewrite !rows_select. }
    2: { cbn [columns select]. now rewrite Hcols. }
    cbn [and_then]. f_equal. rewrite add_duration_spec.
    cbn [columns select rows]. rewrite Hchain, map_map.
    now rewrite Hcols.
Qed.

Lemma run_Ok_iff (w : world) (file_path sf ef : string) (out : frame value) :
  result (read_and_process_data w file_path sf ef) = Ok out
  <-> path_exists w file_path = true
      /\ exists df,
           result (read_file w file_path (extension w file_path)) = Ok df
           /\ stages sf ef df = Ok out.
Proof.
  rewrite read_and_process_data_result, try_body_result.
  destruct (path_exists w file_path).
  - destruct (result (read_file _ _ _)) as [df|e]; cbn [and_then].
    + destruct (stages sf ef df) as [out'|e] eqn:E.
      * split.
        -- intros [= <-]. split; [reflexivity|]. now exists df.
        -- intros (_ & df' & [= <-] & H). congruence.
      * split; [discriminate|]. intros (_ & df' & [= <-] & H). congruence.
    + split; [discriminate|]. now intros (_ & df' & H & _).
  - split; [discriminate|]. now intros [H _].
Qed.

(** X1. A run succeeds exactly when the path exists, the table decodes,
    every required column is there, the two bounds of the window parse and
    at least one row of the table has two dates that parse and lie in the
    window and an identifier that starts with [Prod]. Its result is then
    that of these rows, in their order, each with its dates converted and
    its duration set, under the columns of the table and the duration
    column. *)
Theorem run_succeeds_exactly_on_kept_rows (w : world)
  (file_path start_date_filter end_date_filter : string) (out : frame value) :
  result (read_and_process_data w file_path start_date_filter end_date_filter)
  = Ok out
  <-> path_exists w file_path = true
      /\ exists df start_date end_date,
           result (read_file w file_path (extension w file_path)) = Ok df
           /\ (forall col, In col required_columns -> In col (columns df))
           /\ parse_window start_date_filter end_date_filter
              = Ok (start_date, end_date)
           /\ List.filter (kept start_date end_date) (rows df) <> []
           /\ out = Frame (with_column "Duration (Hours)" (columns df))
                      (map finish
                         (List.filter (kept start_date end_date) (rows df))).
Proof.
  rewrite run_Ok_iff. split.
  - intros (Hex & df & Hread & Hst). split; [exact Hex|].
    apply stages_Ok_iff in Hst as (Hreq & a & b & H).
    now exists df, a, b.
  - intros (Hex & df & a & b & Hread & Hreq & H). split; [exact Hex|].
    exists df. split; [exact Hread|]. apply stages_Ok_iff.
    split; [exact Hreq|]. now exists a, b.
Qed.

Lemma run_succeeds_exactly_on_kept_rows_witness :
  result (read_and_process_data Sample.world "ordered.csv"
            "08/11/2024 00:00" "10/11/2024 23:59")
  = Ok (Frame (with_column "Duration (Hours)" required_columns)
          (map finish (rows Sample.ordered))).
Proof.
  apply run_succeeds_exactly_on_kept_rows. split; [reflexivity|].
  exists Sample.ordered, 1731024000%Z, 1731283140%Z.
  split; [vm_compute; reflexivity|].
  split; [intros col Hcol; exact Hcol|].
  split; [vm_compute; reflexivity|].
  split.
  - intros H. apply (f_equal (@length _)) in H. vm_compute in H.
    discriminate H.
  - vm_compute. reflexivity.
Defined.

Lemma get_finish (r : nat * gmap string cell) :
  get "Activity Number" (finish r) = Raw (at_column NaN "Activity Number" r)
  /\ get "Start Date (CET)" (finish r)
     = date_value (parse_cell (at_column NaN "Start Date (CET)" r))
  /\ get "End Date (CET)" (finish r)
     = date_value (parse_cell (at_column NaN "End Date (CET)" r))
  /\ get "Duration (Hours)" (finish r)
     = duration_hours
         (date_value (parse_cell (at_column NaN "End Date (CET)" r)))
         (date_value (parse_cell (at_column NaN "Start Date (CET)" r))).
Proof.
  unfold finish. destruct (get_with_duration (normalize_row r)) as (Hs & He & Hd).
  rewrite Hs, He, Hd, get_normalize_row_start, get_normalize_row_end.
  split; [|repeat split].
  unfold get, at_column, with_duration. cbn [snd].
  rewrite lookup_insert_ne by discriminate.
  rewrite normalize_row_other by discriminate.
  now destruct (snd r !! "Activity Number").
Qed.

Lemma kept_true (start_date end_date : Z) (r : nat * gmap string cell) :
  kept start_date end_date r = true
  <-> exists s e rest,
        parse_cell (at_column NaN "Start Date (CET)" r) = Some s
        /\ parse_cell (at_column NaN "End Date (CET)" r) = Some e
        /\ at_column NaN "Activity Number" r = Str (String.append "Prod" rest)
        /\ (start_date <= s)%Z /\ (e <= end_date)%Z.
Proof.
  unfold kept, is_prod. split.
  - destruct (parse_cell (at_column NaN "Start Date (CET)" r)) as [s|];
      [|discriminate].
    destruct (parse_cell (at_column NaN "End Date (CET)" r)) as [e|];
      [|discriminate].
    intros H. apply andb_true_iff in H as [H Hp].
    apply andb_true_iff in H as [Hs He].
    apply Z.leb_le in Hs, He.
    destruct (at_column NaN "Activity Number" r) as [|id|]; try discriminate.
    apply startswith_append in Hp as [rest ->].
    now exists s, e, rest.
  - intros (s & e & rest & -> & -> & -> & Hs & He).
    apply Z.leb_le in Hs, He. rewrite Hs, He. cbn [andb].
    apply startswith_append. now exists rest.
Qed.

(** X2. Every row of a result passed both filters: its identifier is a
    string that starts with [Prod], its start is not before the start of
    the window the run parsed and its end is not after the end of that
    window; its duration is the fraction of the seconds between the two
    over 3600 and is at most the length of the window in hours. *)
Theorem result_rows_lie_in_the_window (w : world)
  (file_path start_date_filter end_date_filter : string) (out : frame value) :
  result (read_and_process_data w file_path start_date_filter end_date_filter)
  = Ok out ->
  exists start_date end_date,
    parse_window start_date_filter end_date_filter = Ok (start_date, end_date)
    /\ forall o, In o (rows out) ->
         exists rest s e,
           get "Activity Number" o = Raw (Str (String.append "Prod" rest))
           /\ get "Start Date (CET)" o = Timestamp s
           /\ get "End Date (CET)" o = Timestamp e
           /\ (start_date <= s)%Z /\ (e <= end_date)%Z
           /\ get "Duration (Hours)" o
              = Hours (inject_Z (e - s) / inject_Z 3600)%Q
           /\ (inject_Z (e - s) / inject_Z 3600
               <= inject_Z (end_date - start_date) / inject_Z 3600)%Q.
Proof.
  intros Hrun. apply run_Ok_iff in Hrun as (_ & df & _ & Hst).
  apply stages_Ok_iff in Hst as (_ & a & b & Hwin & _ & ->).
  exists a, b. split; [exact Hwin|]. cbn [rows]. intros o Ho.
  apply in_map_iff in Ho as (r & <- & Hr).
  apply List.filter_In in Hr as [_ Hk].
  apply kept_true in Hk as (s & e & rest & Hs & He & Hid & Has & Heb).
  destruct (get_finish r) as (Gid & Gs & Ge & Gd).
  exists rest, s, e. rewrite Gid, Gs, Ge, Gd, Hs, He, Hid.
  repeat split; try assumption.
  unfold Qle, Qdiv, Qmult, Qinv, inject_Z. simpl. lia.
Qed.

Lemma result_rows_lie_in_the_window_witness :
  result (read_and_process_data Desk.windows
            "C:/Users/Admin/Documents/MinBook.csv"
            "08/11/2024 17:00" "10/11/2024 23:59") = Ok Desk.returned
  /\ exists start_date end_date,
       parse_window "08/11/2024 17:00" "10/11/2024 23:59"
       = Ok (start_date, end_date)
       /\ forall o, In o (rows Desk.returned) ->
            exists rest s e,
              get "Activity Number" o = Raw (Str (String.append "Prod" rest))
              /\ get "Start Date (CET)" o = Timestamp s
              /\ get "End Date (CET)" o = Timestamp e
              /\ (start_date <= s)%Z /\ (e <= end_date)%Z
              /\ get "Duration (Hours)" o
                 = Hours (inject_Z (e - s) / inject_Z 3600)%Q
              /\ (inject_Z (e - s) / inject_Z 3600
                  <= inject_Z (end_date - start_date) / inject_Z 3600)%Q.
Proof.
  split; [vm_compute; reflexivity|].
  apply (result_rows_lie_in_the_window Desk.windows
           "C:/Users/Admin/Documents/MinBook.csv").
  vm_compute. reflexivity.
Defined.

(** ** Windows *)

Lemma filter_sublist_impl {A : Type} (f g : A -> bool) (l : list A) :
  (forall x, f x = true -> g x = true) ->
  List.filter f l `sublist_of` List.filter g l.
Proof.
  intros H. induction l as [|x l IH]; cbn [List.filter]; [constructor|].
  destruct (f x) eqn:E.
  - rewrite (H x E). now constructor.
  - destruct (g x); [now constructor | exact IH].
Qed.

Lemma kept_wider (a b a' b' : Z) (r : nat * gmap string cell) :
  (a' <= a)%Z -> (b <= b')%Z ->
  kept a b r = true -> kept a' b' r = true.
Proof.
  intros Ha Hb H. apply kept_true in H as (s & e & rest & Hs & He & Hid & H1 & H2).
  apply kept_true. exists s, e, rest. repeat split; try assumption; lia.
Qed.

(** X3. Widening the window never loses a row: when a run succeeds, the
    run on the same file with a window that starts no later and ends no
    earlier succeeds too, its result has the same columns and the rows of
    the first result are a subsequence of its rows. *)
Theorem widening_the_window_keeps_every_row (w : world)
  (file_path sf ef sf' ef' : string) (out : frame value) (a b a' b' : Z) :
  result (read_and_process_data w file_path sf ef) = Ok out ->
  parse_window sf ef = Ok (a, b) ->
  parse_window sf' ef' = Ok (a', b') ->
  (a' <= a)%Z -> (b <= b')%Z ->
  exists out',
    result (read_and_process_data w file_path sf' ef') = Ok out'
    /\ columns out' = columns out
    /\ rows out `sublist_of` rows out'.
Proof.
  intros Hrun Hwin Hwin' Ha Hb.
  apply run_Ok_iff in Hrun as (Hex & df & Hread & Hst).
  apply stages_Ok_iff in Hst as (Hreq & a0 & b0 & Hwin0 & Hne & ->).
  rewrite Hwin in Hwin0. injection Hwin0 as <- <-.
  assert (Hsub : List.filter (kept a b) (rows df)
                 `sublist_of` List.filter (kept a' b') (rows df)).
  { apply filter_sublist_impl. intros r. now apply kept_wider. }
  eexists. split; [|split].
  - apply run_Ok_iff. split; [exact Hex|]. exists df. split; [exact Hread|].
    apply stages_Ok_iff. split; [exact Hreq|]. exists a', b'.
    split; [exact Hwin'|]. split; [|reflexivity].
    intros Hnil. rewrite Hnil in Hsub. apply sublist_nil_r in Hsub. now apply Hne.
  - reflexivity.
  - cbn [rows]. now apply sublist_map.
Qed.

Lemma widening_the_window_keeps_every_row_witness :
  exists out',
    result (read_and_process_data Desk.windows
              "C:/Users/Admin/Documents/MinBook.csv"
              "08/11/2024 00:00" "10/11/2024 23:59") = Ok out'
    /\ columns out' = columns Desk.returned
    /\ rows Desk.returned `sublist_of` rows out'.
Proof.
  apply (widening_the_window_keeps_every_row Desk.windows
           "C:/Users/Admin/Documents/MinBook.csv"
           "08/11/2024 17:00" "10/11/2024 23:59"
           "08/11/2024 00:00" "10/11/2024 23:59" Desk.returned
           1731085200 1731283140 1731024000 1731283140).
  - vm_compute. reflexivity.
  - vm_compute. reflexivity.
  - vm_compute. reflexivity.
  - apply Z.leb_le. reflexivity.
  - apply Z.leb_le. reflexivity.
Defined.

Lemma read_file_raise_kind (w : world) (file_path ext : string) (e : error) :
  result (read_file w file_path ext) = Raise e ->
  (exists f, e = DecodeError f) \/ e = UnsupportedFormat ext.
Proof.
  unfold read_file.
  destruct (String.eqb ext ".xlsx");
    [destruct (read_excel w file_path "openpyxl"); [discriminate|];
     intros [= <-]; left; now eexists|].
  destruct (String.eqb ext ".xls");
    [destruct (read_excel w file_path "xlrd"); [discriminate|];
     intros [= <-]; left; now eexists|].
  destruct (String.eqb ext ".csv").
  - intros H. apply try_encodings_raise in H as [-> _]. left. now eexists.
  - intros [= <-]. now right.
Qed.

Lemma before_range_raise_kind (df : table) (e : error) :
  before_range df = Raise e ->
  e = SchemaError (missing_columns (columns df))
  \/ e = EmptyResultError NoValidData \/ e = EmptyResultError NoProdTask
  \/ e = AttributeError.
Proof.
  unfold before_range. rewrite clean_and_validate_data_spec.
  destruct (missing_columns (columns df)); cbn [and_then];
    [|intros [= <-]; now left].
  destruct (empty _); [intros [= <-]; right; now left|].
  rewrite filter_prefix_spec. cbv zeta.
  destruct (str_accessor _ _); [|intros [= <-]; now do 3 right].
  destruct (empty _); [intros [= <-]; right; right; now left | discriminate].
Qed.

Lemma parse_window_raise (sf ef : string) (e : error) :
  parse_window sf ef = Raise e
  <-> (e = InvalidWindowError StartBound sf /\ Strptime.strptime_bound sf = None)
      \/ (e = InvalidWindowError EndBound ef
          /\ Strptime.strptime_bound sf <> None
          /\ Strptime.strptime_bound ef = None).
Proof.
  unfold parse_window.
  destruct (Strptime.strptime_bound sf) as [sd|].
  - destruct (Strptime.strptime_bound ef) as [ed|].
    + split; [discriminate|]. intros [[_ H]|(_ & _ & H)]; discriminate.
    + split.
      * intros [= <-]. right. repeat split. discriminate.
      * intros [[_ H]|(-> & _ & _)]; [discriminate | reflexivity].
  - split.
    + intros [= <-]. now left.
    + intros [[-> _]|(_ & H & _)]; [reflexivity | now destruct H].
Qed.

(** X4. The window is read last. A run fails with the invalid-window
    error exactly when the path exists, the table decodes and passes the
    validation, some row with both dates has an identifier that starts with
    [Prod], and a bound does not parse; the bound named is the start if
    the start does not parse, whatever the end is, and the end otherwise. A
    malformed window thus goes unreported when an earlier stage fails. *)
Theorem invalid_window_is_reported_after_the_prefix_filter (w : world)
  (file_path start_date_filter end_date_filter : string)
  (which : bound) (raw : string) :
  result (read_and_process_data w file_path start_date_filter end_date_filter)
  = Raise (ProcessingError (InvalidWindowError which raw))
  <-> path_exists w file_path = true
      /\ (exists df d,
            result (read_file w file_path (extension w file_path)) = Ok df
            /\ before_range df = Ok d)
      /\ ((which = StartBound /\ raw = start_date_filter
           /\ Strptime.strptime_bound start_date_filter = None)
          \/ (which = EndBound /\ raw = end_date_filter
              /\ Strptime.strptime_bound start_date_filter <> None
              /\ Strptime.strptime_bound end_date_filter = None)).
Proof.
  rewrite read_and_process_data_result, try_body_result.
  destruct (path_exists w file_path).
  2: { split; [discriminate | now intros [H _]]. }
  destruct (result (read_file _ _ _)) as [df|e] eqn:Eread; cbn [and_then].
  2: { split.
       - intros [= ->]. apply read_file_raise_kind in Eread as [[f H]|H];
           discriminate.
       - now intros (_ & (df & d & H & _) & _). }
  unfold stages. destruct (before_range df) as [d|e] eqn:Ebr; cbn [and_then].
  2: { split.
       - intros [= ->]. apply before_range_raise_kind in Ebr as [H|[H|[H|H]]];
           discriminate.
       - intros (_ & (df' & d & [= <-] & H) & _). congruence. }
  destruct (parse_window start_date_filter end_date_filter) as [window|e] eqn:Ew;
    cbn [and_then].
  - split.
    + rewrite filter_range_spec. cbv zeta. destruct (empty _); discriminate.
    + intros (_ & _ & H).
      assert (Hr : parse_window start_date_filter end_date_filter
                   = Raise (InvalidWindowError which raw)).
      { apply parse_window_raise.
        destruct H as [(-> & -> & H)|(-> & -> & H)]; [left | right]; now split. }
      congruence.
  - apply parse_window_raise in Ew. split.
    + intros [= ->]. split; [reflexivity|]. split; [now exists df, d|].
      destruct Ew as [[[= -> ->] H]|[[= -> ->] H]]; [left | right];
        now repeat split.
    + intros (_ & _ & H). do 2 f_equal.
      destruct Ew as [[-> Hs]|(-> & Hs & He)];
        destruct H as [(-> & -> & H)|(-> & -> & H1 & H2)];
        try reflexivity; congruence.
Qed.

Lemma invalid_window_is_reported_after_the_prefix_filter_witness :
  result (read_and_process_data Sample.world "ordered.csv"
            "08/11/2024 00:00" "10/11/24 23:59")
  = Raise (ProcessingError (InvalidWindowError EndBound "10/11/24 23:59")).
Proof.
  apply invalid_window_is_reported_after_the_prefix_filter.
  split; [reflexivity|]. split.
  - exists Sample.ordered. eexists. split; vm_compute; reflexivity.
  - right. split; [reflexivity|]. split; [reflexivity|].
    split; [vm_compute; discriminate|vm_compute; reflexivity].
Defined.

(** ** What a run prints *)

Lemma convert_dates_log_exact (file : frame cell) (df : frame value)
  (date_col : string) :
  log (convert_dates file df date_col)
  = ProcessingColumn date_col :: failures (column NaN file date_col)
    ++ (let df' := set_column date_col
                     (map date_value (map parse_cell (column NaN file date_col)))
                     df in
        let invalid_dates := select (fun r => isna_value (get date_col r)) df' in
        if negb (empty invalid_dates)
        then [InvalidDates date_col
                (map (fun r => (fst r, get "Activity Number" r))
                   (rows invalid_dates))]
        else []).
Proof.
  unfold convert_dates. rewrite log_bind. cbn [print log result fst snd app].
  rewrite log_bind, mapM_parse_dates. cbn [log result fst snd].
  rewrite log_bind. cbv zeta.
  destruct (negb (empty _)); cbn [log result fst snd print ret app];
    now rewrite ?app_nil_r.
Qed.

Lemma log_foldM_convert_dates (file : frame cell) :
  log (foldM (convert_dates file) (working file)
         ["Start Date (CET)"; "End Date (CET)"])
  = log (convert_dates file (working file) "Start Date (CET)")
    ++ log (convert_dates file
              (set_column "Start Date (CET)"
                 (map date_value
                    (map parse_cell (column NaN file "Start Date (CET)")))
                 (working file))
              "End Date (CET)").
Proof.
  cbn [foldM]. rewrite log_bind, convert_dates_result.
  rewrite log_bind, convert_dates_result. cbn [ret log fst].
  now rewrite app_nil_r.
Qed.

Lemma log_try_body (w : world) (file_path sf ef : string) :
  log (try_body w file_path sf ef)
  = log (read_file w file_path (extension w file_path))
    ++ match result (read_file w file_path (extension w file_path)) with
       | Raise _ => []
       | Ok df =>
           ShowColumns (columns df) :: ShowHead (firstn 5 (rows df))
           :: match clean_and_validate_data df with
              | Raise _ => []
              | Ok file =>
                  log (foldM (convert_dates file) (working file)
                         ["Start Date (CET)"; "End Date (CET)"])
              end
       end.
Proof.
  unfold try_body. cbv zeta. fold (extension w file_path).
  rewrite log_bind. f_equal.
  destruct (result (read_file w file_path (extension w file_path))) as [df|e];
    [|reflexivity].
  rewrite log_bind. cbn [print log result fst snd app]. f_equal.
  rewrite log_bind. cbn [print log result fst snd app]. f_equal.
  rewrite log_bind. cbn [lift log result fst snd app].
  destruct (clean_and_validate_data df) as [file|e]; [|reflexivity].
  rewrite log_bind, foldM_convert_dates.
  rewrite <- (app_nil_r (log (foldM _ _ _))) at 2. f_equal.
  destruct (empty (dropna_dates (normalized file))); [reflexivity|].
  cbn [ret bind]. destruct (filter_prefix _ _) as [d|e]; [|reflexivity].
  cbn [lift bind]. destruct (parse_window sf ef) as [window|e]; [|reflexivity].
  cbn [lift bind]. destruct (filter_range _ _ _ _ _); reflexivity.
Qed.

Lemma log_run (w : world) (file_path sf ef : string) :
  log (read_and_process_data w file_path sf ef)
  = if path_exists w file_path then log (try_body w file_path sf ef) else [].
Proof.
  unfold read_and_process_data.
  destruct (path_exists w file_path); cbn [negb]; [|reflexivity].
  unfold wrap. now destruct (try_body w file_path sf ef) as [out [a|e]].
Qed.

(** X5. What a run prints does not depend on the window: the two bounds
    are read after the last line is printed. *)
Theorem the_log_does_not_depend_on_the_window (w : world)
  (file_path sf ef sf' ef' : string) :
  log (read_and_process_data w file_path sf ef)
  = log (read_and_process_data w file_path sf' ef').
Proof.
  rewrite !log_run.
  destruct (path_exists w file_path); [|reflexivity].
  rewrite !log_try_body. reflexivity.
Qed.

Lemma unparsable_app (l k : list event) :
  unparsable (l ++ k) = unparsable l ++ unparsable k.
Proof. apply flat_map_app. Qed.

Lemma warnings_app (l k : list event) :
  warnings (l ++ k) = warnings l ++ warnings k.
Proof. apply flat_map_app. Qed.

Lemma try_encodings_quiet (w : world) (file_path : string) (encs : list string) :
  unparsable (log (try_encodings w file_path encs)) = []
  /\ warnings (log (try_encodings w file_path encs)) = [].
Proof.
  induction encs as [|enc encs [IHu IHw]]; [split; reflexivity|].
  cbn [try_encodings]. rewrite log_bind. cbn [print log result fst snd app].
  destruct (read_csv w file_path enc) as [df|[|msg]].
  - split; reflexivity.
  - rewrite log_bind. cbn [print log result fst snd app].
    cbn [unparsable warnings flat_map app]. now split.
  - rewrite log_bind. cbn [print log result fst snd app].
    cbn [unparsable warnings flat_map app]. now split.
Qed.

Lemma read_file_quiet (w : world) (file_path ext : string) :
  unparsable (log (read_file w file_path ext)) = []
  /\ warnings (log (read_file w file_path ext)) = [].
Proof.
  unfold read_file.
  destruct (String.eqb ext ".xlsx");
    [destruct (read_excel w file_path "openpyxl"); split; reflexivity|].
  destruct (String.eqb ext ".xls");
    [destruct (read_excel w file_path "xlrd"); split; reflexivity|].
  destruct (String.eqb ext ".csv"); [apply try_encodings_quiet|].
  split; reflexivity.
Qed.

Lemma failures_texts (cs : list cell) :
  unparsable (failures cs) = map py_str (List.filter unparsable_cell cs)
  /\ warnings (failures cs) = [].
Proof.
  induction cs as [|c cs [IHu IHw]]; [split; reflexivity|].
  unfold failures. cbn [flat_map List.filter].
  rewrite unparsable_app, warnings_app. fold (failures cs). rewrite IHu, IHw.
  unfold failure_of, unparsable_cell, parse_cell.
  destruct (isna c); cbn [negb andb]; [split; reflexivity|].
  destruct (first_format date_formats (py_str c)); split; reflexivity.
Qed.

Lemma default_Raw (o : option cell) :
  default (Raw NaN) (Raw <$> o) = Raw (default NaN o).
Proof. now destruct o. Qed.

Lemma isna_date_value (o : option Z) :
  isna_value (date_value o) = match o with Some _ => false | None => true end.
Proof. now destruct o. Qed.

(** The warning of one turn of the loop, when the frame holds the rows of
    the file with other cells than those of [date_col] converted. *)
Lemma convert_dates_warning (file : frame cell) (cols : list string)
  (f : nat * gmap string cell -> nat * gmap string value) (date_col : string) :
  (forall r, fst (f r) = fst r) ->
  (forall r, snd (f r) !! "Activity Number" = Raw <$> (snd r !! "Activity Number")) ->
  date_col <> "Activity Number" ->
  warnings (log (convert_dates file (Frame cols (map f (rows file))) date_col))
  = warning_of file date_col
  /\ unparsable (log (convert_dates file (Frame cols (map f (rows file))) date_col))
     = map py_str (List.filter unparsable_cell (column NaN file date_col)).
Proof.
  intros Hfst Hid Hcol. rewrite convert_dates_log_exact. cbv zeta.
  set (g := fun x => (fst (f x),
                      <[date_col := date_value (parse_cell (at_column NaN date_col x))]>
                        (snd (f x)))).
  assert (Hdf : set_column date_col
                  (map date_value (map parse_cell (column NaN file date_col)))
                  (Frame cols (map f (rows file)))
                = Frame (with_column date_col cols) (map g (rows file))).
  { unfold column. rewrite !map_map. apply set_column_map. }
  rewrite Hdf.
  change (ProcessingColumn date_col :: ?l) with ([ProcessingColumn date_col] ++ l).
  rewrite !warnings_app, !unparsable_app.
  destruct (failures_texts (column NaN file date_col)) as [Hu Hw].
  rewrite Hu, Hw. cbn [warnings unparsable flat_map app].
  assert (Hrows : rows (select (fun r => isna_value (get date_col r))
                          (Frame (with_column date_col cols) (map g (rows file))))
                  = map g (List.filter (undated date_col) (rows file))).
  { rewrite rows_select. cbn [rows]. rewrite filter_map_swap. f_equal.
    apply List.filter_ext. intros r. unfold g, get, at_column. cbn [snd].
    rewrite lookup_insert_eq. cbn [default]. apply isna_date_value. }
  unfold warning_of. split.
  - destruct (List.filter (undated date_col) (rows file)) as [|r0 l] eqn:E.
    + rewrite (empty_no_rows _ Hrows). reflexivity.
    + rewrite empty_false_intro.
      * cbn [negb warnings flat_map app]. rewrite Hrows, map_map.
        do 2 f_equal. apply map_ext. intros r.
        unfold g, get, at_column. cbn [fst snd].
        rewrite lookup_insert_ne by congruence.
        now rewrite Hfst, Hid, default_Raw.
      * now rewrite Hrows.
      * cbn [columns select]. apply with_column_not_nil.
  - destruct (negb (empty _)); cbn [unparsable flat_map app];
      now rewrite app_nil_r.
Qed.

Lemma conversion_diagnostics (file : frame cell) :
  let out := log (foldM (convert_dates file) (working file)
                    ["Start Date (CET)"; "End Date (CET)"]) in
  unparsable out
  = map py_str (List.filter unparsable_cell (column NaN file "Start Date (CET)"))
    ++ map py_str (List.filter unparsable_cell (column NaN file "End Date (CET)"))
  /\ warnings out
     = warning_of file "Start Date (CET)" ++ warning_of file "End Date (CET)".
Proof.
  cbv zeta. rewrite log_foldM_convert_dates, unparsable_app, warnings_app.
  assert (H1 : forall date_col, date_col <> "Activity Number" ->
            warnings (log (convert_dates file (working file) date_col))
            = warning_of file date_col
            /\ unparsable (log (convert_dates file (working file) date_col))
               = map py_str (List.filter unparsable_cell (column NaN file date_col))).
  { intros date_col Hcol. unfold working.
    apply (convert_dates_warning file (columns file)
             (fun r => (fst r, Raw <$> snd r))); [reflexivity| |exact Hcol].
    intros r. cbn [snd]. apply lookup_fmap. }
  destruct (H1 "Start Date (CET)") as [Hw1 Hu1]; [discriminate|].
  rewrite Hw1, Hu1. clear H1 Hw1 Hu1.
  assert (Hdf : set_column "Start Date (CET)"
                  (map date_value
                     (map parse_cell (column NaN file "Start Date (CET)")))
                  (working file)
                = Frame (with_column "Start Date (CET)" (columns file))
                    (map (fun r => (fst r,
                            <["Start Date (CET)" :=
                                date_value (parse_cell (at_column NaN "Start Date (CET)" r))]>
                              (Raw <$> snd r))) (rows file))).
  { unfold working, column. now rewrite !map_map, set_column_map. }
  rewrite Hdf.
  destruct (convert_dates_warning file
              (with_column "Start Date (CET)" (columns file))
              (fun r => (fst r,
                         <["Start Date (CET)" :=
                             date_value (parse_cell (at_column NaN "Start Date (CET)" r))]>
                           (Raw <$> snd r)))
              "End Date (CET)") as [Hw2 Hu2].
  - reflexivity.
  - intros r. cbn [snd]. rewrite lookup_insert_ne by discriminate.
    apply lookup_fmap.
  - discriminate.
  - now rewrite Hw2, Hu2.
Qed.

Lemma run_diagnostics (w : world) (file_path sf ef : string) :
  path_exists w file_path = true ->
  let out := log (read_and_process_data w file_path sf ef) in
  match result (read_file w file_path (extension w file_path)) with
  | Ok df =>
      match clean_and_validate_data df with
      | Ok file =>
          unparsable out
          = map py_str
              (List.filter unparsable_cell (column NaN file "Start Date (CET)"))
            ++ map py_str
                 (List.filter unparsable_cell (column NaN file "End Date (CET)"))
          /\ warnings out
             = warning_of file "Start Date (CET)"
               ++ warning_of file "End Date (CET)"
      | Raise _ => unparsable out = [] /\ warnings out = []
      end
  | Raise _ => unparsable out = [] /\ warnings out = []
  end.
Proof.
  intros Hex. cbv zeta. rewrite log_run, Hex, log_try_body.
  rewrite unparsable_app, warnings_app.
  destruct (read_file_quiet w file_path (extension w file_path)) as [Hu Hw].
  rewrite Hu, Hw. cbn [app].
  destruct (result (read_file _ _ _)) as [df|e]; [|split; reflexivity].
  change (ShowColumns ?c :: ShowHead ?h :: ?l)
    with ([ShowColumns c; ShowHead h] ++ l).
  rewrite unparsable_app, warnings_app. cbn [unparsable warnings flat_map app].
  destruct (clean_and_validate_data df) as [file|e]; [|split; reflexivity].
  apply conversion_diagnostics.
Qed.

(** ** Parse failures and missing dates *)







(** X6. The parse failures a run prints are the texts of the cells of
    the validated table that are not missing and have no date, those of
    the start column first, then those of the end column, each in the order
    of the rows; a run whose table does not decode or does not pass the
    validation prints none. This holds whatever a later stage does. *)
Theorem a_run_prints_the_text_of_every_unparsable_cell (w : world)
  (file_path start_date_filter end_date_filter : string) :
  path_exists w file_path = true ->
  unparsable (log (read_and_process_data w file_path
                     start_date_filter end_date_filter))
  = match result (read_file w file_path (extension w file_path)) with
    | Ok df =>
        match clean_and_validate_data df with
        | Ok file =>
            map py_str
              (List.filter unparsable_cell (column NaN file "Start Date (CET)"))
            ++ map py_str
                 (List.filter unparsable_cell (column NaN file "End Date (CET)"))
        | Raise _ => []
        end
    | Raise _ => []
    end.
Proof.
  intros Hex.
  pose proof (run_diagnostics w file_path start_date_filter end_date_filter Hex)
    as H.
  cbv zeta in H.
  destruct (result (read_file _ _ _)) as [df|e]; [|apply H].
  destruct (clean_and_validate_data df); apply H.
Qed.

Lemma a_run_prints_the_text_of_every_unparsable_cell_witness :
  unparsable (log (read_and_process_data Sample.world "runbook.csv"
                     "08/11/2024 00:00" "10/11/2024 23:59"))
  = ["soon"].
Proof.
  rewrite (a_run_prints_the_text_of_every_unparsable_cell Sample.world
             "runbook.csv" "08/11/2024 00:00" "10/11/2024 23:59" eq_refl).
  vm_compute. reflexivity.
Defined.



(** ** The two date formats *)

Lemma in_pbind {A B : Type} (p : Strptime.parser A) (f : A -> Strptime.parser B)
  (s : list ascii) (v : B) (r : list ascii) :
  In (v, r) (Strptime.pbind p f s)
  <-> exists a r', In (a, r') (p s) /\ In (v, r) (f a r').
Proof.
  unfold Strptime.pbind. rewrite List.in_flat_map. split.
  - intros ([a r'] & H1 & H2). now exists a, r'.
  - intros (a & r' & H1 & H2). now exists (a, r').
Qed.

Lemma in_palt {A : Type} (p q : Strptime.parser A) (s : list ascii)
  (x : A * list ascii) :
  In x (Strptime.palt p q s) <-> In x (p s) \/ In x (q s).
Proof. unfold Strptime.palt. apply List.in_app_iff. Qed.

Lemma in_pret {A : Type} (a v : A) (s r : list ascii) :
  In (v, r) (Strptime.pret a s) <-> v = a /\ r = s.
Proof.
  unfold Strptime.pret. cbn [In]. split.
  - intros [[= <- <-]|[]]. now split.
  - intros [-> ->]. now left.
Qed.

Lemma in_digit_in (lo hi : nat) (s : list ascii) (n : nat) (r : list ascii) :
  In (n, r) (Strptime.digit_in lo hi s)
  <-> exists c, s = c :: r /\ 48 + lo <= nat_of_ascii c <= 48 + hi
                /\ n = nat_of_ascii c - 48.
Proof.
  unfold Strptime.digit_in. destruct s as [|c s].
  - split; [intros [] | intros (c & H & _); discriminate].
  - destruct (Nat.leb_spec (48 + lo) (nat_of_ascii c)) as [E1|E1];
      destruct (Nat.leb_spec (nat_of_ascii c) (48 + hi)) as [E2|E2];
      cbn [andb In].
    + split.
      * intros [[= <- <-]|[]]. exists c. repeat split; auto.
      * intros (c' & [= <- <-] & _ & ->). now left.
    + split; [intros [] | intros (c' & [= <- <-] & H & _); lia].
    + split; [intros [] | intros (c' & [= <- <-] & H & _); lia].
    + split; [intros [] | intros (c' & [= <- <-] & H & _); lia].
Qed.

Lemma in_lit (c : ascii) (s : list ascii) (u : unit) (r : list ascii) :
  In (u, r) (Strptime.lit c s) <-> s = c :: r.
Proof.
  unfold Strptime.lit. destruct s as [|c' s].
  - split; [intros [] | discriminate].
  - destruct (Ascii.eqb c c') eqn:E.
    + apply Ascii.eqb_eq in E as <-. cbn [In]. split.
      * intros [H|[]]. injection H as _ H. now rewrite H.
      * intros H. injection H as H. rewrite H. destruct u. now left.
    + apply Ascii.eqb_neq in E. split; [intros [] | intros [= <- <-]; now destruct E].
Qed.

Lemma in_spaces (s : list ascii) (u : unit) (r : list ascii) :
  In (u, r) (Strptime.spaces s) ->
  exists c s', s = c :: s' /\ Strptime.is_space c = true.
Proof.
  destruct s as [|c s]; [intros []|]. cbn [Strptime.spaces].
  destruct (Strptime.is_space c) eqn:E; [|intros []]. intros _. now exists c, s.
Qed.

Ltac inv_parse :=
  repeat match goal with
    | H : In _ (Strptime.palt _ _ _) |- _ => apply in_palt in H; destruct H as [H|H]
    | H : In _ (Strptime.pbind _ _ _) |- _ =>
        let a := fresh "a" in let r := fresh "r" in
        let H1 := fresh "H" in
        apply in_pbind in H; destruct H as (a & r & H1 & H)
    | H : In _ (Strptime.pret _ _) |- _ => apply in_pret in H; destruct H as [-> ->]
    | H : In _ (Strptime.digit _) |- _ => unfold Strptime.digit in H
    | H : In _ (Strptime.digit_in _ _ _) |- _ =>
        let c := fresh "c" in let Hb := fresh "Hb" in
        apply in_digit_in in H; destruct H as (c & -> & Hb & ->)
    | H : In _ (Strptime.lit _ _) |- _ => apply in_lit in H; subst
    end.

Lemma p_day_range (s : list ascii) (n : nat) (r : list ascii) :
  In (n, r) (Strptime.p_day s) -> 1 <= n <= 31.
Proof. unfold Strptime.p_day. intros H. inv_parse; lia. Qed.

Lemma p_month_range (s : list ascii) (n : nat) (r : list ascii) :
  In (n, r) (Strptime.p_month s) -> 1 <= n <= 12.
Proof. unfold Strptime.p_month. intros H. inv_parse; lia. Qed.

Lemma p_hour_range (s : list ascii) (n : nat) (r : list ascii) :
  In (n, r) (Strptime.p_hour s) -> n <= 23.
Proof. unfold Strptime.p_hour. intros H. inv_parse; lia. Qed.

Lemma p_minute_range (s : list ascii) (n : nat) (r : list ascii) :
  In (n, r) (Strptime.p_minute s) -> n <= 59.
Proof. unfold Strptime.p_minute. intros H. inv_parse; lia. Qed.

Lemma p_year2_shape (s : list ascii) (n : nat) (r : list ascii) :
  In (n, r) (Strptime.p_year2 s) ->
  1969 <= n <= 2068 /\ exists c1 c2, s = c1 :: c2 :: r.
Proof.
  unfold Strptime.p_year2. intros H. inv_parse. split.
  - destruct (_ <=? 68)%nat eqn:E;
      [apply Nat.leb_le in E | apply Nat.leb_gt in E]; lia.
  - now eexists _, _.
Qed.

Lemma p_year4_shape (s : list ascii) (n : nat) (r : list ascii) :
  In (n, r) (Strptime.p_year4 s) ->
  (Z.of_nat n <= 9999)%Z
  /\ exists c1 c2 c3 c4, s = c1 :: c2 :: c3 :: c4 :: r
                         /\ 48 <= nat_of_ascii c3 <= 57.
Proof.
  unfold Strptime.p_year4. intros H. inv_parse. split; [lia|].
  eexists _, _, _, _. split; [reflexivity | lia].
Qed.

Lemma digit_not_slash (c : ascii) : 48 <= nat_of_ascii c -> not_slash c.
Proof. intros H ->. change (nat_of_ascii "/") with 47 in H. lia. Qed.

Lemma p_day_consumes : consumes not_slash Strptime.p_day.
Proof.
  unfold Strptime.p_day. intros s v r H. inv_parse.
  - eexists [_; _]. split; [reflexivity|].
    repeat constructor; apply digit_not_slash; lia.
  - eexists [_; _]. split; [reflexivity|].
    repeat constructor; apply digit_not_slash; lia.
  - eexists [_; _]. split; [reflexivity|].
    repeat constructor; apply digit_not_slash; lia.
  - eexists [_]. split; [reflexivity|].
    repeat constructor; apply digit_not_slash; lia.
  - eexists [_; _]. split; [reflexivity|]. constructor; [discriminate|].
    repeat constructor; apply digit_not_slash; lia.
Qed.

Lemma p_month_consumes : consumes not_slash Strptime.p_month.
Proof.
  unfold Strptime.p_month. intros s v r H. inv_parse.
  - eexists [_; _]. split; [reflexivity|].
    repeat constructor; apply digit_not_slash; lia.
  - eexists [_; _]. split; [reflexivity|].
    repeat constructor; apply digit_not_slash; lia.
  - eexists [_]. split; [reflexivity|].
    repeat constructor; apply digit_not_slash; lia.
Qed.

Lemma split_at_slash (p1 p2 x1 x2 : list ascii) :
  Forall not_slash p1 -> Forall not_slash p2 ->
  p1 ++ "/"%char :: x1 = p2 ++ "/"%char :: x2 ->
  p1 = p2 /\ x1 = x2.
Proof.
  intros H1. revert p2. induction H1 as [|c p1 Hc _ IH]; intros p2 H2 E.
  - destruct H2 as [|c' p2 Hc' _]; cbn in E.
    + now injection E.
    + injection E as <- _. now destruct Hc'.
  - destruct H2 as [|c' p2 Hc' H2]; cbn in E.
    + injection E as -> _. now destruct Hc.
    + injection E as <- E. destruct (IH p2 H2 E) as [-> ->]. now split.
Qed.

Lemma p_format_inv (p_year : Strptime.parser nat) (s : list ascii)
  (d : Strptime.datetime) (rest : list ascii) :
  In (d, rest) (Strptime.p_format p_year s) ->
  1 <= Strptime.day d <= 31 /\ 1 <= Strptime.month d <= 12
  /\ Strptime.hour d <= 23 /\ Strptime.minute d <= 59
  /\ exists pre1 pre2 t r c r',
       s = pre1 ++ "/"%char :: pre2 ++ "/"%char :: t
       /\ Forall not_slash pre1 /\ Forall not_slash pre2
       /\ In (Strptime.year d, r) (p_year t)
       /\ r = c :: r' /\ Strptime.is_space c = true.
Proof.
  unfold Strptime.p_format. intros H. inv_parse. cbn.
  match goal with H : In (_, _) (Strptime.spaces _) |- _ =>
    apply in_spaces in H; destruct H as (c & r' & -> & Hsp) end.
  repeat match goal with
    | H : In _ (Strptime.p_day _) |- _ =>
        pose proof (p_day_range _ _ _ H); apply p_day_consumes in H;
        destruct H as (pre1 & -> & Hpre1)
    | H : In _ (Strptime.p_month _) |- _ =>
        pose proof (p_month_range _ _ _ H); apply p_month_consumes in H;
        destruct H as (pre2 & -> & Hpre2)
    | H : In _ (Strptime.p_hour _) |- _ => apply p_hour_range in H
    | H : In _ (Strptime.p_minute _) |- _ => apply p_minute_range in H
    end.
  repeat split; try lia.
  eexists pre1, pre2, _, _, c, r'. repeat split; eassumption.
Qed.

Lemma formats_never_both_match (s : list ascii)
  (d1 d2 : Strptime.datetime) (r1 r2 : list ascii) :
  In (d1, r1) (Strptime.p_format Strptime.p_year2 s) ->
  In (d2, r2) (Strptime.p_format Strptime.p_year4 s) -> False.
Proof.
  intros H1 H2.
  apply p_format_inv in H1
    as (_ & _ & _ & _ & p1 & p2 & t & r & c & r' & -> & Hp1 & Hp2 & Hy & -> & Hc).
  apply p_format_inv in H2
    as (_ & _ & _ & _ & q1 & q2 & t' & u & c' & u' & E & Hq1 & Hq2 & Hy' & _ & _).
  apply split_at_slash in E as [<- E]; [|assumption..].
  apply split_at_slash in E as [<- <-]; [|assumption..].
  apply p_year2_shape in Hy as (_ & a1 & a2 & ->).
  apply p_year4_shape in Hy' as (_ & b1 & b2 & b3 & b4 & [= _ _ <- _] & Hb).
  unfold Strptime.is_space in Hc.
  repeat (apply orb_true_iff in Hc as [Hc|Hc]);
    try (apply andb_true_iff in Hc as [Hc1 Hc2];
         apply Nat.leb_le in Hc1, Hc2; lia);
    apply Nat.eqb_eq in Hc; lia.
Qed.

Lemma strptime_Some (p_year : Strptime.parser nat) (s : string)
  (d : Strptime.datetime) :
  Strptime.strptime p_year s = Some d ->
  In (d, []) (Strptime.p_format p_year (PyStr.chars s))
  /\ Strptime.valid d = true.
Proof.
  unfold Strptime.strptime.
  destruct (Strptime.p_format p_year (PyStr.chars s)) as [|[d' [|c r]] l];
    try discriminate.
  destruct (Strptime.valid d') eqn:E; [|discriminate].
  intros [= <-]. split; [now left | exact E].
Qed.

Lemma parse_cell_Some (c : cell) (t : Z) :
  parse_cell c = Some t
  <-> isna c = false
      /\ exists d, Strptime.strptime_cell (py_str c) = Some d
                   /\ t = Strptime.timestamp d.
Proof.
  unfold parse_cell, date_formats. cbn [first_format].
  destruct (isna c); [split; [discriminate | now intros [H _]]|].
  destruct (Strptime.strptime_cell (py_str c)) as [d|]; cbn [option_map].
  - split.
    + intros [= <-]. split; [reflexivity|]. now exists d.
    + intros (_ & d' & [= <-] & ->). reflexivity.
  - split; [discriminate | now intros (_ & d' & H & _)].
Qed.

Lemma cell_date_is_no_bound (s : string) (d : Strptime.datetime) :
  Strptime.strptime_cell s = Some d -> Strptime.strptime_bound s = None.
Proof.
  intros H. apply strptime_Some in H as [H _].
  unfold Strptime.strptime_bound, Strptime.strptime.
  destruct (Strptime.p_format Strptime.p_year4 (PyStr.chars s))
    as [|[d' r] l] eqn:E; [reflexivity|].
  exfalso. apply (formats_never_both_match (PyStr.chars s) d d' [] r H).
  rewrite E. now left.
Qed.

(** X8. The dates of the cells and the bounds of the window are written
    differently, and no text is both: a text [parse_dates] takes for a
    date is refused as a bound of the window, at the start and at the end,
    and a text taken for a bound is a parse failure in a date cell. *)
Theorem no_text_is_both_a_cell_date_and_a_window_bound (s : string) :
  (parse_cell (Str s) <> None ->
   Strptime.strptime_bound s = None
   /\ (forall other,
         parse_window s other = Raise (InvalidWindowError StartBound s))
   /\ (forall other,
         Strptime.strptime_bound other <> None ->
         parse_window other s = Raise (InvalidWindowError EndBound s)))
  /\ (Strptime.strptime_bound s <> None ->
      parse_dates (Str s) = ([UnparsableDate s], Ok None)).
Proof.
  assert (Hcell : parse_cell (Str s) <> None -> Strptime.strptime_bound s = None).
  { intros H. destruct (parse_cell (Str s)) as [t|] eqn:E; [|now destruct H].
    apply parse_cell_Some in E as (_ & d & Hd & _).
    now apply cell_date_is_no_bound in Hd. }
  split.
  - intros H. specialize (Hcell H). split; [exact Hcell|]. split.
    + intros other. apply parse_window_raise. left. now split.
    + intros other Hother. apply parse_window_raise. right. now repeat split.
  - intros H. rewrite parse_dates_spec. unfold failure_of, parse_cell.
    cbn [isna py_str date_formats first_format].
    destruct (Strptime.strptime_cell s) as [d|] eqn:E; [|reflexivity].
    apply cell_date_is_no_bound in E. now destruct H.
Qed.

Lemma no_text_is_both_a_cell_date_and_a_window_bound_witness :
  Strptime.strptime_bound "08/11/24 10:00" = None
  /\ parse_dates (Str "08/11/2024 10:00")
     = ([UnparsableDate "08/11/2024 10:00"], Ok None).
Proof.
  split.
  - destruct (no_text_is_both_a_cell_date_and_a_window_bound "08/11/24 10:00")
      as [H _].
    apply H. vm_compute. discriminate.
  - destruct (no_text_is_both_a_cell_date_and_a_window_bound "08/11/2024 10:00")
      as [_ H].
    apply H. vm_compute. discriminate.
Defined.

Lemma day_of_year_bound (y m day : nat) :
  1 <= m <= 12 -> 1 <= day <= Strptime.days_in_month y m ->
  1 <= Strptime.days_before_month y m + day <= 366.
Proof.
  intros Hm Hd.
  do 13 (destruct m as [|m]; [cbn in *; destruct (Strptime.is_leap y); lia|]).
  lia.
Qed.

Lemma days_before_year_bounds (y : Z) :
  (1969 <= y <= 2068)%Z ->
  (718797 <= Strptime.days_before_year y
   /\ Strptime.days_before_year y + 366 <= 755322)%Z.
Proof.
  intros H. unfold Strptime.days_before_year. cbv zeta.
  Z.to_euclidean_division_equations. lia.
Qed.

Lemma strptime_fields (p_year : Strptime.parser nat) (s : string)
  (d : Strptime.datetime) :
  Strptime.strptime p_year s = Some d ->
  calendar_minute d /\ 1 <= Strptime.year d
  /\ exists t r, In (Strptime.year d, r) (p_year t).
Proof.
  intros H. apply strptime_Some in H as [H Hv].
  apply p_format_inv in H
    as (Hd & Hm & Hh & Hmi & _ & _ & t & r & _ & _ & _ & _ & _ & Hy & _).
  unfold Strptime.valid in Hv. apply andb_true_iff in Hv as [Hy1 Hdim].
  apply Nat.leb_le in Hy1, Hdim.
  split; [|split; [exact Hy1 | now exists t, r]].
  unfold calendar_minute. repeat split; lia.
Qed.

Lemma timestamp_whole_minute (d : Strptime.datetime) :
  exists k, Strptime.timestamp d = (60 * k)%Z.
Proof.
  unfold Strptime.timestamp.
  exists ((Strptime.ordinal d - 719163) * 1440
          + Z.of_nat (Strptime.hour d) * 60 + Z.of_nat (Strptime.minute d))%Z.
  ring.
Qed.

Lemma timestamp_range (d : Strptime.datetime) :
  calendar_minute d -> 1969 <= Strptime.year d <= 2068 ->
  (-31536000 <= Strptime.timestamp d < 3124224000)%Z.
Proof.
  intros (Hm & Hd & Hh & Hmi) Hy.
  pose proof (day_of_year_bound (Strptime.year d) _ _ Hm Hd) as Hdoy.
  pose proof (days_before_year_bounds (Z.of_nat (Strptime.year d))) as Hdby.
  unfold Strptime.timestamp, Strptime.ordinal. lia.
Qed.

(** X9. A date [parse_dates] returns is a minute of the calendar between
    the years 1969 and 2068: its month is 1 to 12, its day exists in that
    month of that year, its hour is at most 23 and its minute at most 59;
    as a timestamp it is a whole number of minutes, not before 1969-01-01
    00:00 and before 2069-01-01 00:00. The two bounds of a window that
    parses are minutes of the calendar of the years 1 to 9999. *)
Theorem parsed_dates_are_minutes_of_the_calendar :
  (forall c t,
     parse_cell c = Some t ->
     exists d,
       t = Strptime.timestamp d
       /\ 1969 <= Strptime.year d <= 2068
       /\ calendar_minute d
       /\ (-31536000 <= t < 3124224000)%Z
       /\ exists k, t = (60 * k)%Z)
  /\ (forall start_date_filter end_date_filter start_date end_date,
        parse_window start_date_filter end_date_filter
        = Ok (start_date, end_date) ->
        exists sd ed,
          start_date = Strptime.timestamp sd
          /\ end_date = Strptime.timestamp ed
          /\ calendar_minute sd /\ calendar_minute ed
          /\ (1 <= Z.of_nat (Strptime.year sd) <= 9999)%Z
          /\ (1 <= Z.of_nat (Strptime.year ed) <= 9999)%Z).
Proof.
  split.
  - intros c t H. apply parse_cell_Some in H as (_ & d & Hd & ->).
    apply strptime_fields in Hd as (Hcal & _ & u & r & Hy).
    apply p_year2_shape in Hy as [Hy _].
    exists d. split; [reflexivity|]. split; [exact Hy|]. split; [exact Hcal|].
    split; [now apply timestamp_range | apply timestamp_whole_minute].
  - intros sf ef a b H. unfold parse_window in H.
    destruct (Strptime.strptime_bound sf) as [sd|] eqn:Es; [|discriminate].
    destruct (Strptime.strptime_bound ef) as [ed|] eqn:Ee; [|discriminate].
    injection H as <- <-.
    apply strptime_fields in Es as (Hs & Hs1 & u & r & Hsy).
    apply strptime_fields in Ee as (He & He1 & u' & r' & Hey).
    apply p_year4_shape in Hsy as [Hsy _]. apply p_year4_shape in Hey as [Hey _].
    exists sd, ed. split; [reflexivity|]. split; [reflexivity|].
    split; [exact Hs|]. split; [exact He|]. lia.
Qed.

Lemma parsed_dates_are_minutes_of_the_calendar_witness :
  parse_cell (Str "08/11/24 10:00") = Some 1731060000%Z
  /\ exists k, 1731060000%Z = (60 * k)%Z.
Proof.
  assert (H : parse_cell (Str "08/11/24 10:00") = Some 1731060000%Z)
    by (vm_compute; reflexivity).
  split; [exact H|].
  destruct parsed_dates_are_minutes_of_the_calendar as [Hcell _].
  destruct (Hcell _ _ H) as (d & _ & _ & _ & _ & Hk). exact Hk.
Defined.

(** ** The decision a run takes *)

Lemma filter2 {A : Type} (c q k : A -> bool) (l : list A) :
  (forall x, k x = q x && c x) ->
  List.filter c (List.filter q l) = List.filter k l.
Proof.
  intros H. rewrite filter_filter_and. apply List.filter_ext. intros x.
  now rewrite H.
Qed.

Lemma dated_spec (cols : list string) (r : nat * gmap string cell) :
  In "Start Date (CET)" cols ->
  dated r
  = negb (forallb (fun c => isna (at_column NaN c r)) cols)
    && (negb (isna_value (get "Start Date (CET)" (normalize_row r)))
        && negb (isna_value (get "End Date (CET)" (normalize_row r)))).
Proof.
  intros Hin. unfold dated.
  rewrite get_normalize_row_start, get_normalize_row_end.
  destruct (parse_cell (at_column NaN "Start Date (CET)" r)) as [s|] eqn:Es.
  - rewrite (not_all_missing cols _ r Hin (parse_cell_not_missing _ _ Es)).
    now destruct (parse_cell (at_column NaN "End Date (CET)" r)).
  - cbn [date_value isna_value negb andb]. now rewrite andb_false_r.
Qed.

Lemma dated_chain (df : frame cell) :
  In "Start Date (CET)" (columns df) ->
  rows (dropna_dates (normalized (dropna_all df)))
  = map normalize_row (List.filter dated (rows df)).
Proof.
  intros Hs. unfold dropna_dates, normalized, dropna_all. cbn [rows select].
  rewrite filter_map_swap. f_equal. apply filter2. intros r.
  apply (dated_spec (columns df) r Hs).
Qed.

Lemma prod_chain (df : frame cell) :
  In "Start Date (CET)" (columns df) ->
  List.filter (fun r => starts_with_prod (get "Activity Number" r))
    (rows (dropna_dates (normalized (dropna_all df))))
  = map normalize_row
      (List.filter (fun r => dated r && is_prod (at_column NaN "Activity Number" r))
         (rows df)).
Proof.
  intros Hs. rewrite (dated_chain df Hs), filter_map_swap. f_equal.
  rewrite filter_filter_and. apply List.filter_ext. intros r.
  now rewrite prod_normalize_row.
Qed.

Lemma identifier_normalize_row (r : nat * gmap string cell) :
  at_column (Raw NaN) "Activity Number" (normalize_row r)
  = Raw (at_column NaN "Activity Number" r).
Proof.
  unfold at_column. rewrite normalize_row_other by discriminate.
  apply default_Raw.
Qed.

Lemma identifiers_chain (df : frame cell) :
  In "Start Date (CET)" (columns df) ->
  column (Raw NaN) (dropna_dates (normalized (dropna_all df))) "Activity Number"
  = dated_identifiers df.
Proof.
  intros Hs. unfold column, dated_identifiers.
  rewrite (dated_chain df Hs), map_map. apply map_ext. intros r.
  apply identifier_normalize_row.
Qed.

Lemma stages_decide (sf ef : string) (df : table) :
  stages sf ef df = decide sf ef df.
Proof.
  unfold stages, before_range, decide. rewrite clean_and_validate_data_spec.
  destruct (missing_columns (columns df)) as [|c l] eqn:Emiss;
    cbn [and_then]; [|reflexivity].
  assert (Hs : In "Start Date (CET)" (columns df)).
  { destruct (PyStr.mem "Start Date (CET)" (columns df)) eqn:Em;
      [now apply mem_In|].
    assert (Hin : In "Start Date (CET)" (missing_columns (columns df))).
    { apply missing_columns_In. split; [cbn; tauto | now apply mem_not_In]. }
    rewrite Emiss in Hin. destruct Hin. }
  assert (He : In "End Date (CET)" (columns df)).
  { destruct (PyStr.mem "End Date (CET)" (columns df)) eqn:Em;
      [now apply mem_In|].
    assert (Hin : In "End Date (CET)" (missing_columns (columns df))).
    { apply missing_columns_In. split; [cbn; tauto | now apply mem_not_In]. }
    rewrite Emiss in Hin. destruct Hin. }
  assert (Hcols : columns (dropna_dates (normalized (dropna_all df))) = columns df).
  { unfold dropna_dates, dropna_all. cbn [columns select normalized].
    now rewrite (with_column_In "Start Date (CET)"),
      (with_column_In "End Date (CET)"). }
  assert (Hne : columns df <> []) by (intros Hnil; now rewrite Hnil in Hs).
  pose proof (dated_chain df Hs) as Hdated.
  destruct (List.filter dated (rows df)) as [|r0 l0] eqn:E0.
  { rewrite empty_no_rows by exact Hdated. reflexivity. }
  rewrite empty_false_intro; [|now rewrite Hdated|now rewrite Hcols].
  rewrite filter_prefix_spec. cbv zeta.
  rewrite (identifiers_chain df Hs).
  destruct (str_accessor df (dated_identifiers df)); cbn [negb];
    [|reflexivity].
  pose proof (prod_chain df Hs) as Hprod.
  destruct (List.filter (fun r => dated r && is_prod _) (rows df))
    as [|r1 l1] eqn:E1.
  { rewrite empty_no_rows; [reflexivity|]. rewrite rows_select.
    exact Hprod. }
  rewrite empty_false_intro.
  2: { rewrite rows_select, Hprod. discriminate. }
  2: { cbn [columns select]. now rewrite Hcols. }
  cbn [and_then].
  destruct (parse_window sf ef) as [[a b]|e]; cbn [and_then fst snd];
    [|reflexivity].
  rewrite filter_range_spec. cbv zeta.
  pose proof (kept_chain df a b Hs) as Hkept.
  destruct (List.filter (kept a b) (rows df)) as [|r2 l2] eqn:E2.
  { rewrite empty_no_rows; [reflexivity|]. rewrite !rows_select. exact Hkept. }
  rewrite empty_false_intro.
  2: { rewrite !rows_select, Hkept. discriminate. }
  2: { cbn [columns select]. now rewrite Hcols. }
  cbn [and_then]. f_equal. rewrite add_duration_spec.
  cbn [columns select rows]. rewrite Hkept, map_map. now rewrite Hcols.
Qed.

(** X10. What a run returns or raises is decided by the rows of the
    decoded table, in this order: a required column is absent (schema
    error, with all of them); no row has its two dates (no valid data);
    pandas gives no [.str] accessor on the identifiers of the rows with
    their dates, none of which is a string then ([AttributeError]); no row
    with its dates has an identifier that starts with [Prod] (no such
    task); a bound of the window does not parse (invalid window); no row
    is kept for the window (no task in the range); else the rows kept, each
    finished. Every failure is inside the processing error, those of the
    decoder as well; a path that does not exist gives the bare
    file-not-found error. *)
Theorem a_run_is_decided_by_the_rows_of_the_table (w : world)
  (file_path start_date_filter end_date_filter : string) :
  result (read_and_process_data w file_path start_date_filter end_date_filter)
  = if path_exists w file_path
    then match result (read_file w file_path (extension w file_path)) with
         | Raise e => Raise (ProcessingError e)
         | Ok df =>
             match decide start_date_filter end_date_filter df with
             | Ok out => Ok out
             | Raise e => Raise (ProcessingError e)
             end
         end
    else Raise (FileNotFound file_path).
Proof.
  rewrite read_and_process_data_result, try_body_result.
  destruct (path_exists w file_path); [|reflexivity].
  destruct (result (read_file _ _ _)) as [df|e]; cbn [and_then]; [|reflexivity].
  now rewrite stages_decide.
Qed.

(** ** The chart *)

Lemma unique_from_distinct (same : value -> value -> bool) (seen l : list value) :
  distinct_keys same seen (unique_from same seen l).
Proof.
  revert seen. induction l as [|v l IH]; intros seen; cbn [unique_from].
  - exact I.
  - destruct (existsb (fun u => same u v) seen) eqn:E; [apply IH|].
    cbn [distinct_keys]. split; [exact E | apply IH].
Qed.

Lemma distinct_keys_seen (same : value -> value -> bool) (seen l : list value)
  (x y : value) :
  distinct_keys same seen l -> In x seen -> In y l -> same x y = false.
Proof.
  revert seen. induction l as [|v l IH]; intros seen H Hx Hy; [destruct Hy|].
  cbn [distinct_keys] in H. destruct H as [Hv H]. destruct Hy as [->|Hy].
  - destruct (same x y) eqn:E; [|reflexivity].
    assert (Hex : existsb (fun u => same u y) seen = true).
    { apply existsb_exists. now exists x. }
    congruence.
  - apply (IH (seen ++ [v]) H); [|exact Hy]. apply in_or_app. now left.
Qed.

Lemma distinct_keys_split (same : value -> value -> bool)
  (seen l1 l2 : list value) (x y : value) :
  distinct_keys same seen (l1 ++ x :: l2) -> In y l2 -> same x y = false.
Proof.
  revert seen. induction l1 as [|a l1 IH]; intros seen H Hy.
  - cbn [app distinct_keys] in H. destruct H as [_ H].
    apply (distinct_keys_seen same (seen ++ [x]) l2 x y H); [|exact Hy].
    apply in_or_app. right. now left.
  - cbn [app distinct_keys] in H. destruct H as [_ H]. now apply (IH _ H).
Qed.

Lemma unique_from_covers (same : value -> value -> bool) (seen l : list value)
  (v : value) :
  (forall u, same u u = true) ->
  In v l ->
  exists u, (In u seen \/ In u (unique_from same seen l)) /\ same u v = true.
Proof.
  intros Hrefl. revert seen. induction l as [|a l IH]; intros seen Hv;
    [destruct Hv|].
  cbn [unique_from]. destruct Hv as [->|Hv].
  - destruct (existsb (fun u => same u v) seen) eqn:E.
    + apply existsb_exists in E as (u & Hu & Hs). exists u. split; [now left|exact Hs].
    + exists v. split; [right; now left | apply Hrefl].
  - destruct (existsb (fun u => same u a) seen) eqn:E.
    + apply (IH seen Hv).
    + destruct (IH (seen ++ [a]) Hv) as (u & [Hu|Hu] & Hs).
      * apply in_app_or in Hu as [Hu|[<-|[]]].
        -- exists u. split; [now left | exact Hs].
        -- exists a. split; [right; now left | exact Hs].
      * exists u. split; [right; now right | exact Hs].
Qed.

Lemma unique_from_sublist (same : value -> value -> bool) (seen l : list value) :
  unique_from same seen l `sublist_of` l.
Proof.
  revert seen. induction l as [|a l IH]; intros seen; cbn [unique_from].
  - constructor.
  - destruct (existsb _ seen); constructor; apply IH.
Qed.

Lemma assign_colors_keys (rt : runtime) (k : nat) (resources : list value) :
  map fst (assign_colors rt k resources) = resources.
Proof.
  revert k. induction resources as [|r rs IH]; intros k; [reflexivity|].
  cbn [assign_colors map fst]. now rewrite IH.
Qed.

Lemma assign_colors_nth (rt : runtime) (k : nat) (resources : list value)
  (i : nat) (key : value) (colour : string) :
  nth_error (assign_colors rt k resources) i = Some (key, colour) ->
  nth_error resources i = Some key /\ colour = rgb rt (k + 3 * i).
Proof.
  revert k i. induction resources as [|r rs IH]; intros k i H.
  - now destruct i.
  - destruct i as [|i]; cbn [assign_colors nth_error] in *.
    + injection H as <- <-. split; [reflexivity|]. f_equal. lia.
    + apply IH in H as [H ->]. split; [exact H|]. f_equal. lia.
Qed.

Lemma create_gantt_chart_figure (rt : runtime) (k k' : nat) (df : frame value)
  (fig : figure) :
  create_gantt_chart rt k df = (inr fig, k') ->
  let resources :=
    unique (same_key rt) (column (Raw NaN) df "Responsible Person") in
  fig = Figure (map (task_of rt) (rows df)) (assign_colors rt k resources)
          (400 + length (rows df) * 30)
  /\ k' = k + 3 * length resources
  /\ create_gantt rt (map (task_of rt) (rows df)) (assign_colors rt k resources)
     = None.
Proof.
  unfold create_gantt_chart. cbv zeta.
  destruct (match rows df with [] => None | _ :: _ => _ end); [discriminate|].
  destruct (List.find _ ["Responsible Person"]); [discriminate|].
  destruct (create_gantt rt _ _) eqn:E; [discriminate|].
  intros [= <- <-]. repeat split.
Qed.

(** X11. In a figure [create_gantt_chart] returns, every task has a
    colour: some key of the colours is the same key as its resource; and no
    two keys of the colours are the same key, each key being a resource of
    a row, in the order in which the resources first appear. This needs of
    the equality of keys only that a value is the same key as itself. *)
Theorem every_task_of_the_chart_has_a_colour (rt : runtime) (k k' : nat)
  (df : frame value) (fig : figure) :
  (forall v, same_key rt v v = true) ->
  create_gantt_chart rt k df = (inr fig, k') ->
  (forall t, In t (fig_tasks fig) ->
     exists key colour,
       In (key, colour) (fig_colors fig)
       /\ same_key rt key (Resource t) = true)
  /\ (forall l1 l2 x y,
        map fst (fig_colors fig) = l1 ++ x :: l2 -> In y l2 ->
        same_key rt x y = false)
  /\ map fst (fig_colors fig)
     `sublist_of` map Resource (fig_tasks fig).
Proof.
  intros Hrefl H. apply create_gantt_chart_figure in H as (-> & _ & _).
  cbn [fig_tasks fig_colors]. rewrite assign_colors_keys. split; [|split].
  - intros t Ht. apply in_map_iff in Ht as (r & <- & Hr). cbn [Resource task_of].
    destruct (unique_from_covers (same_key rt) []
                (column (Raw NaN) df "Responsible Person")
                (get "Responsible Person" r) Hrefl) as (u & [[]|Hu] & Hs).
    { unfold column. apply in_map_iff. now exists r. }
    assert (Hkey : In u (map fst (assign_colors rt k
                     (unique (same_key rt)
                        (column (Raw NaN) df "Responsible Person"))))).
    { now rewrite assign_colors_keys. }
    apply in_map_iff in Hkey as ([key colour] & <- & Hin).
    now exists key, colour.
  - intros l1 l2 x y E Hy.
    pose proof (unique_from_distinct (same_key rt) []
                  (column (Raw NaN) df "Responsible Person")) as Hd.
    fold (unique (same_key rt) (column (Raw NaN) df "Responsible Person")) in Hd.
    rewrite E in Hd. now apply (distinct_keys_split _ _ _ _ _ _ Hd).
  - rewrite map_map. cbn [Resource task_of]. unfold unique, column.
    apply unique_from_sublist.
Qed.

Lemma every_task_of_the_chart_has_a_colour_witness :
  create_gantt_chart Desk.quiet 0 Desk.returned = (inr Desk.chart, 3)
  /\ forall t, In t (fig_tasks Desk.chart) ->
       exists key colour,
         In (key, colour) (fig_colors Desk.chart)
         /\ same_key Desk.quiet key (Resource t) = true.
Proof.
  split; [vm_compute; reflexivity|].
  apply (every_task_of_the_chart_has_a_colour Desk.quiet 0 3 Desk.returned
           Desk.chart).
  - intros v. apply String.eqb_refl.
  - vm_compute. reflexivity.
Defined.

(** X12. A figure [create_gantt_chart] returns has one task per row of
    the frame, in the order of the rows, each with the identifier, the two
    dates and the resource of its row, and its height is 400 plus 30 per
    row. Its colours took three draws each, in order: the colour at
    position [i] is made of the draws [k + 3 i], [k + 3 i + 1] and
    [k + 3 i + 2], and the draws made are three times the colours. *)
Theorem the_chart_has_a_task_per_row_and_three_draws_per_colour (rt : runtime)
  (k k' : nat) (df : frame value) (fig : figure) :
  create_gantt_chart rt k df = (inr fig, k') ->
  fig_tasks fig = map (task_of rt) (rows df)
  /\ map Task (fig_tasks fig) = column (Raw NaN) df "Activity Number"
  /\ map Start (fig_tasks fig) = column (Raw NaN) df "Start Date (CET)"
  /\ map Finish (fig_tasks fig) = column (Raw NaN) df "End Date (CET)"
  /\ map Resource (fig_tasks fig) = column (Raw NaN) df "Responsible Person"
  /\ fig_height fig = 400 + 30 * length (fig_tasks fig)
  /\ k' = k + 3 * length (fig_colors fig)
  /\ forall i key colour,
       nth_error (fig_colors fig) i = Some (key, colour) ->
       colour = rgb rt (k + 3 * i).
Proof.
  intros H. apply create_gantt_chart_figure in H as (-> & -> & _).
  cbn [fig_tasks fig_colors fig_height]. unfold column.
  rewrite !map_map, length_map.
  repeat split; try reflexivity.
  - lia.
  - f_equal. rewrite <- (length_map fst), assign_colors_keys. reflexivity.
  - intros i key colour Hi. now apply assign_colors_nth in Hi.
Qed.

Lemma the_chart_has_a_task_per_row_and_three_draws_per_colour_witness :
  create_gantt_chart Desk.quiet 0 Desk.returned = (inr Desk.chart, 3)
  /\ fig_height Desk.chart = 400 + 30 * length (fig_tasks Desk.chart)
  /\ 3 = 0 + 3 * length (fig_colors Desk.chart).
Proof.
  split; [vm_compute; reflexivity|].
  destruct (the_chart_has_a_task_per_row_and_three_draws_per_colour
              Desk.quiet 0 3 Desk.returned Desk.chart)
    as (_ & _ & _ & _ & _ & Hheight & Hdraws & _).
  - vm_compute. reflexivity.
  - split; [exact Hheight|exact Hdraws].
Defined.

Lemma no_label_absent (cols labels : list string) :
  (forall label, In label labels -> In label cols) ->
  List.find (fun label => negb (PyStr.mem label cols)) labels = None.
Proof.
  intros H. destruct (List.find _ labels) as [label|] eqn:E; [|reflexivity].
  apply List.find_some in E as [Hin Habs].
  apply negb_true_iff, mem_not_In in Habs. now destruct (Habs (H label Hin)).
Qed.

(** X13. [create_gantt_chart] raises a [KeyError] only for a label it
    reads that is not a column of the frame, and then before any draw. It
    raises none on a frame that has the six columns it reads, and none on
    a frame without rows that has the column of the resources. *)
Theorem a_KeyError_of_the_chart_names_an_absent_column (rt : runtime) (k : nat)
  (df : frame value) :
  (forall label,
     fst (create_gantt_chart rt k df) = inl (KeyError label) ->
     In label task_keys /\ ~ In label (columns df)
     /\ snd (create_gantt_chart rt k df) = k)
  /\ ((forall label, In label task_keys -> In label (columns df)) ->
      forall label, fst (create_gantt_chart rt k df) <> inl (KeyError label))
  /\ (rows df = [] -> In "Responsible Person" (columns df) ->
      forall label, fst (create_gantt_chart rt k df) <> inl (KeyError label)).
Proof.
  unfold create_gantt_chart. cbv zeta. split; [|split].
  - intros label.
    destruct (match rows df with [] => None | _ :: _ => _ end) as [l|] eqn:E.
    + cbn [fst snd]. intros [= ->]. destruct (rows df); [discriminate|].
      apply List.find_some in E as [Hin Habs].
      apply negb_true_iff, mem_not_In in Habs. now repeat split.
    + destruct (List.find _ ["Responsible Person"]) as [l|] eqn:E'.
      * cbn [fst snd]. intros [= ->].
        apply List.find_some in E' as [Hin Habs].
        apply negb_true_iff, mem_not_In in Habs. repeat split; [|exact Habs].
        destruct Hin as [<-|[]]. cbn. tauto.
      * destruct (create_gantt rt _ _); discriminate.
  - intros Hall label.
    rewrite (no_label_absent (columns df) task_keys Hall).
    rewrite (no_label_absent (columns df) ["Responsible Person"]).
    2: { intros l [<-|[]]. apply Hall. cbn. tauto. }
    destruct (rows df); destruct (create_gantt rt _ _); discriminate.
  - intros -> Hrp label.
    rewrite (no_label_absent (columns df) ["Responsible Person"]).
    2: { now intros l [<-|[]]. }
    destruct (create_gantt rt _ _); discriminate.
Qed.

Lemma a_KeyError_of_the_chart_names_an_absent_column_witness :
  fst (create_gantt_chart Desk.quiet 7
         (Frame ["Activity Number"] (rows Desk.returned)))
  = inl (KeyError "Milestone/task")
  /\ ~ In "Milestone/task" ["Activity Number"]
  /\ snd (create_gantt_chart Desk.quiet 7
            (Frame ["Activity Number"] (rows Desk.returned))) = 7.
Proof.
  assert (H : fst (create_gantt_chart Desk.quiet 7
                     (Frame ["Activity Number"] (rows Desk.returned)))
              = inl (KeyError "Milestone/task")) by (vm_compute; reflexivity).
  split; [exact H|].
  destruct (a_KeyError_of_the_chart_names_an_absent_column Desk.quiet 7
              (Frame ["Activity Number"] (rows Desk.returned))) as [Hkey _].
  destruct (Hkey _ H) as (_ & Habsent & Hdraws). split; assumption.
Defined.

Lemma result_columns (w : world) (file_path sf ef : string) (out : frame value) :
  result (read_and_process_data w file_path sf ef) = Ok out ->
  rows out <> []
  /\ (forall label, In label required_columns -> In label (columns out))
  /\ In "Duration (Hours)" (columns out).
Proof.
  intros H. apply run_Ok_iff in H as (_ & df & _ & H).
  apply stages_Ok_iff in H as (Hreq & a & b & _ & Hne & ->).
  cbn [rows columns]. split; [now apply map_not_nil|]. split.
  - intros label Hl. apply In_with_column. now apply Hreq.
  - unfold with_column. destruct (PyStr.mem _ _) eqn:E; [now apply mem_In|].
    apply in_or_app. right. now left.
Qed.

(** ** The entry point *)

Lemma run_raise_form (w : world) (file_path sf ef : string) (e : error) :
  result (read_and_process_data w file_path sf ef) = Raise e ->
  (path_exists w file_path = false /\ e = FileNotFound file_path)
  \/ (path_exists w file_path = true /\ exists c, e = ProcessingError c).
Proof.
  rewrite read_and_process_data_result.
  destruct (path_exists w file_path).
  - destruct (result (try_body _ _ _ _)); [discriminate|].
    intros [= <-]. right. split; [reflexivity | now eexists].
  - intros [= <-]. now left.
Qed.

Lemma handler_of_pipeline (w : world) (file_path sf ef : string) (e : error) :
  result (read_and_process_data w file_path sf ef) = Raise e ->
  handler_of (FromPipeline e)
  = if path_exists w file_path then OtherClass else FileNotFoundClass.
Proof.
  intros H. apply run_raise_form in H as [[-> ->]|[-> [c ->]]]; reflexivity.
Qed.

(** X14. When the pipeline fails, [main] prints its two first lines, the
    lines of the pipeline, and the two lines of a handler: that of
    [FileNotFoundError] when the path does not exist, that of any other
    exception in every other case. The handler of [ValueError] never
    serves a failure of the pipeline, whose [ValueError]s all arrive inside
    the [Exception] of line 195. *)
Theorem main_sends_a_failure_of_the_pipeline_to_two_handlers (w : world)
  (rt : runtime) (e : error) :
  let file_path := "C:/Users/Admin/Documents/MinBook.csv" in
  let run := read_and_process_data w file_path
               "08/11/2024 17:00" "10/11/2024 23:59" in
  result run = Raise e ->
  let handler := if path_exists w file_path then OtherClass
                 else FileNotFoundClass in
  main w rt
  = [ReadingFile file_path; WindowLine "08/11/2024 17:00" "10/11/2024 23:59"]
    ++ map Printed (log run)
    ++ [ErrorLine handler (FromPipeline e); HintLine handler].
Proof.
  cbv zeta. intros H. unfold main. cbv zeta. rewrite H. unfold handle.
  now rewrite (handler_of_pipeline _ _ _ _ _ H).
Qed.

Lemma main_sends_a_failure_of_the_pipeline_to_two_handlers_witness :
  main Sample.world Desk.quiet
  = [ReadingFile "C:/Users/Admin/Documents/MinBook.csv";
     WindowLine "08/11/2024 17:00" "10/11/2024 23:59";
     ErrorLine FileNotFoundClass
       (FromPipeline (FileNotFound "C:/Users/Admin/Documents/MinBook.csv"));
     HintLine FileNotFoundClass].
Proof.
  exact (main_sends_a_failure_of_the_pipeline_to_two_handlers Sample.world
           Desk.quiet (FileNotFound "C:/Users/Admin/Documents/MinBook.csv")
           eq_refl).
Defined.

Lemma not_in_printed (l : list event) (ev : main_event) :
  (forall x, ev <> Printed x) -> ~ In ev (map Printed l).
Proof.
  intros H Hin. apply in_map_iff in Hin as (x & Hx & _). now apply (H x).
Qed.

(** X15. [main] prints the hint of the [ValueError] handler only when a
    call of plotly raised a [ValueError], in [ff.create_gantt] or in
    [pio.write_html], after the pipeline succeeded; never for a bad window,
    a schema error or an empty result. *)
Theorem the_ValueError_handler_of_main_serves_plotly_only (w : world)
  (rt : runtime) :
  In (HintLine ValueErrorClass) (main w rt) ->
  exists out,
    result (read_and_process_data w "C:/Users/Admin/Documents/MinBook.csv"
              "08/11/2024 17:00" "10/11/2024 23:59") = Ok out
    /\ ((exists e, fst (create_gantt_chart rt 0 out) = inl (PlotlyError e)
                   /\ class_of_exn e = ValueErrorClass)
        \/ (exists fig e,
              fst (create_gantt_chart rt 0 out) = inr fig
              /\ write_html rt fig "gantt_chart.html" = Some e
              /\ class_of_exn e = ValueErrorClass)).
Proof.
  unfold main. cbv zeta. intros H.
  apply in_app_or in H as [H|H].
  { destruct H as [H|[H|[]]]; discriminate. }
  apply in_app_or in H as [H|H].
  { now apply not_in_printed in H. }
  destruct (result (read_and_process_data _ _ _ _)) as [out|e] eqn:Erun.
  - exists out. split; [reflexivity|].
    apply in_app_or in H as [H|H].
    { repeat (destruct H as [H|H]; [discriminate|]). destruct H. }
    destruct (fst (create_gantt_chart rt 0 out)) as [[label|e]|fig] eqn:Ec.
    + destruct H as [H|[H|[]]]; discriminate.
    + left. exists e. split; [reflexivity|].
      destruct H as [H|[H|[]]]; [discriminate|]. now injection H.
    + right. destruct (write_html rt fig "gantt_chart.html") as [e|] eqn:Ew.
      * exists fig, e. repeat split; [exact Ew|].
        destruct H as [H|[H|[]]]; [discriminate|]. now injection H.
      * exfalso. apply in_app_or in H as [H|H].
        { repeat (destruct H as [H|H]; [discriminate|]). destruct H. }
        apply in_flat_map in H as (r & _ & H).
        repeat (destruct H as [H|H]; [discriminate|]). destruct H.
  - exfalso. unfold handle in H.
    rewrite (handler_of_pipeline _ _ _ _ _ Erun) in H.
    destruct (path_exists w _); destruct H as [H|[H|[]]]; discriminate.
Qed.

Lemma the_ValueError_handler_of_main_serves_plotly_only_witness :
  In (HintLine ValueErrorClass) (main Desk.windows Desk.read_only)
  /\ exists out,
       result (read_and_process_data Desk.windows
                 "C:/Users/Admin/Documents/MinBook.csv"
                 "08/11/2024 17:00" "10/11/2024 23:59") = Ok out
       /\ ((exists e,
              fst (create_gantt_chart Desk.read_only 0 out) = inl (PlotlyError e)
              /\ class_of_exn e = ValueErrorClass)
           \/ (exists fig e,
                 fst (create_gantt_chart Desk.read_only 0 out) = inr fig
                 /\ write_html Desk.read_only fig "gantt_chart.html" = Some e
                 /\ class_of_exn e = ValueErrorClass)).
Proof.
  assert (H : In (HintLine ValueErrorClass) (main Desk.windows Desk.read_only)).
  { vm_compute. repeat (first [left; reflexivity|right]). }
  split; [exact H|].
  exact (the_ValueError_handler_of_main_serves_plotly_only Desk.windows
           Desk.read_only H).
Defined.

(** X16. [main] writes the chart at most after everything succeeded:
    when it writes a file, the file is [gantt_chart.html], the pipeline
    returned a result, the chart was made of that result, the writing did
    not raise, and no handler ran. A run of [main] in which a handler ran
    wrote nothing. *)
Theorem main_writes_the_chart_only_when_nothing_failed (w : world)
  (rt : runtime) (fig : figure) (output_file : string) :
  In (HtmlWritten fig output_file) (main w rt) ->
  output_file = "gantt_chart.html"
  /\ (exists out,
        result (read_and_process_data w "C:/Users/Admin/Documents/MinBook.csv"
                  "08/11/2024 17:00" "10/11/2024 23:59") = Ok out
        /\ fst (create_gantt_chart rt 0 out) = inr fig
        /\ write_html rt fig output_file = None)
  /\ forall handler c, ~ In (ErrorLine handler c) (main w rt).
Proof.
  unfold main. cbv zeta. intros H.
  apply in_app_or in H as [H|H].
  { destruct H as [H|[H|[]]]; discriminate. }
  apply in_app_or in H as [H|H].
  { now apply not_in_printed in H. }
  destruct (result (read_and_process_data _ _ _ _)) as [out|e] eqn:Erun.
  2: { destruct H as [H|[H|[]]]; discriminate. }
  apply in_app_or in H as [H|H].
  { repeat (destruct H as [H|H]; [discriminate|]). destruct H. }
  destruct (fst (create_gantt_chart rt 0 out)) as [ce|fig'] eqn:Ec.
  { destruct H as [H|[H|[]]]; discriminate. }
  destruct (write_html rt fig' "gantt_chart.html") as [e|] eqn:Ew.
  { destruct H as [H|[H|[]]]; discriminate. }
  apply in_app_or in H as [H|H].
  2: { apply in_flat_map in H as (r & _ & H).
       repeat (destruct H as [H|H]; [discriminate|]). destruct H. }
  destruct H as [H|[H|[H|[]]]]; try discriminate.
  injection H as -> <-. split; [reflexivity|]. split.
  - exists out. now repeat split.
  - intros handler c Hin.
    apply in_app_or in Hin as [Hin|Hin].
    { destruct Hin as [Hin|[Hin|[]]]; discriminate. }
    apply in_app_or in Hin as [Hin|Hin].
    { now apply not_in_printed in Hin. }
    apply in_app_or in Hin as [Hin|Hin].
    { repeat (destruct Hin as [Hin|Hin]; [discriminate|]). destruct Hin. }
    apply in_app_or in Hin as [Hin|Hin].
    { repeat (destruct Hin as [Hin|Hin]; [discriminate|]). destruct Hin. }
    apply in_flat_map in Hin as (r & _ & Hin).
    repeat (destruct Hin as [Hin|Hin]; [discriminate|]). destruct Hin.
Qed.

Lemma main_writes_the_chart_only_when_nothing_failed_witness :
  In (HtmlWritten Desk.chart "gantt_chart.html") (main Desk.windows Desk.quiet)
  /\ forall handler c, ~ In (ErrorLine handler c) (main Desk.windows Desk.quiet).
Proof.
  assert (H : In (HtmlWritten Desk.chart "gantt_chart.html")
                (main Desk.windows Desk.quiet)).
  { vm_compute. repeat (first [left; reflexivity|right]). }
  split; [exact H|].
  apply (main_writes_the_chart_only_when_nothing_failed Desk.windows
           Desk.quiet Desk.chart "gantt_chart.html" H).
Defined.

Lemma try_body_csv (w w' : world) (file_path sf ef : string) :
  extension w file_path = ".csv" -> extension w' file_path = ".csv" ->
  Forall (fun enc => read_csv w' file_path enc = read_csv w file_path enc)
    encodings ->
  try_body w' file_path sf ef = try_body w file_path sf ef.
Proof.
  intros He He' Hcsv. unfold try_body. cbv zeta.
  fold (extension w file_path). fold (extension w' file_path).
  rewrite He, He'. unfold read_file. cbn [String.eqb Ascii.eqb Bool.eqb].
  unfold try_read_csv. now rewrite (try_encodings_ext w w' file_path encodings Hcsv).
Qed.

(** X17. [main] reads its file as CSV and as nothing else: under the
    separators of POSIX or of Windows, what it does depends on the world
    only through the existence of the one path and the reads of the four
    encodings at that path; the readers of spreadsheets are never asked. *)
Theorem main_reads_its_file_as_csv_only (w w' : world) (rt : runtime) :
  let file_path := "C:/Users/Admin/Documents/MinBook.csv" in
  (path_seps w = OsPath.posix_seps \/ path_seps w = OsPath.nt_seps) ->
  (path_seps w' = OsPath.posix_seps \/ path_seps w' = OsPath.nt_seps) ->
  path_exists w' file_path = path_exists w file_path ->
  Forall (fun enc => read_csv w' file_path enc = read_csv w file_path enc)
    encodings ->
  main w' rt = main w rt.
Proof.
  cbv zeta. intros Hs Hs' Hex Hcsv.
  assert (Hrun : read_and_process_data w' "C:/Users/Admin/Documents/MinBook.csv"
                   "08/11/2024 17:00" "10/11/2024 23:59"
                 = read_and_process_data w "C:/Users/Admin/Documents/MinBook.csv"
                     "08/11/2024 17:00" "10/11/2024 23:59").
  { unfold read_and_process_data. rewrite Hex.
    destruct (path_exists w _); cbn [negb]; [|reflexivity].
    f_equal. apply try_body_csv; [| |exact Hcsv].
    - unfold extension. destruct Hs as [-> | ->]; reflexivity.
    - unfold extension. destruct Hs' as [-> | ->]; reflexivity. }
  unfold main. cbv zeta. now rewrite Hrun.
Qed.

Lemma main_reads_its_file_as_csv_only_witness :
  read_excel Desk.posix "C:/Users/Admin/Documents/MinBook.csv" "openpyxl"
  <> read_excel Desk.windows "C:/Users/Admin/Documents/MinBook.csv" "openpyxl"
  /\ main Desk.posix Desk.quiet = main Desk.windows Desk.quiet.
Proof.
  split; [discriminate|].
  apply (main_reads_its_file_as_csv_only Desk.windows Desk.posix Desk.quiet).
  - right. reflexivity.
  - left. reflexivity.
  - reflexivity.
  - repeat constructor.
Defined.

Lemma fold_min_spec (ts : list Z) (t : Z) :
  let m := fold_left Z.min ts t in
  In m (t :: ts) /\ forall x, In x (t :: ts) -> (m <= x)%Z.
Proof.
  cbv zeta. revert t. induction ts as [|u ts IH]; intros t; cbn [fold_left].
  - split; [now left|]. intros x [<-|[]]. lia.
  - destruct (IH (Z.min t u)) as [Hin Hle]. split.
    + destruct Hin as [Hin|Hin]; [|right; now right].
      rewrite <- Hin. destruct (Z.min_spec t u) as [[_ ->]|[_ ->]];
        [now left | right; now left].
    + intros x Hx.
      assert (Hm : (fold_left Z.min ts (Z.min t u) <= Z.min t u)%Z)
        by (apply Hle; now left).
      destruct Hx as [<-|[<-|Hx]]; [lia | lia | apply Hle; now right].
Qed.

Lemma fold_max_spec (ts : list Z) (t : Z) :
  let m := fold_left Z.max ts t in
  In m (t :: ts) /\ forall x, In x (t :: ts) -> (x <= m)%Z.
Proof.
  cbv zeta. revert t. induction ts as [|u ts IH]; intros t; cbn [fold_left].
  - split; [now left|]. intros x [<-|[]]. lia.
  - destruct (IH (Z.max t u)) as [Hin Hle]. split.
    + destruct Hin as [Hin|Hin]; [|right; now right].
      rewrite <- Hin. destruct (Z.max_spec t u) as [[_ ->]|[_ ->]];
        [right; now left | now left].
    + intros x Hx.
      assert (Hm : (Z.max t u <= fold_left Z.max ts (Z.max t u))%Z)
        by (apply Hle; now left).
      destruct Hx as [<-|[<-|Hx]]; [lia | lia | apply Hle; now right].
Qed.

Lemma omap_as_time_In (vs : list value) (t : Z) :
  In t (omap as_time vs) <-> In (Timestamp t) vs.
Proof.
  induction vs as [|v vs IH]; [reflexivity|].
  cbn [omap list_omap]. destruct v as [c|u|h]; cbn [as_time In].
  - rewrite IH. split; [now right | now intros [H|H]].
  - rewrite IH. split; intros [H|H]; try (now right); left; congruence.
  - rewrite IH. split; [now right | now intros [H|H]].
Qed.

Lemma series_min_spec (vs : list value) (t0 : Z) :
  In (Timestamp t0) vs ->
  exists m, series_min vs = Timestamp m
            /\ In (Timestamp m) vs
            /\ forall t, In (Timestamp t) vs -> (m <= t)%Z.
Proof.
  intros H. apply omap_as_time_In in H. unfold series_min.
  pose proof (omap_as_time_In vs) as Hin.
  destruct (omap as_time vs) as [|t ts]; [destruct H|].
  destruct (fold_min_spec ts t) as [Hm Hle].
  eexists. split; [reflexivity|]. split.
  - now apply Hin.
  - intros x Hx. apply Hle. now apply Hin.
Qed.

Lemma series_max_spec (vs : list value) (t0 : Z) :
  In (Timestamp t0) vs ->
  exists m, series_max vs = Timestamp m
            /\ In (Timestamp m) vs
            /\ forall t, In (Timestamp t) vs -> (t <= m)%Z.
Proof.
  intros H. apply omap_as_time_In in H. unfold series_max.
  pose proof (omap_as_time_In vs) as Hin.
  destruct (omap as_time vs) as [|t ts]; [destruct H|].
  destruct (fold_max_spec ts t) as [Hm Hle].
  eexists. split; [reflexivity|]. split.
  - now apply Hin.
  - intros x Hx. apply Hle. now apply Hin.
Qed.

Lemma result_dates (w : world) (file_path sf ef : string) (out : frame value) :
  result (read_and_process_data w file_path sf ef) = Ok out ->
  exists a b,
    parse_window sf ef = Ok (a, b)
    /\ rows out <> []
    /\ forall o, In o (rows out) ->
         exists s e, get "Start Date (CET)" o = Timestamp s
                     /\ get "End Date (CET)" o = Timestamp e
                     /\ (a <= s)%Z /\ (e <= b)%Z.
Proof.
  intros Hrun. apply run_Ok_iff in Hrun as (_ & df & _ & Hst).
  apply stages_Ok_iff in Hst as (_ & a & b & Hwin & Hne & ->).
  exists a, b. split; [exact Hwin|]. cbn [rows].
  split; [now apply map_not_nil|]. intros o Ho.
  apply in_map_iff in Ho as (r & <- & Hr).
  apply List.filter_In in Hr as [_ Hk].
  apply kept_true in Hk as (s & e & rest & Hs & He & _ & Has & Heb).
  destruct (get_finish r) as (_ & Gs & Ge & _).
  exists s, e. rewrite Gs, Ge, Hs, He. now repeat split.
Qed.

(** X18. When the pipeline succeeds, the summary [main] prints is that
    of the result: the number of tasks is the number of its rows, at least
    one; the earliest start printed is the start of one of its rows, no row
    starts before it, and it is not before 08/11/2024 17:00; the latest end
    printed is the end of one of its rows, no row ends after it, and it is
    not after 10/11/2024 23:59. *)
Theorem the_summary_of_main_lies_in_its_window (w : world) (rt : runtime)
  (out : frame value) :
  result (read_and_process_data w "C:/Users/Admin/Documents/MinBook.csv"
            "08/11/2024 17:00" "10/11/2024 23:59") = Ok out ->
  exists first last,
    In (TotalTasks (length (rows out))) (main w rt)
    /\ 1 <= length (rows out)
    /\ In (EarliestStart (Timestamp first)) (main w rt)
    /\ In (LatestEnd (Timestamp last)) (main w rt)
    /\ (1731085200 <= first)%Z /\ (last <= 1731283140)%Z
    /\ (exists o, In o (rows out) /\ get "Start Date (CET)" o = Timestamp first)
    /\ (exists o, In o (rows out) /\ get "End Date (CET)" o = Timestamp last)
    /\ (forall o s, In o (rows out) ->
          get "Start Date (CET)" o = Timestamp s -> (first <= s)%Z)
    /\ (forall o e, In o (rows out) ->
          get "End Date (CET)" o = Timestamp e -> (e <= last)%Z).
Proof.
  intros Hrun.
  destruct (result_dates _ _ _ _ _ Hrun) as (a & b & Hwin & Hne & Hrows).
  assert (Hab : a = 1731085200%Z /\ b = 1731283140%Z).
  { vm_compute in Hwin. now injection Hwin as <- <-. }
  destruct Hab as [-> ->].
  destruct (rows out) as [|o0 l0] eqn:Eout; [now destruct Hne|].
  rewrite <- Eout in *.
  destruct (Hrows o0) as (s0 & e0 & Hs0 & He0 & _); [rewrite Eout; now left|].
  destruct (series_min_spec (column (Raw NaN) out "Start Date (CET)") s0)
    as (first & Hmin & Hfirst & Hleast).
  { unfold column. apply in_map_iff. exists o0. split; [exact Hs0|].
    rewrite Eout. now left. }
  destruct (series_max_spec (column (Raw NaN) out "End Date (CET)") e0)
    as (last & Hmax & Hlast & Hmost).
  { unfold column. apply in_map_iff. exists o0. split; [exact He0|].
    rewrite Eout. now left. }
  unfold column in Hfirst, Hlast, Hleast, Hmost.
  apply in_map_iff in Hfirst as (o1 & Hof & Hinf).
  apply in_map_iff in Hlast as (o2 & Hol & Hinl).
  exists first, last.
  assert (Hmain : forall ev,
            In ev [SummaryHeader; TotalTasks (length (rows out)); DateRangeHeader;
                   EarliestStart (series_min (column (Raw NaN) out "Start Date (CET)"));
                   LatestEnd (series_max (column (Raw NaN) out "End Date (CET)"))] ->
            In ev (main w rt)).
  { intros ev Hev. unfold main. cbv zeta. rewrite Hrun.
    apply in_or_app. right. apply in_or_app. right. apply in_or_app. left.
    cbn [In] in *. tauto. }
  repeat apply conj.
  - apply Hmain. cbn. tauto.
  - rewrite Eout. cbn. lia.
  - apply Hmain. rewrite Hmin. cbn. tauto.
  - apply Hmain. rewrite Hmax. cbn. tauto.
  - destruct (Hrows o1 Hinf) as (s & e & Hs & _ & H1 & _).
    unfold get in Hs. rewrite Hof in Hs. injection Hs as <-. exact H1.
  - destruct (Hrows o2 Hinl) as (s & e & _ & He & _ & H2).
    unfold get in He. rewrite Hol in He. injection He as <-. exact H2.
  - exists o1. split; [exact Hinf|exact Hof].
  - exists o2. split; [exact Hinl|exact Hol].
  - intros o s Ho Hs. apply Hleast. apply in_map_iff. exists o.
    split; [exact Hs|exact Ho].
  - intros o e Ho He. apply Hmost. apply in_map_iff. exists o.
    split; [exact He|exact Ho].
Qed.

Lemma the_summary_of_main_lies_in_its_window_witness :
  exists first last,
    In (TotalTasks 1) (main Desk.windows Desk.quiet)
    /\ In (EarliestStart (Timestamp first)) (main Desk.windows Desk.quiet)
    /\ In (LatestEnd (Timestamp last)) (main Desk.windows Desk.quiet)
    /\ (1731085200 <= first)%Z /\ (last <= 1731283140)%Z.
Proof.
  destruct (the_summary_of_main_lies_in_its_window Desk.windows Desk.quiet
              Desk.returned)
    as (first & last & Htotal & _ & Hfirst & Hlast & Hge & Hle & _).
  - vm_compute. reflexivity.
  - exists first, last. repeat split; assumption.
Defined.

(** ** The reader and the validation, once more *)

(** X19. On a path that exists and whose extension, in lower case, is
    none of [.xlsx], [.xls] and [.csv], a run prints nothing, asks no
    reader and raises the unsupported-format error with that extension,
    inside the processing error. *)
Theorem an_unsupported_extension_fails_before_any_read (w : world)
  (file_path start_date_filter end_date_filter : string) :
  path_exists w file_path = true ->
  extension w file_path <> ".xlsx" ->
  extension w file_path <> ".xls" ->
  extension w file_path <> ".csv" ->
  read_and_process_data w file_path start_date_filter end_date_filter
  = ([], Raise (ProcessingError (UnsupportedFormat (extension w file_path)))).
Proof.
  intros Hex H1 H2 H3. unfold read_and_process_data. rewrite Hex. cbn [negb].
  unfold try_body. cbv zeta. fold (extension w file_path). unfold read_file.
  apply String.eqb_neq in H1, H2, H3. now rewrite H1, H2, H3.
Qed.

Lemma an_unsupported_extension_fails_before_any_read_witness :
  extension Desk.windows "notes.txt" = ".txt"
  /\ read_and_process_data Desk.windows "notes.txt"
       "08/11/2024 17:00" "10/11/2024 23:59"
     = ([], Raise (ProcessingError (UnsupportedFormat ".txt"))).
Proof.
  split; [reflexivity|].
  apply (an_unsupported_extension_fails_before_any_read Desk.windows
           "notes.txt").
  - reflexivity.
  - vm_compute. discriminate.
  - vm_compute. discriminate.
  - vm_compute. discriminate.
Defined.

Lemma filter_idempotent {A : Type} (f : A -> bool) (l : list A) :
  List.filter f (List.filter f l) = List.filter f l.
Proof.
  rewrite filter_filter_and. apply List.filter_ext. intros x. now destruct (f x).
Qed.

(** X20. Validation changes no column and no cell: it returns the rows
    of the table that have a cell that is not missing under one of its
    columns, in their order; and what it returns passes validation
    unchanged. *)
Theorem validation_keeps_the_rows_with_a_cell_and_is_idempotent
  (df file : frame cell) :
  clean_and_validate_data df = Ok file ->
  columns file = columns df
  /\ rows file `sublist_of` rows df
  /\ (forall r, In r (rows file)
                <-> In r (rows df)
                    /\ exists col, In col (columns df)
                                   /\ at_column NaN col r <> NaN)
  /\ clean_and_validate_data file = Ok file.
Proof.
  intros H. apply validated in H as [-> Hreq]. unfold dropna_all.
  cbn [columns rows select]. split; [reflexivity|].
  split; [apply filter_sublist|]. split.
  - intros r. rewrite List.filter_In, negb_true_iff. apply and_iff_compat_l.
    split.
    + intros Hall.
      destruct (existsb (fun col => negb (isna (at_column NaN col r))) (columns df))
        eqn:E.
      * apply existsb_exists in E as (col & Hcol & Hna). exists col.
        split; [exact Hcol|]. intros Heq. now rewrite Heq in Hna.
      * exfalso. assert (Htrue : forallb (fun col => isna (at_column NaN col r))
                                   (columns df) = true); [|congruence].
        apply forallb_forall. intros col Hcol.
        destruct (isna (at_column NaN col r)) eqn:Ena; [reflexivity|].
        assert (Hex : existsb (fun col => negb (isna (at_column NaN col r)))
                        (columns df) = true); [|congruence].
        apply existsb_exists. exists col. split; [exact Hcol|]. now rewrite Ena.
    + intros (col & Hcol & Hna).
      destruct (forallb _ (columns df)) eqn:E; [|reflexivity].
      rewrite forallb_forall in E. specialize (E col Hcol).
      destruct (at_column NaN col r); [now destruct Hna | discriminate..].
  - rewrite clean_and_validate_data_spec. cbn [columns select].
    rewrite (no_missing_columns _ Hreq). f_equal.
    unfold dropna_all, select. cbn [columns rows]. f_equal.
    apply filter_idempotent.
Qed.

Lemma validation_keeps_the_rows_with_a_cell_and_is_idempotent_witness :
  clean_and_validate_data Sample.runbook = Ok (cells Sample.runbook)
  /\ forall r, In r (rows Sample.runbook)
               <-> In r (rows Sample.runbook)
                   /\ exists col, In col (columns Sample.runbook)
                                  /\ at_column NaN col r <> NaN.
Proof.
  split; [vm_compute; reflexivity|].
  apply (validation_keeps_the_rows_with_a_cell_and_is_idempotent
           Sample.runbook Sample.runbook).
  vm_compute. reflexivity.
Defined.

(** ** The chart of a result *)

Lemma result_tasks (w : world) (file_path sf ef : string) (out : frame value) :
  result (read_and_process_data w file_path sf ef) = Ok out ->
  exists a b,
    parse_window sf ef = Ok (a, b)
    /\ forall o, In o (rows out) ->
         exists rest s e,
           get "Activity Number" o = Raw (Str (String.append "Prod" rest))
           /\ get "Start Date (CET)" o = Timestamp s
           /\ get "End Date (CET)" o = Timestamp e
           /\ (a <= s)%Z /\ (e <= b)%Z.
Proof.
  intros Hrun. apply run_Ok_iff in Hrun as (_ & df & _ & Hst).
  apply stages_Ok_iff in Hst as (_ & a & b & Hwin & _ & ->).
  exists a, b. split; [exact Hwin|]. cbn [rows]. intros o Ho.
  apply in_map_iff in Ho as (r & <- & Hr).
  apply List.filter_In in Hr as [_ Hk].
  apply kept_true in Hk as (s & e & rest & Hs & He & Hid & Has & Heb).
  destruct (get_finish r) as (Gid & Gs & Ge & _).
  exists rest, s, e. rewrite Gid, Gs, Ge, Hs, He, Hid.
  repeat split; assumption.
Qed.

Lemma unique_not_nil (same : value -> value -> bool) (l : list value) :
  l <> [] -> unique same l <> [].
Proof. destruct l as [|v l]; [easy|]. discriminate. Qed.

(** X21. The chart of a result: on what [read_and_process_data] returns,
    [create_gantt_chart] raises no [KeyError], whatever the run time; a
    figure it returns has a task and a colour at least, and every task of
    it has an identifier that starts with [Prod] and a start and a finish
    that are dates of the window of the run. *)
Theorem the_chart_of_a_result_shows_dated_Prod_tasks (w : world) (rt : runtime)
  (file_path start_date_filter end_date_filter : string) (out : frame value)
  (k : nat) :
  result (read_and_process_data w file_path start_date_filter end_date_filter)
  = Ok out ->
  (forall label, fst (create_gantt_chart rt k out) <> inl (KeyError label))
  /\ forall fig,
       fst (create_gantt_chart rt k out) = inr fig ->
       fig_tasks fig <> [] /\ fig_colors fig <> []
       /\ exists start_date end_date,
            parse_window start_date_filter end_date_filter
            = Ok (start_date, end_date)
            /\ forall t, In t (fig_tasks fig) ->
                 exists rest s e,
                   Task t = Raw (Str (String.append "Prod" rest))
                   /\ Start t = Timestamp s /\ Finish t = Timestamp e
                   /\ (start_date <= s)%Z /\ (e <= end_date)%Z.
Proof.
  intros Hrun.
  destruct (result_columns _ _ _ _ _ Hrun) as (Hne & Hreq & _).
  assert (Hkeys : forall label, In label task_keys -> In label (columns out)).
  { intros label Hl. apply Hreq. unfold task_keys, required_columns in *.
    cbn [In] in *. tauto. }
  split.
  - intros label. unfold create_gantt_chart. cbv zeta.
    rewrite (no_label_absent (columns out) task_keys Hkeys).
    rewrite (no_label_absent (columns out) ["Responsible Person"]).
    + destruct (rows out); destruct (create_gantt rt _ _); discriminate.
    + intros l [<-|[]]. apply Hkeys. unfold task_keys. cbn [In]. tauto.
  - intros fig Hfig.
    destruct (create_gantt_chart rt k out) as [r k'] eqn:E. cbn [fst] in Hfig.
    subst r. apply create_gantt_chart_figure in E as (-> & _ & _).
    cbn [fig_tasks fig_colors]. split; [now apply map_not_nil|]. split.
    + assert (Hu : unique (same_key rt)
                     (column (Raw NaN) out "Responsible Person") <> []).
      { apply unique_not_nil. unfold column. now apply map_not_nil. }
      destruct (unique _ _); [now destruct Hu|discriminate].
    + destruct (result_tasks _ _ _ _ _ Hrun) as (a & b & Hwin & Hrows).
      exists a, b. split; [exact Hwin|]. intros t Ht.
      apply in_map_iff in Ht as (o & <- & Ho).
      destruct (Hrows o Ho) as (rest & s & e & Hid & Hs & He & Hb).
      exists rest, s, e. cbn [task_of Task Start Finish].
      split; [exact Hid|]. split; [exact Hs|]. split; [exact He|exact Hb].
Qed.

Lemma the_chart_of_a_result_shows_dated_Prod_tasks_witness :
  result (read_and_process_data Desk.windows
            "C:/Users/Admin/Documents/MinBook.csv"
            "08/11/2024 17:00" "10/11/2024 23:59") = Ok Desk.returned
  /\ forall label,
       fst (create_gantt_chart Desk.quiet 0 Desk.returned)
       <> inl (KeyError label).
Proof.
  split; [vm_compute; reflexivity|].
  apply (the_chart_of_a_result_shows_dated_Prod_tasks Desk.windows Desk.quiet
           "C:/Users/Admin/Documents/MinBook.csv"
           "08/11/2024 17:00" "10/11/2024 23:59" Desk.returned 0).
  vm_compute. reflexivity.
Defined.
